(** * get_ship_data: the orchestration glue of the Pacific Hake notebook

    The notebook [docs/source/version_0.1.0/get_ship_data.ipynb] is a linear
    script: it builds an output directory layout, lists raw files of a remote
    bucket, keeps the files of a date range, converts each of them inside a
    [try]/[except] loop and merges the per-file products.  The Python
    built-ins the script relies on ([str], [zfill], [in], [range], [datetime],
    [pathlib.Path]) are embedded first, following their reference
    implementation; the cells of the notebook come after. *)

From Stdlib Require Import ZArith Lia Bool List.
From Stdlib Require Import Strings.String Strings.Ascii Numbers.DecimalString.
From stdpp Require Import base option list gmap strings.

Open Scope string_scope.
Open Scope Z_scope.

(** ** Python built-ins *)

Module Py.

(** A [string] holds the characters of a Python [str]; the characters are
    those of code point below 256.

    An instance of Python's [Exception], as an [except Exception as e]
    clause binds it: the class name and what [str(e)] prints.  Interrupts
    of the interpreter ([KeyboardInterrupt], [SystemExit]) are not
    exceptions of this kind and are not modelled, and every call is taken
    to end: it returns or it raises. *)
Record Exception : Type := mkException { exc_class : string; exc_str : string }.

(** A Python expression either evaluates to a value or raises. *)
Inductive result (A : Type) : Type :=
| Ok (a : A)
| Raise (e : Exception).
Arguments Ok {A} a.
Arguments Raise {A} e.

Definition bind {A B : Type} (r : result A) (k : A -> result B) : result B :=
  match r with
  | Ok a => k a
  | Raise e => Raise e
  end.


(** [str(n)] for an [int]. *)
Definition str (n : Z) : string := NilZero.string_of_int (Z.to_int n).

Fixpoint zeros (n : nat) : string :=
  match n with
  | O => ""
  | S n' => String "0" (zeros n')
  end.

(** [s.zfill(width)]: zeros go after a leading sign. *)
Definition zfill (s : string) (width : nat) : string :=
  let fill := zeros (width - String.length s) in
  match s with
  | String "+" rest => String "+" (fill ++ rest)
  | String "-" rest => String "-" (fill ++ rest)
  | _ => fill ++ s
  end.

(** [sub in s] for two [str]. *)
Fixpoint str_in (sub s : string) : bool :=
  String.prefix sub s ||
  match s with
  | EmptyString => false
  | String _ s' => str_in sub s'
  end.

(** [c in s] for a character [c]. *)
Fixpoint has_char (c : ascii) (s : string) : bool :=
  match s with
  | EmptyString => false
  | String x s' => Ascii.eqb x c || has_char c s'
  end.

(** [c.isprintable()] for a character of code point below 256: the
    controls, the no-break space and the soft hyphen are not. *)
Definition isprintable (c : ascii) : bool :=
  let n := N_of_ascii c in
  ((32 <=? n) && (n <? 127) || (161 <=? n) && negb (n =? 173))%N.

Definition hex_digit (n : N) : ascii :=
  match String.get (N.to_nat n) "0123456789abcdef" with
  | Some c => c
  | None => "0"%char
  end.

Definition backslash : ascii := "092"%char.
Definition squote : ascii := "039"%char.
Definition dquote : ascii := "034"%char.

(** How [repr] writes one character between the quotes [quote]. *)
Definition repr_char (quote c : ascii) : string :=
  if Ascii.eqb c quote || Ascii.eqb c backslash
  then String backslash (String c "")
  else if Ascii.eqb c "009" then String backslash "t"
  else if Ascii.eqb c "010" then String backslash "n"
  else if Ascii.eqb c "013" then String backslash "r"
  else if isprintable c then String c ""
  else String backslash
         (String "x"
            (String (hex_digit (N_of_ascii c / 16))
               (String (hex_digit (N_of_ascii c mod 16)) ""))).

Fixpoint repr_chars (quote : ascii) (s : string) : string :=
  match s with
  | EmptyString => ""
  | String c s' => repr_char quote c ++ repr_chars quote s'
  end.

(** [repr(s)] for a [str]: between single quotes, unless [s] holds a single
    quote and no double quote. *)
Definition repr (s : string) : string :=
  let quote := if has_char squote s && negb (has_char dquote s)
               then dquote else squote in
  String quote (repr_chars quote s ++ String quote "").

(** [range(lo, hi)]. *)
Definition range (lo hi : Z) : list Z := seqZ lo (hi - lo).

(** [any(l)] for a list of [bool]. *)
Definition any (l : list bool) : bool := existsb (fun b => b) l.

End Py.

Notation "x <- e1 ;; e2" := (Py.bind e1 (fun x => e2))
  (at level 100, e1 at next level, right associativity).

(** ** The [datetime] module *)

Module Datetime.
Import Py.

Definition MINYEAR : Z := 1.
Definition MAXYEAR : Z := 9999.
Definition _MAXORDINAL : Z := 3652059.

Definition _DAYS_IN_MONTH (month : Z) : Z :=
  match month with
  | 1 => 31 | 2 => 28 | 3 => 31 | 4 => 30 | 5 => 31 | 6 => 30
  | 7 => 31 | 8 => 31 | 9 => 30 | 10 => 31 | 11 => 30 | 12 => 31
  | _ => -1
  end.

Definition _DAYS_BEFORE_MONTH (month : Z) : Z :=
  match month with
  | 1 => 0 | 2 => 31 | 3 => 59 | 4 => 90 | 5 => 120 | 6 => 151
  | 7 => 181 | 8 => 212 | 9 => 243 | 10 => 273 | 11 => 304 | 12 => 334
  | _ => -1
  end.

Definition _is_leap (year : Z) : bool :=
  (year mod 4 =? 0) && (negb (year mod 100 =? 0) || (year mod 400 =? 0)).

Definition _days_before_year (year : Z) : Z :=
  let y := year - 1 in
  y * 365 + y / 4 - y / 100 + y / 400.

Definition _days_in_month (year month : Z) : Z :=
  if (month =? 2) && _is_leap year then 29 else _DAYS_IN_MONTH month.

Definition _days_before_month (year month : Z) : Z :=
  _DAYS_BEFORE_MONTH month + (if (2 <? month) && _is_leap year then 1 else 0).

Definition _ymd2ord (year month day : Z) : Z :=
  _days_before_year year + _days_before_month year month + day.

Definition _DI400Y : Z := 146097.
Definition _DI100Y : Z := 36524.
Definition _DI4Y : Z := 1461.

Definition _ord2ymd (n0 : Z) : Z * Z * Z :=
  let n := n0 - 1 in
  let n400 := n / _DI400Y in
  let n := n mod _DI400Y in
  let year := n400 * 400 + 1 in
  let n100 := n / _DI100Y in
  let n := n mod _DI100Y in
  let n4 := n / _DI4Y in
  let n := n mod _DI4Y in
  let n1 := n / 365 in
  let n := n mod 365 in
  let year := year + (n100 * 100 + n4 * 4 + n1) in
  if (n1 =? 4) || (n100 =? 4) then (year - 1, 12, 31)
  else
    let leapyear := (n1 =? 3) && (negb (n4 =? 24) || (n100 =? 3)) in
    let month := Z.shiftr (n + 50) 5 in
    let preceding :=
      _DAYS_BEFORE_MONTH month + (if (2 <? month) && leapyear then 1 else 0) in
    if n <? preceding then
      let month := month - 1 in
      let preceding :=
        preceding
        - (_DAYS_IN_MONTH month + (if (month =? 2) && leapyear then 1 else 0)) in
      (year, month, n - preceding + 1)
    else (year, month, n - preceding + 1).

(** A [datetime] without time zone.  The constructor of the class refuses
    fields out of range, see [valid]. *)
Record datetime : Type := mkDatetime {
  year : Z; month : Z; day : Z;
  hour : Z; minute : Z; second : Z; microsecond : Z
}.

Definition valid_date (y m d : Z) : Prop :=
  MINYEAR <= y <= MAXYEAR /\ 1 <= m <= 12 /\ 1 <= d <= _days_in_month y m.

Definition valid (t : datetime) : Prop :=
  valid_date (year t) (month t) (day t) /\
  0 <= hour t <= 23 /\ 0 <= minute t <= 59 /\ 0 <= second t <= 59 /\
  0 <= microsecond t <= 999999.

Definition toordinal (t : datetime) : Z := _ymd2ord (year t) (month t) (day t).

(** A [timedelta], normalised as its constructor leaves it. *)
Record timedelta : Type := mkTimedelta {
  days : Z; seconds : Z; microseconds : Z
}.

Definition new_timedelta (d s us : Z) : timedelta :=
  let s := s + us / 1000000 in
  let us := us mod 1000000 in
  let d := d + s / 86400 in
  let s := s mod 86400 in
  {| days := d; seconds := s; microseconds := us |}.

(** [a - b] for two [datetime]. *)
Definition sub (a b : datetime) : timedelta :=
  let days1 := toordinal a in
  let days2 := toordinal b in
  let secs1 := second a + minute a * 60 + hour a * 3600 in
  let secs2 := second b + minute b * 60 + hour b * 3600 in
  new_timedelta (days1 - days2) (secs1 - secs2) (microsecond a - microsecond b).

(** [t + other] for a [datetime] and a [timedelta]. *)
Definition add (t : datetime) (other : timedelta) : result datetime :=
  let delta :=
    new_timedelta (toordinal t)
      (second t + minute t * 60 + hour t * 3600) (microsecond t) in
  let delta :=
    new_timedelta (days delta + days other) (seconds delta + seconds other)
      (microseconds delta + microseconds other) in
  let hour := seconds delta / 3600 in
  let rem := seconds delta mod 3600 in
  let minute := rem / 60 in
  let second := rem mod 60 in
  if (0 <? days delta) && (days delta <=? _MAXORDINAL) then
    let '(y, m, d) := _ord2ymd (days delta) in
    Ok (mkDatetime y m d hour minute second (microseconds delta))
  else Raise (mkException "OverflowError" "date value out of range").

(** [t.strftime('%Y-%m-%d-%H-%M')] as the C library of Linux formats it:
    the year as it is, without padding, the other fields on two digits. *)
Definition strftime_Ymd_HM (t : datetime) : string :=
  str (year t) ++ "-" ++ zfill (str (month t)) 2 ++ "-" ++
  zfill (str (day t)) 2 ++ "-" ++ zfill (str (hour t)) 2 ++ "-" ++
  zfill (str (minute t)) 2.

End Datetime.


(** ** [pathlib] *)

Module Pathlib.
Import Py.

(** [s.lstrip('/')]. *)
Fixpoint lstrip_sep (s : string) : string :=
  match s with
  | String "/" s' => lstrip_sep s'
  | _ => s
  end.

(** [s.split('/')]. *)
Fixpoint split_sep (s : string) : list string :=
  match s with
  | EmptyString => [""]
  | String "/" s' => "" :: split_sep s'
  | String c s' =>
      match split_sep s' with
      | x :: xs => String c x :: xs
      | [] => [String c ""]
      end
  end.

(** The root of a POSIX path and what follows it. *)
Definition splitroot (part : string) : string * string :=
  match part with
  | String "/" _ =>
      let stripped_part := lstrip_sep part in
      if (String.length part - String.length stripped_part =? 2)%nat
      then ("//", stripped_part) else ("/", stripped_part)
  | _ => ("", part)
  end.

Definition keep_part (x : string) : bool :=
  negb (String.eqb x "") && negb (String.eqb x ".").

(** [Path(s)]: the parts of the path, the root first when there is one. *)
Definition Path (s : string) : list string :=
  let '(root, rel) := splitroot s in
  ((if String.eqb root "" then [] else [root])
     ++ List.filter keep_part (split_sep rel))%list.

Definition is_root (x : string) : bool := String.prefix "/" x.

(** [p / key]: an absolute [key] replaces [p]. *)
Definition joinpath (p : list string) (key : string) : list string :=
  match Path key with
  | x :: xs => if is_root x then x :: xs else (p ++ x :: xs)%list
  | [] => p
  end.

(** [p.name]. *)
Definition name (p : list string) : string :=
  match p with
  | [] => ""
  | [x] => if is_root x then "" else x
  | _ => List.last p ""
  end.

(** [s.rfind('.')], [-1] when there is no dot. *)
Fixpoint rfind_dot (s : string) : Z :=
  match s with
  | EmptyString => -1
  | String c s' =>
      let i := rfind_dot s' in
      if 0 <=? i then i + 1
      else if Ascii.eqb c "." then 0 else -1
  end.

(** [p.stem]. *)
Definition stem (p : list string) : string :=
  let name := name p in
  let i := rfind_dot name in
  if (0 <? i) && (i <? Z.of_nat (String.length name) - 1)
  then String.substring 0 (Z.to_nat i) name
  else name.

(** [str(p)]: the parts joined by the separator, after the root when there
    is one; [.] for the path without parts. *)
Definition path_str (p : list string) : string :=
  match p with
  | [] => "."
  | x :: xs => if is_root x then x ++ String.concat "/" xs
               else String.concat "/" p
  end.

(** [p.parent]. *)
Definition parent (p : list string) : list string :=
  match p with
  | [] => []
  | [x] => if is_root x then [x] else []
  | _ => List.removelast p
  end.

End Pathlib.

(** ** The local file system *)

Module Fs.
Import Py Pathlib.

(** What a path names: a directory, or a regular file with its bytes. *)
Inductive node : Type :=
| Dir
| File (bytes : string).

#[global] Instance node_eq_dec : EqDecision node.
Proof. solve_decision. Defined.

(** The file system as the script sees it from its working directory: the
    tree of the entries, as a finite map from the parts of a path, as
    spelled, to a node (no symbolic link, no [..] to resolve).  The working
    directory itself (the path without parts) always is a directory.  The
    file system is that of Linux and refuses nothing but what is written
    out below (no permission, no quota). *)
Definition lookup_node (fs : gmap (list string) node) (p : list string)
  : option node :=
  match p with
  | [] => Some Dir
  | _ => fs !! p
  end.

Definition is_dir (fs : gmap (list string) node) (p : list string) : bool :=
  match lookup_node fs p with
  | Some Dir => true
  | _ => false
  end.

(** The errors of the operating system that the calls below meet. *)
Inductive errno : Type :=
| ENOENT | EEXIST | ENOTDIR | EISDIR | ENAMETOOLONG.

Definition errno_number (e : errno) : Z :=
  match e with
  | ENOENT => 2 | EEXIST => 17 | ENOTDIR => 20 | EISDIR => 21
  | ENAMETOOLONG => 36
  end.

Definition strerror (e : errno) : string :=
  match e with
  | ENOENT => "No such file or directory"
  | EEXIST => "File exists"
  | ENOTDIR => "Not a directory"
  | EISDIR => "Is a directory"
  | ENAMETOOLONG => "File name too long"
  end.

(** The subclass of [OSError] that Python raises for an error. *)
Definition errno_class (e : errno) : string :=
  match e with
  | ENOENT => "FileNotFoundError"
  | EEXIST => "FileExistsError"
  | ENOTDIR => "NotADirectoryError"
  | EISDIR => "IsADirectoryError"
  | ENAMETOOLONG => "OSError"
  end.

(** The exception for the error [e] on the path [p]; [str] of it names the
    path. *)
Definition OSError (e : errno) (p : list string) : Exception :=
  mkException (errno_class e)
    ("[Errno " ++ str (errno_number e) ++ "] " ++ strerror e ++ ": " ++
     repr (path_str p)).

Definition NAME_MAX : nat := 255.
Definition PATH_MAX : nat := 4096.

(** The number of bytes of [os.fsencode(s)]: a character from code point 128
    on takes two. *)
Fixpoint fsencode_length (s : string) : nat :=
  match s with
  | EmptyString => 0
  | String c s' =>
      ((if (N_of_ascii c <? 128)%N then 1 else 2) + fsencode_length s')%nat
  end.

(** Why the directory [done ++ todo] cannot be reached from the directory
    [done]: the first part that is not there, too long to be a name, or not
    a directory. *)
Fixpoint walk_error (fs : gmap (list string) node) (done todo : list string)
  : errno :=
  match todo with
  | [] => ENOENT
  | c :: todo' =>
      match fs !! (done ++ [c])%list with
      | Some Dir => walk_error fs (done ++ [c])%list todo'
      | Some (File _) => ENOTDIR
      | None =>
          if (NAME_MAX <? fsencode_length c)%nat then ENAMETOOLONG
          else ENOENT
      end
  end.

(** What the operating system finds at [p] for a call that is to create
    it: the node there, or nothing.  Python refuses a path with a null
    character before the call; the system refuses a path of [PATH_MAX]
    bytes or more, one whose directory it cannot reach, and a new name of
    more than [NAME_MAX] bytes. *)
Definition find (p : list string) (fs : gmap (list string) node)
  : result (option node) :=
  if has_char "000" (path_str p)
  then Raise (mkException "ValueError" "embedded null byte")
  else if (PATH_MAX <=? fsencode_length (path_str p))%nat
  then Raise (OSError ENAMETOOLONG p)
  else
    match lookup_node fs (parent p) with
    | Some Dir =>
        match lookup_node fs p with
        | Some n => Ok (Some n)
        | None =>
            if (NAME_MAX <? fsencode_length (name p))%nat
            then Raise (OSError ENAMETOOLONG p)
            else Ok None
        end
    | _ => Raise (OSError (walk_error fs [] (parent p)) p)
    end.

(** [p.mkdir(exist_ok=exist_ok)], without [parents]: the parent has to be a
    directory; an existing path is accepted only with [exist_ok] and when it
    is a directory. *)
Definition mkdir (p : list string) (exist_ok : bool)
    (fs : gmap (list string) node) : result (gmap (list string) node) :=
  n <- find p fs ;;
  match n with
  | None => Ok (<[p := Dir]> fs)
  | Some _ =>
      if exist_ok && is_dir fs p then Ok fs else Raise (OSError EEXIST p)
  end.

(** Opening [p] for writing and storing [bytes]: an existing file is
    replaced. *)
Definition write_file (p : list string) (bytes : string)
    (fs : gmap (list string) node) : result (gmap (list string) node) :=
  n <- find p fs ;;
  match n with
  | Some Dir => Raise (OSError EISDIR p)
  | _ => Ok (<[p := File bytes]> fs)
  end.

(** [s.endswith(suf)]. *)
Definition endswith (suf s : string) : bool :=
  (String.length suf <=? String.length s)%nat &&
  String.eqb
    (String.substring (String.length s - String.length suf)
       (String.length suf) s) suf.

(** The characters that make [glob] read a string as a pattern. *)
Definition has_magic (s : string) : bool :=
  has_char "*" s || has_char "?" s || has_char "[" s.

(** [fnmatch] of a name against the pattern [pre*suf], as [glob] applies it:
    a name starting with a dot is matched only by a pattern that does. *)
Definition glob_match (pre suf name : string) : bool :=
  String.prefix pre name && endswith suf name &&
  (String.length pre + String.length suf <=? String.length name)%nat &&
  (String.prefix "." pre || negb (String.prefix "." name)).

(** [glob(str(dir / 'pre*suf'))] for a directory that [glob] takes as it is
    spelled ([has_magic] does not hold of it): the entries of [dir] that
    match, with what they hold. *)
Definition glob (dir : list string) (pre suf : string)
    (fs : gmap (list string) node) : gmap (list string) node :=
  filter
    (fun kv => parent (fst kv) = dir /\
               glob_match pre suf (name (fst kv)) = true) fs.

End Fs.


(** ** The notebook *)

Module Notebook.
Import Py Datetime Pathlib Fs.

(** The constants of the configuration cell.  [range_meter_bin] is a float
    in the script; it is kept as the text [str] prints for it, which is all
    the script does with it besides passing it on. *)
Record Config : Type := mkConfig {
  data_type : string;
  range_meter_bin : string;
  ping_time_bin : string;
  start_datetime : datetime;
  end_datetime : datetime
}.

Definition config : Config :=
  {| data_type := "Hake";
     range_meter_bin := "0.2";
     ping_time_bin := "2s";
     start_datetime := mkDatetime 2017 7 24 0 0 0 0;
     end_datetime := mkDatetime 2017 8 24 23 59 0 0 |}.

(** The services of fsspec, echopype and xarray that the script calls.
    Their results are not the script's to decide: each call either returns
    or raises. *)
Record External : Type := mkExternal {
  EchoData : Type;
  Dataset : Type;
  DataArray : Type;
  (** [fsspec.filesystem('s3', anon=True).glob(pattern)] *)
  s3_glob : string -> result (list string);
  (** [ep.open_raw(url, sonar_model=..., storage_options={'anon': True})] *)
  open_raw : string -> string -> result EchoData;
  (** [ep.calibrate.compute_Sv(ed)] *)
  compute_Sv : EchoData -> result Dataset;
  (** [ep.commongrid.compute_MVBS(ds_Sv, range_meter_bin=, ping_time_bin=)] *)
  compute_MVBS : Dataset -> string -> string -> result Dataset;
  (** [ed['Platform'].longitude] and [ed['Platform'].latitude] *)
  platform_longitude : EchoData -> result DataArray;
  platform_latitude : EchoData -> result DataArray;
  (** the bytes [to_netcdf] stores for a dataset or an array *)
  dataset_bytes : Dataset -> result string;
  dataarray_bytes : DataArray -> result string;
  (** what [to_netcdf] has left in the file when it raises while it
      serialises: nothing when it had not created the file *)
  dataset_left : Dataset -> option string;
  dataarray_left : DataArray -> option string;
  (** what [to_netcdf] raises when the operating system refuses the file,
      for the error of the system *)
  store_error : Exception -> Exception;
  (** [os.getcwd()] *)
  cwd : string;
  (** the files xarray finds for a pattern that [glob] does not take
      literally *)
  xr_paths : string -> gmap (list string) node
             -> result (gmap (list string) node);
  (** [xr.open_mfdataset] on the files a pattern matched, with
      [data_vars='minimal', coords='minimal', combine='by_coords'] *)
  combine_by_coords : gmap (list string) node -> result Dataset;
  (** [ds[key]], [da.interp(time1=other)], [ds[key] = da] and
      [da.assign_attrs({key: value})] *)
  getitem : Dataset -> string -> result DataArray;
  interp_time1 : DataArray -> DataArray -> result DataArray;
  setitem : Dataset -> string -> DataArray -> result Dataset;
  assign_attrs : DataArray -> string -> string -> result DataArray;
  (** the reading of [datetime.datetime.utcnow()] *)
  utcnow : datetime
}.

(** What a run acts on: the local files and the lines printed so far. *)
Record world : Type := mkWorld {
  fs : gmap (list string) node;
  stdout : list string
}.

(** A statement runs in a world and leaves a world, whether it returns or
    raises. *)
Definition M (A : Type) : Type := world -> result A * world.

Definition ret {A : Type} (a : A) : M A := fun w => (Ok a, w).

Definition bindM {A B : Type} (m : M A) (k : A -> M B) : M B :=
  fun w =>
    match m w with
    | (Ok a, w') => k a w'
    | (Raise e, w') => (Raise e, w')
    end.

Notation "x <~ e1 ;; e2" := (bindM e1 (fun x => e2))
  (at level 100, e1 at next level, right associativity).

Definition lift {A : Type} (r : result A) : M A := fun w => (r, w).

Definition print (line : string) : M unit :=
  fun w => (Ok tt, {| fs := fs w; stdout := (stdout w ++ [line])%list |}).

Definition on_fs
    (f : gmap (list string) node -> result (gmap (list string) node))
  : M unit :=
  fun w =>
    match f (fs w) with
    | Ok fs' => (Ok tt, {| fs := fs'; stdout := stdout w |})
    | Raise e => (Raise e, w)
    end.

(** [try: body / except Exception as e: handler(e)]. *)
Definition try_except {A : Type} (body : M A) (handler : Exception -> M A)
  : M A :=
  fun w =>
    match body w with
    | (Ok a, w') => (Ok a, w')
    | (Raise e, w') => handler e w'
    end.

(** [for x in l: body(x)]. *)
Fixpoint for_each {A : Type} (l : list A) (body : A -> M unit) : M unit :=
  match l with
  | [] => ret tt
  | x :: l' => _ <~ body x ;; for_each l' body
  end.

(** The file [p] is created holding [b]; the world is as before when the
    operating system refuses. *)
Definition create (p : list string) (b : string) (w : world)
  : result unit * world :=
  match write_file p b (fs w) with
  | Ok fs' => (Ok tt, {| fs := fs'; stdout := stdout w |})
  | Raise e => (Raise e, w)
  end.

(** [obj.to_netcdf(p)].  [bytes] is what serialising [obj] gives.  When it
    gives the bytes, the file holds them, unless the operating system
    refuses the file.  When it raises, the file has not been created, or it
    has and holds [left]; the exception is that of the serialisation.  An
    error of the operating system reaches the script as the backend raises
    it. *)
Definition to_netcdf (ext : External) (bytes : result string)
    (left : option string) (p : list string) : M unit :=
  fun w =>
    match bytes, left with
    | Ok b, _ =>
        match create p b w with
        | (Ok _, w') => (Ok tt, w')
        | (Raise e, w') => (Raise (store_error ext e), w')
        end
    | Raise e, None => (Raise e, w)
    | Raise e, Some b =>
        match create p b w with
        | (Ok _, w') => (Raise e, w')
        | (Raise e', w') => (Raise (store_error ext e'), w')
        end
    end.

(** *** Output layout *)

Definition root_name (cfg : Config) : string :=
  data_type cfg ++ "_range=" ++ range_meter_bin cfg ++
  "_ping=" ++ ping_time_bin cfg ++
  "_start=" ++ strftime_Ymd_HM (start_datetime cfg) ++
  "_end=" ++ strftime_Ymd_HM (end_datetime cfg).

Definition base_dpath (cfg : Config) : list string :=
  Path ("./" ++ root_name cfg).
Definition calibrated_dpath (cfg : Config) : list string :=
  joinpath (base_dpath cfg) "HakeSurvey".
Definition lon_dpath (cfg : Config) : list string :=
  joinpath (base_dpath cfg) "Lon".
Definition lat_dpath (cfg : Config) : list string :=
  joinpath (base_dpath cfg) "Lat".

Definition layout (cfg : Config) : M unit :=
  _ <~ on_fs (mkdir (base_dpath cfg) true) ;;
  _ <~ on_fs (mkdir (calibrated_dpath cfg) true) ;;
  _ <~ on_fs (mkdir (lon_dpath cfg) true) ;;
  on_fs (mkdir (lat_dpath cfg) true).

(** *** Remote listing and date filter *)

Definition bucket : string := "ncei-wcsd-archive".
Definition rawdirpath : string := "data/raw/Bell_M._Shimada/SH1707/EK60".

Definition datestr (date : datetime) : string :=
  zfill (str (month date)) 2 ++ zfill (str (day date)) 2.

Fixpoint date_list_loop (start_datetime : datetime) (xs : list Z)
    (date_list : list string) : result (list string) :=
  match xs with
  | [] => Ok date_list
  | x :: xs' =>
      date <- add start_datetime (new_timedelta x 0 0) ;;
      date_list_loop start_datetime xs' (date_list ++ [datestr date])%list
  end.

Definition date_list (start_datetime end_datetime : datetime)
  : result (list string) :=
  date_list_loop start_datetime
    (range 0 (days (sub end_datetime start_datetime) + 1)) [].

Definition date_filter (date_list : list string) (s3rawfiles : list string)
  : list string :=
  List.filter
    (fun s3path =>
       any (map (fun datestr => str_in ("D2017" ++ datestr) s3path) date_list))
    s3rawfiles.

(** The two cells of the date filter: the tokens of the days of the
    configured range, then the files that carry one of them. *)
Definition date_filter_cells (cfg : Config) (s3rawfiles : list string)
  : result (list string) :=
  date_list <- date_list (start_datetime cfg) (end_datetime cfg) ;;
  Ok (date_filter date_list s3rawfiles).

(** *** Main loop *)

Definition out_name (raw_fpath : list string) : string :=
  "MVBS_" ++ stem raw_fpath ++ ".nc".

Definition created_message (raw_fpath : list string) : string :=
  out_name raw_fpath ++ " created".

Definition convert (ext : External) (cfg : Config) (s3rawfpath : string)
    (raw_fpath : list string) : M unit :=
  ed <~ lift (open_raw ext ("s3://" ++ s3rawfpath) "EK60") ;;
  ds_Sv <~ lift (compute_Sv ext ed) ;;
  ds_MVBS <~ lift (compute_MVBS ext ds_Sv (range_meter_bin cfg)
                     (ping_time_bin cfg)) ;;
  _ <~ to_netcdf ext (dataset_bytes ext ds_MVBS) (dataset_left ext ds_MVBS)
         (joinpath (calibrated_dpath cfg) (out_name raw_fpath)) ;;
  ds_lon <~ lift (platform_longitude ext ed) ;;
  _ <~ to_netcdf ext (dataarray_bytes ext ds_lon) (dataarray_left ext ds_lon)
         (joinpath (lon_dpath cfg) (out_name raw_fpath)) ;;
  ds_lat <~ lift (platform_latitude ext ed) ;;
  _ <~ to_netcdf ext (dataarray_bytes ext ds_lat) (dataarray_left ext ds_lat)
         (joinpath (lat_dpath cfg) (out_name raw_fpath)) ;;
  print (created_message raw_fpath).

Definition failed_message (raw_fpath : list string) (e : Exception) : string :=
  "Failed to process raw file " ++ name raw_fpath ++ ": " ++ exc_str e.

Definition process (ext : External) (cfg : Config) (s3rawfpath : string)
  : M unit :=
  let raw_fpath := Path s3rawfpath in
  try_except (convert ext cfg s3rawfpath raw_fpath)
    (fun e => print (failed_message raw_fpath e)).

Definition main_loop (ext : External) (cfg : Config)
    (s3rawfiles : list string) : M unit :=
  for_each s3rawfiles (process ext cfg).

(** *** Merger *)

(** The pattern [str(dir / 'pre*suf')] is one that xarray hands to [glob]
    as a local path and that [glob] expands in [dir] as it is spelled:
    xarray makes the pattern absolute, so that neither the working directory
    nor [dir] may hold a character that is magic for [glob]; a leading [~]
    stands for a home directory and a colon can make the pattern a URL for
    xarray. *)
Definition taken_literally (ext : External) (dir : list string) : bool :=
  negb (has_magic (cwd ext)) && negb (has_magic (path_str dir)) &&
  negb (String.prefix "~" (path_str dir)) &&
  negb (has_char ":" (path_str dir)).

(** The files [xr.open_mfdataset] finds for [str(dir / 'pre*suf')]. *)
Definition find_paths (ext : External) (dir : list string) (pre suf : string)
    (fs : gmap (list string) node) : result (gmap (list string) node) :=
  if taken_literally ext dir then Ok (glob dir pre suf fs)
  else xr_paths ext (path_str (joinpath dir (pre ++ "*" ++ suf))) fs.

Definition open_mfdataset (ext : External) (dir : list string)
    (pre suf : string) : M (Dataset ext) :=
  fun w =>
    match find_paths ext dir pre suf (fs w) with
    | Raise e => (Raise e, w)
    | Ok paths =>
        if decide (paths = ∅)
        then (Raise (mkException "OSError" "no files to open"), w)
        else (combine_by_coords ext paths, w)
    end.

(** [str(t)] for a [datetime]. *)
Definition datetime_str (t : datetime) : string :=
  zfill (str (year t)) 4 ++ "-" ++ zfill (str (month t)) 2 ++ "-" ++
  zfill (str (day t)) 2 ++ " " ++ zfill (str (hour t)) 2 ++ ":" ++
  zfill (str (minute t)) 2 ++ ":" ++ zfill (str (second t)) 2 ++
  (if microsecond t =? 0 then ""
   else "." ++ zfill (str (microsecond t)) 6).

Definition history (ext : External) : string :=
  datetime_str (utcnow ext) ++ " +00:00. " ++
  "Interpolated from Platform latitude/longitude.".

Definition merge (ext : External) (cfg : Config) : M (Dataset ext) :=
  MVBS_ds <~ open_mfdataset ext (calibrated_dpath cfg) "MVBS_" ".nc" ;;
  longitude <~ open_mfdataset ext (lon_dpath cfg) "" ".nc" ;;
  latitude <~ open_mfdataset ext (lat_dpath cfg) "" ".nc" ;;
  lon <~ lift (getitem ext longitude "longitude") ;;
  lat <~ lift (getitem ext latitude "latitude") ;;
  ping_time <~ lift (getitem ext MVBS_ds "ping_time") ;;
  lon <~ lift (interp_time1 ext lon ping_time) ;;
  ping_time <~ lift (getitem ext MVBS_ds "ping_time") ;;
  lat <~ lift (interp_time1 ext lat ping_time) ;;
  MVBS_ds <~ lift (setitem ext MVBS_ds "longitude" lon) ;;
  MVBS_ds <~ lift (setitem ext MVBS_ds "latitude" lat) ;;
  da <~ lift (getitem ext MVBS_ds "latitude") ;;
  da <~ lift (assign_attrs ext da "history" (history ext)) ;;
  MVBS_ds <~ lift (setitem ext MVBS_ds "latitude" da) ;;
  da <~ lift (getitem ext MVBS_ds "longitude") ;;
  da <~ lift (assign_attrs ext da "history" (history ext)) ;;
  MVBS_ds <~ lift (setitem ext MVBS_ds "longitude" da) ;;
  ret MVBS_ds.

(** *** The cells in order *)

Definition found_message (s3rawfiles : list string) : string :=
  "There are " ++ str (Z.of_nat (List.length s3rawfiles)) ++
  " target raw files available".

Definition run (ext : External) (cfg : Config) : M unit :=
  _ <~ layout cfg ;;
  s3rawfiles <~ lift (s3_glob ext (bucket ++ "/" ++ rawdirpath ++ "/*.raw")) ;;
  s3rawfiles <~ lift (date_filter_cells cfg s3rawfiles) ;;
  _ <~ print (found_message s3rawfiles) ;;
  _ <~ main_loop ext cfg s3rawfiles ;;
  MVBS_ds <~ merge ext cfg ;;
  to_netcdf ext (dataset_bytes ext MVBS_ds) (dataset_left ext MVBS_ds)
    (joinpath (base_dpath cfg) "concatenated_MVBS.nc").

End Notebook.


(** ** Vocabulary of the statements *)

Module Spec.
Import Py Datetime Pathlib Fs Notebook.

(** [sub] occurs in [s] as a run of consecutive characters. *)
Definition is_substring (sub s : string) : Prop :=
  exists a b, s = a ++ sub ++ b.

(** Calendar dates are compared field by field, the year first. *)
Definition date_lt (a b : Z * Z * Z) : Prop :=
  let '(y1, m1, d1) := a in
  let '(y2, m2, d2) := b in
  y1 < y2 \/ (y1 = y2 /\ (m1 < m2 \/ (m1 = m2 /\ d1 < d2))).

Definition date_le (a b : Z * Z * Z) : Prop := a = b \/ date_lt a b.

Definition date_of (t : datetime) : Z * Z * Z := (year t, month t, day t).

(** The time of day of a [datetime], in microseconds. *)
Definition time_of_day (t : datetime) : Z :=
  (second t + minute t * 60 + hour t * 3600) * 1000000 + microsecond t.

(** The [MMDD] token of a calendar date. *)
Definition token (date : Z * Z * Z) : string :=
  let '(_, m, d) := date in zfill (str m) 2 ++ zfill (str d) 2.

(** [f] holds of the [k] integers from [z] on. *)
Fixpoint all_from (f : Z -> bool) (k : nat) (z : Z) : bool :=
  match k with
  | O => true
  | S k' => f z && all_from f k' (z + 1)
  end.

(** The day of ordinal [n] is a date of the calendar and [_ymd2ord] maps it
    back to [n]. *)
Definition ord_roundtrip (n : Z) : bool :=
  let '(y, m, d) := _ord2ymd n in
  (_ymd2ord y m d =? n) && (1 <=? m) && (m <=? 12) && (1 <=? d) &&
  (d <=? _days_in_month y m).

(** No separator of path components occurs in [s]. *)
Fixpoint no_sep (s : string) : bool :=
  match s with
  | EmptyString => true
  | String c s' => negb (Ascii.eqb c "/") && no_sep s'
  end.

(** The three files a successful iteration leaves for [s3rawfpath]. *)
Definition mvbs_fpath (cfg : Config) (s3rawfpath : string) : list string :=
  joinpath (calibrated_dpath cfg) (out_name (Path s3rawfpath)).
Definition lon_fpath (cfg : Config) (s3rawfpath : string) : list string :=
  joinpath (lon_dpath cfg) (out_name (Path s3rawfpath)).
Definition lat_fpath (cfg : Config) (s3rawfpath : string) : list string :=
  joinpath (lat_dpath cfg) (out_name (Path s3rawfpath)).

Definition outputs (cfg : Config) (s3rawfpath : string)
  : list (list string) :=
  [mvbs_fpath cfg s3rawfpath; lon_fpath cfg s3rawfpath;
   lat_fpath cfg s3rawfpath].

Definition output_dirs (cfg : Config) : list (list string) :=
  [calibrated_dpath cfg; lon_dpath cfg; lat_dpath cfg].

(** The services turn the remote file [s3rawfpath] into the bytes of its
    binned product, of its longitude track and of its latitude track. *)
Definition products (ext : External) (cfg : Config) (s3rawfpath : string)
    (b1 b2 b3 : string) : Prop :=
  exists ed ds_Sv ds_MVBS ds_lon ds_lat,
    open_raw ext ("s3://" ++ s3rawfpath) "EK60" = Ok ed /\
    compute_Sv ext ed = Ok ds_Sv /\
    compute_MVBS ext ds_Sv (range_meter_bin cfg) (ping_time_bin cfg)
      = Ok ds_MVBS /\
    dataset_bytes ext ds_MVBS = Ok b1 /\
    platform_longitude ext ed = Ok ds_lon /\
    dataarray_bytes ext ds_lon = Ok b2 /\
    platform_latitude ext ed = Ok ds_lat /\
    dataarray_bytes ext ds_lat = Ok b3.


(** The path [p] is one the operating system takes: no null character,
    less than [PATH_MAX] bytes. *)
Definition path_ok (p : list string) : Prop :=
  has_char "000" (path_str p) = false /\
  (fsencode_length (path_str p) < PATH_MAX)%nat.

(** A file can be stored at [p]: the system takes the path, its directory
    exists, [p] itself is not a directory and, when nothing is there yet,
    its name is not too long. *)
Definition writable (fs : gmap (list string) node) (p : list string) : Prop :=
  path_ok p /\
  lookup_node fs (parent p) = Some Dir /\ lookup_node fs p <> Some Dir /\
  (lookup_node fs p = None -> (fsencode_length (name p) <= NAME_MAX)%nat).

(** A line the loop prints for [s3rawfpath]: success, or failure with the
    name of the file and the error. *)
Definition reported (s3rawfpath line : string) : Prop :=
  line = created_message (Path s3rawfpath) \/
  exists e, line = failed_message (Path s3rawfpath) e.

(** Stand-ins for the services, to run the script on.  [open_raw] refuses
    the urls that [bad_raw] selects and [to_netcdf] cannot serialise the
    arrays that [bad_array] selects, of which it leaves an empty file;
    every other call returns. *)
Definition sample_ext (listing : result (list string))
    (bad_raw bad_array : string -> bool) : External :=
  {| EchoData := string;
     Dataset := string;
     DataArray := string;
     s3_glob := fun _ => listing;
     open_raw := fun url _ =>
       if bad_raw url
       then Raise (mkException "ValueError" "not an EK60 file")
       else Ok url;
     compute_Sv := fun ed => Ok ed;
     compute_MVBS := fun ds _ _ => Ok ds;
     platform_longitude := fun ed => Ok ("lon of " ++ ed);
     platform_latitude := fun ed => Ok ("lat of " ++ ed);
     dataset_bytes := fun ds => Ok ds;
     dataarray_bytes := fun da =>
       if bad_array da
       then Raise (mkException "ValueError" "cannot serialise")
       else Ok da;
     dataset_left := fun _ => None;
     dataarray_left := fun da => if bad_array da then Some "" else None;
     store_error := fun e => e;
     cwd := "/home/hake/survey";
     xr_paths := fun _ _ => Ok ∅;
     combine_by_coords := fun _ => Ok "combined";
     getitem := fun ds _ => Ok ds;
     interp_time1 := fun da _ => Ok da;
     setitem := fun ds _ _ => Ok ds;
     assign_attrs := fun da _ _ => Ok da;
     utcnow := mkDatetime 2024 1 1 0 0 0 0 |}.

Definition none (s : string) : bool := false.

Definition file_a : string :=
  "ncei-wcsd-archive/data/raw/Bell_M._Shimada/SH1707/EK60/Summer2017-D20170724-T000000.raw".
Definition file_b : string :=
  "ncei-wcsd-archive/data/raw/Bell_M._Shimada/SH1707/EK60/Summer2017-D20170725-T000000.raw".
Definition file_c : string :=
  "ncei-wcsd-archive/data/raw/Bell_M._Shimada/SH1707/EK60/Summer2017-D20170726-T000000.raw".
(** A file of the same stem as [file_a], from another directory. *)
Definition file_a' : string :=
  "ncei-wcsd-archive/data/raw/Bell_M._Shimada/SH1707/EK80/Summer2017-D20170724-T000000.raw".


Definition listing_abc : result (list string) := Ok [file_a; file_b; file_c].

Definition ext_ok : External := sample_ext listing_abc none none.
Definition ext_b_fails : External :=
  sample_ext listing_abc (str_in "D20170725") none.
Definition ext_nothing_listed : External := sample_ext (Ok []) none none.


(** The world right after the layout cell, run in an empty directory. *)
Definition fresh_world (cfg : Config) : world :=
  snd (layout cfg (mkWorld ∅ [])).

(** The world a complete earlier run has left, [file_a] being listed then. *)
Definition earlier_world (cfg : Config) : world :=
  snd (run (sample_ext (Ok [file_a]) none none) cfg (mkWorld ∅ [])).

(** The four directories of the layout. *)
Definition layout_dirs (cfg : Config) : list (list string) :=
  base_dpath cfg :: output_dirs cfg.

End Spec.

(** ** Further vocabulary *)

Module More.
Import Py Datetime Pathlib Fs Notebook Spec.

(** The value of a decimal digit and of a string of two of them. *)
Definition digit (c : ascii) : Z := Z.of_N (N_of_ascii c) - 48.

Definition two_digits_value (s : string) : option Z :=
  match s with
  | String a (String b EmptyString) => Some (10 * digit a + digit b)
  | _ => None
  end.

(** [zfill(2)] of [str(n)] reads back as [n]. *)
Definition two_digits_ok (n : Z) : bool :=
  match two_digits_value (zfill (str n) 2) with
  | Some v => v =? n
  | None => false
  end.

(** One [datetime] is earlier than another. *)
Definition datetime_lt (a b : datetime) : Prop :=
  date_lt (date_of a) (date_of b) \/
  (date_of a = date_of b /\ time_of_day a < time_of_day b).

(** The path the remote listing gives for the file [<base>.raw]. *)
Definition listed (base : string) : string :=
  bucket ++ "/" ++ rawdirpath ++ "/" ++ base ++ ".raw".

(** Where the run stores the combined product. *)
Definition combined_fpath (cfg : Config) : list string :=
  joinpath (base_dpath cfg) "concatenated_MVBS.nc".

(** A line the loop prints for a file whose steps raised. *)
Definition reported_failure (s3rawfpath line : string) : Prop :=
  exists e, line = failed_message (Path s3rawfpath) e.

(** The configuration of the notebook with the two bounds exchanged. *)
Definition config_reversed : Config :=
  {| data_type := "Hake";
     range_meter_bin := "0.2";
     ping_time_bin := "2s";
     start_datetime := mkDatetime 2017 8 24 23 59 0 0;
     end_datetime := mkDatetime 2017 7 24 0 0 0 0 |}.

(** A decimal digit. *)
Definition is_digit (c : ascii) : bool :=
  ((48 <=? N_of_ascii c) && (N_of_ascii c <=? 57))%N.

Fixpoint decimal_loop (acc : Z) (s : string) : option Z :=
  match s with
  | EmptyString => Some acc
  | String c s' =>
      if is_digit c then decimal_loop (10 * acc + digit c) s' else None
  end.

(** The number that a non-empty string of decimal digits writes. *)
Definition decimal_value (s : string) : option Z :=
  match s with
  | EmptyString => None
  | _ => decimal_loop 0 s
  end.

(** [s] writes [n] on two decimal digits. *)
Definition two_digits (s : string) (n : Z) : Prop :=
  String.length s = 2%nat /\ decimal_value s = Some n.

(** [s] writes [n] in decimal digits, the first of them not a zero. *)
Definition decimal (s : string) (n : Z) : Prop :=
  decimal_value s = Some n /\ String.prefix "0" s = false.

(** [s] writes the date and the minute of [t] as the root name has them:
    year, month, day, hour and minute, with hyphens between. *)
Definition stamp (t : datetime) (s : string) : Prop :=
  exists Y m d H M,
    s = Y ++ "-" ++ m ++ "-" ++ d ++ "-" ++ H ++ "-" ++ M /\
    decimal Y (year t) /\ two_digits m (month t) /\ two_digits d (day t) /\
    two_digits H (hour t) /\ two_digits M (minute t).

(** [str] writes a year as [decimal] has it, and [zfill(2)] of [str] a
    number below 100 as [two_digits] has it. *)
Definition year_ok (y : Z) : bool :=
  match decimal_value (str y) with
  | Some v => (v =? y) && negb (String.prefix "0" (str y))
  | None => false
  end.

Definition zfill2_ok (n : Z) : bool :=
  (String.length (zfill (str n) 2) =? 2)%nat &&
  match decimal_value (zfill (str n) 2) with
  | Some v => v =? n
  | None => false
  end.

(** No dot occurs in [s]. *)
Definition no_dot (s : string) : bool := negb (has_char "." s).


(** A start late in its day and an end early in the next day. *)
Definition config_late_start : Config :=
  {| data_type := "Hake";
     range_meter_bin := "0.2";
     ping_time_bin := "2s";
     start_datetime := mkDatetime 2017 7 24 23 0 0 0;
     end_datetime := mkDatetime 2017 7 25 1 0 0 0 |}.





(** The three patterns the merger opens: a directory, and what comes before
    and after the star in the name. *)
Definition merger_patterns (cfg : Config)
  : list (list string * string * string) :=
  [(calibrated_dpath cfg, "MVBS_", ".nc"); (lon_dpath cfg, "", ".nc");
   (lat_dpath cfg, "", ".nc")].

(** A name the file system can hold: no null character and at most
    [NAME_MAX] bytes. *)
Definition name_ok (x : string) : Prop :=
  has_char "000" x = false /\ (fsencode_length x <= NAME_MAX)%nat.

End More.

Import Py Datetime Pathlib Fs Notebook Spec.
Import More.

(** ** Facts about the calendar *)

Lemma all_from_spec (f : Z -> bool) (k : nat) (z : Z) :
  all_from f k z = true ->
  forall i, z <= i < z + Z.of_nat k -> f i = true.
Proof.
  revert z. induction k as [|k IH]; intros z H i Hi; [lia|].
  simpl in H. apply andb_true_iff in H as [Hz Hrest].
  destruct (Z.eq_dec i z) as [->|Hne]; [exact Hz|].
  apply (IH (z + 1) Hrest). lia.
Qed.

Lemma ord_roundtrip_cycle :
  all_from ord_roundtrip (Z.to_nat 146097) 1 = true.
Proof. vm_compute. reflexivity. Qed.

Lemma is_leap_shift (y q : Z) : _is_leap (y + 400 * q) = _is_leap y.
Proof.
  unfold _is_leap.
  replace (y + 400 * q) with (y + (100 * q) * 4) at 1 by lia.
  replace (y + 400 * q) with (y + (4 * q) * 100) at 1 by lia.
  replace (y + 400 * q) with (y + q * 400) by lia.
  now rewrite !Z_mod_plus_full.
Qed.

Lemma days_before_year_shift (y q : Z) :
  _days_before_year (y + 400 * q) = _days_before_year y + _DI400Y * q.
Proof.
  unfold _days_before_year, _DI400Y. cbv zeta.
  Z.div_mod_to_equations. lia.
Qed.

Lemma days_before_year_succ (y : Z) :
  _days_before_year (y + 1) =
  _days_before_year y + 365 + (if _is_leap y then 1 else 0).
Proof.
  unfold _days_before_year, _is_leap. cbv zeta.
  replace (y + 1 - 1) with y by lia.
  destruct (Z.eqb_spec (y mod 4) 0), (Z.eqb_spec (y mod 100) 0),
    (Z.eqb_spec (y mod 400) 0); simpl; Z.div_mod_to_equations; lia.
Qed.

Lemma ymd2ord_shift (y m d q : Z) :
  _ymd2ord (y + 400 * q) m d = _ymd2ord y m d + _DI400Y * q.
Proof.
  unfold _ymd2ord, _days_before_month.
  rewrite days_before_year_shift, is_leap_shift. lia.
Qed.

Lemma days_in_month_shift (y m q : Z) :
  _days_in_month (y + 400 * q) m = _days_in_month y m.
Proof. unfold _days_in_month. now rewrite is_leap_shift. Qed.

Lemma ord2ymd_shift (n q : Z) :
  _ord2ymd (n + _DI400Y * q) =
  (let '(y, m, d) := _ord2ymd n in (y + 400 * q, m, d)).
Proof.
  unfold _ord2ymd. cbv zeta.
  replace (n + _DI400Y * q - 1) with ((n - 1) + q * _DI400Y) by lia.
  rewrite Z.div_add, Z_mod_plus_full by (unfold _DI400Y; lia).
  set (r := (n - 1) mod _DI400Y).
  destruct (_ || _); [f_equal; [f_equal; lia|..]; reflexivity|].
  destruct (_ <? _); f_equal; f_equal; lia.
Qed.

Lemma ord2ymd_roundtrip (n : Z) :
  ord_roundtrip n = true.
Proof.
  set (q := (n - 1) / _DI400Y).
  set (r := (n - 1) mod _DI400Y + 1).
  assert (Hn : n = r + _DI400Y * q).
  { unfold r, q. pose proof (Z.div_mod (n - 1) _DI400Y). unfold _DI400Y in *. lia. }
  assert (Hr : 1 <= r < 1 + Z.of_nat (Z.to_nat 146097)).
  { unfold r. pose proof (Z.mod_pos_bound (n - 1) _DI400Y). unfold _DI400Y in *. lia. }
  pose proof (all_from_spec _ _ _ ord_roundtrip_cycle r Hr) as Hc.
  rewrite Hn. unfold ord_roundtrip in *. rewrite ord2ymd_shift.
  destruct (_ord2ymd r) as [[y m] d].
  rewrite ymd2ord_shift, days_in_month_shift.
  repeat (apply andb_true_iff in Hc as [Hc ?]).
  apply Z.eqb_eq in Hc.
  repeat (apply andb_true_iff; split); try assumption.
  apply Z.eqb_eq. lia.
Qed.

Ltac month_cases m :=
  let H := fresh in
  assert (H : m = 1 \/ m = 2 \/ m = 3 \/ m = 4 \/ m = 5 \/ m = 6 \/ m = 7 \/
              m = 8 \/ m = 9 \/ m = 10 \/ m = 11 \/ m = 12) by lia;
  repeat (destruct H as [H|H]; [subst m|]); [..|subst m].

Lemma days_before_year_mono (y y' : Z) :
  y <= y' -> _days_before_year y <= _days_before_year y'.
Proof.
  intros H. unfold _days_before_year. cbv zeta.
  Z.div_mod_to_equations. lia.
Qed.

Lemma day_of_year_bounds (y m d : Z) :
  1 <= m <= 12 -> 1 <= d <= _days_in_month y m ->
  1 <= _days_before_month y m + d <= 365 + (if _is_leap y then 1 else 0).
Proof.
  intros Hm Hd. unfold _days_before_month, _days_in_month in *.
  destruct (_is_leap y); month_cases m; simpl in *; lia.
Qed.

Lemma days_before_month_next (y m m' : Z) :
  1 <= m -> m < m' -> m' <= 12 ->
  _days_before_month y m + _days_in_month y m <= _days_before_month y m'.
Proof.
  intros H1 H2 H3. unfold _days_before_month, _days_in_month.
  destruct (_is_leap y); month_cases m; month_cases m'; simpl; lia.
Qed.

Lemma ymd2ord_lt (y m d y' m' d' : Z) :
  1 <= m <= 12 -> 1 <= d <= _days_in_month y m ->
  1 <= m' <= 12 -> 1 <= d' <= _days_in_month y' m' ->
  date_lt (y, m, d) (y', m', d') ->
  _ymd2ord y m d < _ymd2ord y' m' d'.
Proof.
  intros Hm Hd Hm' Hd' Hlt. unfold _ymd2ord.
  pose proof (day_of_year_bounds y m d Hm Hd) as B.
  pose proof (day_of_year_bounds y' m' d' Hm' Hd') as B'.
  destruct Hlt as [Hy|[-> [Hmm|[-> Hdd]]]].
  - pose proof (days_before_year_succ y) as S.
    pose proof (days_before_year_mono (y + 1) y' ltac:(lia)). lia.
  - pose proof (days_before_month_next y' m m' ltac:(lia) Hmm ltac:(lia)). lia.
  - lia.
Qed.

Lemma date_trichotomy (a b : Z * Z * Z) : date_lt a b \/ a = b \/ date_lt b a.
Proof.
  destruct a as [[y m] d], b as [[y' m'] d']. unfold date_lt.
  destruct (Z.lt_trichotomy y y') as [?|[->|?]]; [lia| |lia].
  destruct (Z.lt_trichotomy m m') as [?|[->|?]]; [lia| |lia].
  destruct (Z.lt_trichotomy d d') as [?|[->|?]]; [lia| |lia].
  right; left; reflexivity.
Qed.

Lemma ymd2ord_inj (y m d y' m' d' : Z) :
  1 <= m <= 12 -> 1 <= d <= _days_in_month y m ->
  1 <= m' <= 12 -> 1 <= d' <= _days_in_month y' m' ->
  _ymd2ord y m d = _ymd2ord y' m' d' -> (y, m, d) = (y', m', d').
Proof.
  intros Hm Hd Hm' Hd' E.
  destruct (date_trichotomy (y, m, d) (y', m', d')) as [L|[?|L]]; [|assumption|].
  - pose proof (ymd2ord_lt _ _ _ _ _ _ Hm Hd Hm' Hd' L). lia.
  - pose proof (ymd2ord_lt _ _ _ _ _ _ Hm' Hd' Hm Hd L). lia.
Qed.

Lemma ord2ymd_spec (n : Z) :
  exists y m d, _ord2ymd n = (y, m, d) /\ _ymd2ord y m d = n /\
                1 <= m <= 12 /\ 1 <= d <= _days_in_month y m.
Proof.
  pose proof (ord2ymd_roundtrip n) as H. unfold ord_roundtrip in H.
  destruct (_ord2ymd n) as [[y m] d]. exists y, m, d.
  repeat (apply andb_true_iff in H as [H ?]).
  split; [reflexivity|]. lia.
Qed.

Lemma ord2ymd_ymd2ord (y m d : Z) :
  1 <= m <= 12 -> 1 <= d <= _days_in_month y m ->
  _ord2ymd (_ymd2ord y m d) = (y, m, d).
Proof.
  intros Hm Hd.
  destruct (ord2ymd_spec (_ymd2ord y m d)) as (y' & m' & d' & E & R & Hm' & Hd').
  rewrite E. now apply ymd2ord_inj.
Qed.

Lemma ymd2ord_le_iff (y m d y' m' d' : Z) :
  1 <= m <= 12 -> 1 <= d <= _days_in_month y m ->
  1 <= m' <= 12 -> 1 <= d' <= _days_in_month y' m' ->
  date_le (y, m, d) (y', m', d') <-> _ymd2ord y m d <= _ymd2ord y' m' d'.
Proof.
  intros Hm Hd Hm' Hd'. split.
  - intros [E|L].
    + injection E as -> -> ->. lia.
    + pose proof (ymd2ord_lt _ _ _ _ _ _ Hm Hd Hm' Hd' L). lia.
  - intros Hle.
    destruct (date_trichotomy (y, m, d) (y', m', d')) as [L|[E|L]].
    + now right.
    + now left.
    + pose proof (ymd2ord_lt _ _ _ _ _ _ Hm' Hd' Hm Hd L). lia.
Qed.

Lemma valid_date_ordinal (y m d : Z) :
  valid_date y m d -> 1 <= _ymd2ord y m d <= _MAXORDINAL.
Proof.
  intros (Hy & Hm & Hd). unfold MINYEAR, MAXYEAR in Hy.
  assert (L : date_le (1, 1, 1) (y, m, d)).
  { unfold date_le, date_lt.
    destruct (Z.eq_dec y 1) as [->|]; [|right; simpl; lia].
    destruct (Z.eq_dec m 1) as [->|]; [|right; simpl; lia].
    destruct (Z.eq_dec d 1) as [->|]; [now left|right; simpl; lia]. }
  assert (U : date_le (y, m, d) (9999, 12, 31)).
  { unfold date_le, date_lt.
    destruct (Z.eq_dec y 9999) as [->|]; [|right; simpl; lia].
    destruct (Z.eq_dec m 12) as [->|]; [|right; simpl; lia].
    change (_days_in_month 9999 12) with 31 in Hd.
    destruct (Z.eq_dec d 31) as [->|]; [now left|right; simpl; lia]. }
  apply ymd2ord_le_iff in L;
    [|first [assumption | lia | vm_compute; split; discriminate]..].
  apply ymd2ord_le_iff in U;
    [|first [assumption | lia | vm_compute; split; discriminate]..].
  change (_ymd2ord 1 1 1) with 1 in L.
  change (_ymd2ord 9999 12 31) with 3652059 in U.
  unfold _MAXORDINAL. lia.
Qed.

(** ** Facts about the day enumeration *)

Lemma sub_days (e s : datetime) :
  valid s -> valid e ->
  days (sub e s) =
  toordinal e - toordinal s +
  (if time_of_day s <=? time_of_day e then 0 else -1).
Proof.
  intros (_ & Hh & Hm & Hs & Hu) (_ & Hh' & Hm' & Hs' & Hu').
  unfold sub, new_timedelta, time_of_day. cbv zeta. simpl days.
  destruct (Z.leb_spec
    ((second s + minute s * 60 + hour s * 3600) * 1000000 + microsecond s)
    ((second e + minute e * 60 + hour e * 3600) * 1000000 + microsecond e));
    Z.div_mod_to_equations; lia.
Qed.

Lemma add_days (s : datetime) (x : Z) :
  valid s -> 1 <= toordinal s + x <= _MAXORDINAL ->
  add s (new_timedelta x 0 0) =
  Ok (let '(y, m, d) := _ord2ymd (toordinal s + x) in
      mkDatetime y m d (hour s) (minute s) (second s) (microsecond s)).
Proof.
  intros (_ & Hh & Hm & Hs & Hu) Hord.
  unfold add. cbv zeta.
  change (new_timedelta x 0 0) with (mkTimedelta (x + 0) 0 0).
  unfold new_timedelta. cbv zeta. simpl days. simpl seconds. simpl microseconds.
  set (secs := second s + minute s * 60 + hour s * 3600).
  assert (Hsecs : 0 <= secs < 86400) by (unfold secs; lia).
  assert (E1 : microsecond s / 1000000 = 0) by (apply Z.div_small; lia).
  assert (E2 : microsecond s mod 1000000 = microsecond s)
    by (apply Z.mod_small; lia).
  rewrite E1, E2, !Z.add_0_r.
  assert (E3 : secs / 86400 = 0) by (apply Z.div_small; lia).
  assert (E4 : secs mod 86400 = secs) by (apply Z.mod_small; lia).
  rewrite E3, E4, !Z.add_0_r, E1, E2, !Z.add_0_r, E3, E4, !Z.add_0_r.
  assert (E5 : secs / 3600 = hour s)
    by (unfold secs; Z.div_mod_to_equations; lia).
  assert (E6 : secs mod 3600 / 60 = minute s)
    by (unfold secs; Z.div_mod_to_equations; lia).
  assert (E7 : secs mod 3600 mod 60 = second s)
    by (unfold secs; Z.div_mod_to_equations; lia).
  rewrite E5, E6, E7.
  destruct (Z.ltb_spec 0 (toordinal s + x)); [|lia].
  destruct (Z.leb_spec (toordinal s + x) _MAXORDINAL); [|lia].
  simpl. destruct (_ord2ymd (toordinal s + x)) as [[y m] d]. reflexivity.
Qed.

Lemma date_list_loop_ok (s : datetime) (xs : list Z) (acc : list string) :
  valid s ->
  (forall x, In x xs -> 1 <= toordinal s + x <= _MAXORDINAL) ->
  date_list_loop s xs acc =
  Ok (acc ++ map (fun x => token (_ord2ymd (toordinal s + x))) xs)%list.
Proof.
  intros Hs. revert acc. induction xs as [|x xs IH]; intros acc Hxs.
  - simpl. now rewrite app_nil_r.
  - simpl. rewrite add_days by (auto; apply Hxs; now left). simpl.
    rewrite IH by (intros; apply Hxs; now right).
    rewrite <- app_assoc. simpl. do 3 f_equal.
    destruct (_ord2ymd (toordinal s + x)) as [[y m] d]. reflexivity.
Qed.

(** The days from the date of [s] through the date of [e], by ordinal. *)
Lemma days_between_spec (s e : datetime) (y m d : Z) :
  valid s -> valid e ->
  In (y, m, d)
     (map _ord2ymd (seqZ (toordinal s) (toordinal e - toordinal s + 1))) <->
  valid_date y m d /\ date_le (date_of s) (y, m, d) /\
  date_le (y, m, d) (date_of e).
Proof.
  intros Hs He.
  destruct Hs as ((Hys & Hms & Hds) & _), He as ((Hye & Hme & Hde) & _).
  unfold date_of, toordinal. rewrite in_map_iff. split.
  - intros (n & E & Hn). apply list_elem_of_In, elem_of_seqZ in Hn.
    destruct (ord2ymd_spec n) as (y' & m' & d' & E' & R & Hm & Hd).
    rewrite E in E'. injection E' as <- <- <-. subst n.
    assert (L1 : date_le (year s, month s, day s) (y, m, d))
      by (apply ymd2ord_le_iff; [assumption..|lia]).
    assert (L2 : date_le (y, m, d) (year e, month e, day e))
      by (apply ymd2ord_le_iff; [assumption..|lia]).
    repeat split; try assumption; try lia.
    + destruct L1 as [L1|L1]; [injection L1; lia|simpl in L1; lia].
    + destruct L2 as [L2|L2]; [injection L2; lia|simpl in L2; lia].
  - intros ((Hy & Hm & Hd) & L1 & L2).
    apply ymd2ord_le_iff in L1; [|assumption..].
    apply ymd2ord_le_iff in L2; [|assumption..].
    exists (_ymd2ord y m d). split; [now apply ord2ymd_ymd2ord|].
    apply list_elem_of_In, elem_of_seqZ. lia.
Qed.

Lemma days_between_NoDup (a n : Z) : List.NoDup (map _ord2ymd (seqZ a n)).
Proof.
  apply NoDup_ListNoDup.
  apply (NoDup_fmap_2_strong _ord2ymd).
  - intros i j _ _ E.
    destruct (ord2ymd_spec i) as (y & m & d & Ei & Ri & _).
    destruct (ord2ymd_spec j) as (y' & m' & d' & Ej & Rj & _).
    rewrite Ei, Ej in E. injection E as <- <- <-. lia.
  - apply NoDup_seqZ.
Qed.

Lemma date_list_total (s e : datetime) :
  valid s -> valid e ->
  date_list s e =
  Ok (map token
        (map _ord2ymd (seqZ (toordinal s) (days (sub e s) + 1)))).
Proof.
  intros Hs He. unfold date_list, range.
  pose proof (sub_days e s Hs He) as Hd.
  pose proof (valid_date_ordinal _ _ _ (proj1 Hs)) as Bs.
  pose proof (valid_date_ordinal _ _ _ (proj1 He)) as Be.
  fold (toordinal s) in Bs. fold (toordinal e) in Be.
  rewrite Z.sub_0_r. set (dd := days (sub e s)) in *. clearbody dd.
  rewrite date_list_loop_ok; [|assumption|].
  - rewrite app_nil_l. f_equal.
    assert (E : seqZ (toordinal s) (dd + 1) =
                map (Z.add (toordinal s)) (seqZ 0 (dd + 1))).
    { pose proof (fmap_add_seqZ (toordinal s) 0 (dd + 1)) as F.
      rewrite Z.add_0_r in F. symmetry. exact F. }
    rewrite E, !map_map. reflexivity.
  - intros x Hx. apply list_elem_of_In, elem_of_seqZ in Hx.
    destruct (time_of_day s <=? time_of_day e); lia.
Qed.

Lemma date_list_days (s e : datetime) :
  valid s -> valid e -> time_of_day s <= time_of_day e ->
  date_list s e =
  Ok (map token
        (map _ord2ymd (seqZ (toordinal s) (toordinal e - toordinal s + 1)))).
Proof.
  intros Hs He Ht. rewrite date_list_total, sub_days by assumption.
  destruct (Z.leb_spec (time_of_day s) (time_of_day e)); [|lia].
  now rewrite Z.add_0_r.
Qed.

(** ** Facts about strings *)

Lemma prefix_spec (a s : string) :
  String.prefix a s = true <-> exists b, s = a ++ b.
Proof.
  revert s. induction a as [|c a IH]; intros [|c' s]; simpl.
  - split; [intros _; now exists ""|reflexivity].
  - split; [intros _; now exists (String c' s)|reflexivity].
  - split; [discriminate|intros [b Hb]; discriminate].
  - destruct (Ascii.ascii_dec c c') as [->|Hne].
    + rewrite IH. split; intros [b Hb]; exists b; [now rewrite Hb|].
      now injection Hb.
    + split; [discriminate|]. intros [b Hb]. injection Hb. congruence.
Qed.

Lemma str_in_nil (sub : string) : str_in sub "" = String.prefix sub "".
Proof. destruct sub; reflexivity. Qed.

Lemma str_in_cons (sub : string) (c : ascii) (s : string) :
  str_in sub (String c s) = String.prefix sub (String c s) || str_in sub s.
Proof. destruct sub; reflexivity. Qed.

Lemma str_in_spec (sub s : string) :
  str_in sub s = true <-> is_substring sub s.
Proof.
  unfold is_substring. induction s as [|c s IH].
  - rewrite str_in_nil, prefix_spec. split.
    + intros [b Hb]. now exists "", b.
    + intros (a & b & H). destruct a; [now exists b|discriminate].
  - rewrite str_in_cons, orb_true_iff, prefix_spec, IH. split.
    + intros [[b Hb]|(a & b & H)].
      * now exists "", b.
      * exists (String c a), b. simpl. now rewrite H.
    + intros (a & b & H). destruct a as [|c' a].
      * left. now exists b.
      * right. exists a, b. simpl in H. now injection H.
Qed.

Lemma date_filter_In (tokens s3rawfiles : list string) (p : string) :
  In p (date_filter tokens s3rawfiles) <->
  In p s3rawfiles /\
  exists t, In t tokens /\ is_substring ("D2017" ++ t) p.
Proof.
  unfold date_filter, any. rewrite filter_In, existsb_exists.
  split; intros [Hp H]; (split; [exact Hp|]).
  - destruct H as (b & Hb & ->). apply in_map_iff in Hb as (t & Ht & Hin).
    exists t. split; [exact Hin|]. now apply str_in_spec.
  - destruct H as (t & Hin & Hsub). exists true. split; [|reflexivity].
    apply in_map_iff. exists t. split; [|exact Hin]. now apply str_in_spec.
Qed.

Lemma date_filter_sublist (tokens s3rawfiles : list string) :
  sublist (date_filter tokens s3rawfiles) s3rawfiles.
Proof.
  unfold date_filter. induction s3rawfiles as [|p l IH]; simpl.
  - constructor.
  - destruct (any _); now constructor.
Qed.

(** The directory of the listing holds no year prefix: a token is in a
    listed path exactly when it is in the name of the file. *)
Lemma listed_path_token (t name : string) :
  str_in ("D2017" ++ t) (bucket ++ "/" ++ rawdirpath ++ "/" ++ name) =
  str_in ("D2017" ++ t) name.
Proof. reflexivity. Qed.

Lemma length_append (a b : string) :
  String.length (a ++ b) = (String.length a + String.length b)%nat.
Proof. induction a as [|c a IH]; simpl; [reflexivity|now rewrite IH]. Qed.

(** ** The date filter *)

(** C1, at a start late in its day and an end early in the next day, both
    in 2017: the range spans two calendar days, the file of the second day
    carries ['D2017'] followed by the token of that day in its name, and the
    filter drops it; with the same dates at midnight the filter keeps it. *)
Theorem date_filter_drops_end_date_file :
  valid (start_datetime config_late_start) /\
  valid (end_datetime config_late_start) /\
  year (start_datetime config_late_start) =
    year (end_datetime config_late_start) /\
  date_of (start_datetime config_late_start) = (2017, 7, 24) /\
  date_of (end_datetime config_late_start) = (2017, 7, 25) /\
  name (Path file_b) = "Summer2017-D20170725-T000000.raw" /\
  date_filter_cells config_late_start [file_a; file_b] = Ok [file_a] /\
  date_list (mkDatetime 2017 7 24 0 0 0 0) (mkDatetime 2017 7 25 0 0 0 0) =
    Ok ["0724"; "0725"] /\
  date_filter ["0724"; "0725"] [file_a; file_b] = [file_a; file_b].
Proof.
  split; [vm_compute; repeat split; discriminate|].
  split; [vm_compute; repeat split; discriminate|].
  repeat split; vm_compute; reflexivity.
Qed.

(** C2, at a start late in its day and an end early in the next one: the
    subtraction counts whole periods of 24 hours, none here, so that the
    enumeration stops at the start date and the token of the end date is
    missing. *)
Theorem date_list_misses_end_date :
  valid (mkDatetime 2017 7 24 23 0 0 0) /\
  valid (mkDatetime 2017 7 25 1 0 0 0) /\
  date_lt (date_of (mkDatetime 2017 7 24 23 0 0 0))
          (date_of (mkDatetime 2017 7 25 1 0 0 0)) /\
  date_list (mkDatetime 2017 7 24 23 0 0 0) (mkDatetime 2017 7 25 1 0 0 0) =
    Ok ["0724"] /\
  datestr (mkDatetime 2017 7 25 1 0 0 0) = "0725" /\
  date_list (mkDatetime 2017 7 24 0 0 0 0) (mkDatetime 2017 7 25 0 0 0 0) =
    Ok ["0724"; "0725"].
Proof.
  split; [vm_compute; repeat split; discriminate|].
  split; [vm_compute; repeat split; discriminate|].
  split; [simpl; lia|].
  repeat split; reflexivity.
Qed.





(** ** Facts about paths *)

Lemma no_sep_app (a b : string) : no_sep (a ++ b) = no_sep a && no_sep b.
Proof.
  induction a as [|c a IH]; simpl; [reflexivity|].
  now rewrite IH, andb_assoc.
Qed.

Lemma split_sep_nonempty (s : string) : split_sep s <> [].
Proof.
  induction s as [|c s IH]; simpl; [discriminate|].
  destruct (Ascii.eqb_spec c "/") as [->|Hc]; [discriminate|].
  assert (E : forall l : list string,
             match c with
             | "/"%char => "" :: split_sep s
             | _ => l
             end = l).
  { intros l. destruct c as [[] [] [] [] [] [] [] []]; try reflexivity.
    now contradiction Hc. }
  rewrite E. destruct (split_sep s); discriminate.
Qed.

Lemma split_sep_cons (c : ascii) (s : string) :
  split_sep (String c s) =
  if Ascii.eqb c "/" then "" :: split_sep s
  else match split_sep s with
       | x :: xs => String c x :: xs
       | [] => [String c ""]
       end.
Proof.
  destruct (Ascii.eqb_spec c "/") as [->|Hc]; [reflexivity|].
  destruct c as [[] [] [] [] [] [] [] []]; try reflexivity.
  now contradiction Hc.
Qed.

Lemma split_sep_no_sep (s : string) : no_sep s = true -> split_sep s = [s].
Proof.
  induction s as [|c s IH]; [reflexivity|].
  simpl no_sep. intros H. apply andb_true_iff in H as [Hc Hs].
  rewrite split_sep_cons. apply negb_true_iff in Hc. rewrite Hc.
  now rewrite (IH Hs).
Qed.

Lemma split_sep_parts (s x : string) : In x (split_sep s) -> no_sep x = true.
Proof.
  revert x. induction s as [|c s IH]; intros x.
  - simpl. intros [<-|[]]. reflexivity.
  - rewrite split_sep_cons. destruct (Ascii.eqb c "/") eqn:Hc.
    + intros [<-|H]; [reflexivity|now apply IH].
    + destruct (split_sep s) as [|y ys] eqn:E.
      * intros [<-|[]]. simpl. now rewrite Hc.
      * intros [<-|H].
        -- simpl. rewrite Hc. simpl. apply IH. now left.
        -- apply IH. now right.
Qed.

Lemma lstrip_sep_cons (c : ascii) (s : string) :
  lstrip_sep (String c s) =
  if Ascii.eqb c "/" then lstrip_sep s else String c s.
Proof.
  destruct (Ascii.eqb_spec c "/") as [->|Hc]; [reflexivity|].
  destruct c as [[] [] [] [] [] [] [] []]; try reflexivity.
  now contradiction Hc.
Qed.

Lemma splitroot_cons (c : ascii) (s : string) :
  splitroot (String c s) =
  if Ascii.eqb c "/"
  then (if (String.length (String c s)
            - String.length (lstrip_sep (String c s)) =? 2)%nat
        then ("//", lstrip_sep (String c s))
        else ("/", lstrip_sep (String c s)))
  else ("", String c s).
Proof.
  destruct (Ascii.eqb_spec c "/") as [->|Hc]; [reflexivity|].
  destruct c as [[] [] [] [] [] [] [] []]; try reflexivity.
  now contradiction Hc.
Qed.

(** A name without separator that is neither empty nor a dot is a path of
    one part. *)
Lemma Path_single (s : string) :
  no_sep s = true -> s <> "" -> s <> "." -> Path s = [s].
Proof.
  intros Hs Hne Hdot. unfold Path.
  destruct s as [|c s]; [congruence|].
  rewrite splitroot_cons.
  simpl in Hs. apply andb_true_iff in Hs as [Hc Hs'].
  apply negb_true_iff in Hc. rewrite Hc.
  rewrite split_sep_no_sep by (simpl; now rewrite Hc).
  simpl. unfold keep_part.
  destruct (String.eqb_spec (String c s) ""); [congruence|].
  destruct (String.eqb_spec (String c s) "."); [congruence|].
  reflexivity.
Qed.

Lemma is_root_no_sep (s : string) : no_sep s = true -> is_root s = false.
Proof.
  intros H. unfold is_root.
  destruct (String.prefix "/" s) eqn:E; [|reflexivity].
  apply prefix_spec in E as [b ->]. discriminate H.
Qed.

Lemma joinpath_single (p : list string) (s : string) :
  no_sep s = true -> s <> "" -> s <> "." ->
  joinpath p s = (p ++ [s])%list.
Proof.
  intros Hs Hne Hdot. unfold joinpath.
  rewrite Path_single by assumption. now rewrite is_root_no_sep.
Qed.

Lemma parent_snoc (p : list string) (x : string) :
  is_root x = false -> parent (p ++ [x])%list = p.
Proof.
  intros Hx. destruct p as [|y p]; simpl; [now rewrite Hx|].
  destruct (p ++ [x])%list eqn:E; [now destruct p|].
  rewrite <- E. f_equal. apply removelast_last.
Qed.

Lemma name_snoc (p : list string) (x : string) :
  is_root x = false -> name (p ++ [x])%list = x.
Proof.
  intros Hx. destruct p as [|y p]; simpl; [now rewrite Hx|].
  destruct (p ++ [x])%list eqn:E; [now destruct p|].
  rewrite <- E. apply (last_last p x "").
Qed.

(** The parts of a path but its root hold no separator. *)
Lemma Path_shape (s : string) :
  exists root parts,
    Path s = (root ++ parts)%list /\
    (root = [] \/ exists r, root = [r] /\ is_root r = true) /\
    Forall (fun x => no_sep x = true /\ x <> "") parts.
Proof.
  unfold Path. destruct (splitroot s) as [r rel] eqn:E.
  exists (if String.eqb r "" then [] else [r]),
    (List.filter keep_part (split_sep rel)).
  split; [reflexivity|]. split.
  - destruct s as [|c s]; [injection E as <- <-; now left|].
    rewrite splitroot_cons in E.
    destruct (Ascii.eqb c "/"); [|injection E as <- <-; now left].
    destruct (_ =? 2)%nat; injection E as <- <-; right; eexists;
      (split; [reflexivity|reflexivity]).
  - apply Forall_forall. intros x Hx. apply list_elem_of_In in Hx.
    apply filter_In in Hx as [Hin Hk]. split.
    + now apply (split_sep_parts rel).
    + unfold keep_part in Hk. apply andb_true_iff in Hk as [Hk _].
      apply negb_true_iff in Hk. now apply String.eqb_neq in Hk.
Qed.

Lemma name_no_sep (s : string) : no_sep (name (Path s)) = true.
Proof.
  destruct (Path_shape s) as (root & parts & -> & Hroot & Hparts).
  destruct parts as [|x parts _] using rev_ind.
  - rewrite app_nil_r. destruct Hroot as [->|(r & -> & Hr)]; simpl;
      [reflexivity|now rewrite Hr].
  - apply Forall_app in Hparts as [_ Hx].
    apply Forall_cons in Hx as [[Hx _] _].
    rewrite app_assoc, name_snoc by now apply is_root_no_sep. exact Hx.
Qed.

Lemma substring_no_sep (n : nat) (s : string) :
  no_sep s = true -> no_sep (String.substring 0 n s) = true.
Proof.
  revert s. induction n as [|n IH]; intros [|c s] H; simpl; try reflexivity.
  simpl in H. apply andb_true_iff in H as [Hc Hs].
  rewrite Hc. simpl. now apply IH.
Qed.

Lemma stem_no_sep (s : string) : no_sep (stem (Path s)) = true.
Proof.
  unfold stem. cbv zeta.
  destruct (_ && _); [apply substring_no_sep|]; apply name_no_sep.
Qed.

(** The name of an output file is one path component. *)
Lemma out_name_part (s : string) (dir : list string) :
  joinpath dir (out_name (Path s)) = (dir ++ [out_name (Path s)])%list /\
  is_root (out_name (Path s)) = false.
Proof.
  assert (H : no_sep (out_name (Path s)) = true).
  { unfold out_name. rewrite !no_sep_app, stem_no_sep. reflexivity. }
  split; [|now apply is_root_no_sep].
  apply joinpath_single; [exact H|discriminate|discriminate].
Qed.

Lemma joinpath_HakeSurvey (p : list string) :
  joinpath p "HakeSurvey" = (p ++ ["HakeSurvey"])%list.
Proof. reflexivity. Qed.

Lemma joinpath_Lon (p : list string) : joinpath p "Lon" = (p ++ ["Lon"])%list.
Proof. reflexivity. Qed.

Lemma joinpath_Lat (p : list string) : joinpath p "Lat" = (p ++ ["Lat"])%list.
Proof. reflexivity. Qed.

Lemma rfind_dot_raw (base : string) :
  rfind_dot (base ++ ".raw") = Z.of_nat (String.length base).
Proof.
  induction base as [|c base IH]; [reflexivity|].
  change (String c base ++ ".raw") with (String c (base ++ ".raw")).
  cbn [rfind_dot]. rewrite IH.
  destruct (Z.leb_spec 0 (Z.of_nat (String.length base))); [|lia].
  cbn [String.length]. lia.
Qed.

Lemma substring_app (a b : string) :
  String.substring 0 (String.length a) (a ++ b) = a.
Proof. induction a as [|c a IH]; simpl; [now destruct b|now rewrite IH]. Qed.

(** The parts of a path of the remote listing. *)
Lemma listed_path_parts (name : string) :
  no_sep name = true -> name <> "" -> name <> "." ->
  Path (bucket ++ "/" ++ rawdirpath ++ "/" ++ name) =
  ["ncei-wcsd-archive"; "data"; "raw"; "Bell_M._Shimada"; "SH1707"; "EK60";
   name].
Proof.
  intros Hs Hne Hdot. unfold Path.
  change (splitroot (bucket ++ "/" ++ rawdirpath ++ "/" ++ name))
    with ("", bucket ++ "/" ++ rawdirpath ++ "/" ++ name).
  cbn [String.eqb app]. unfold bucket, rawdirpath.
  cbv [String.append]. cbn [split_sep]. rewrite (split_sep_no_sep name Hs).
  cbn [List.filter keep_part String.eqb Ascii.eqb Bool.eqb negb andb].
  unfold keep_part.
  destruct (String.eqb_spec name ""); [contradiction|].
  destruct (String.eqb_spec name "."); [contradiction|].
  reflexivity.
Qed.

(** For a [.raw] file of the remote listing the stem is the name without
    its extension. *)
Lemma listed_file_stem (base : string) :
  no_sep base = true -> base <> "" ->
  name (Path (bucket ++ "/" ++ rawdirpath ++ "/" ++ base ++ ".raw")) =
    base ++ ".raw" /\
  stem (Path (bucket ++ "/" ++ rawdirpath ++ "/" ++ base ++ ".raw")) = base.
Proof.
  intros Hs Hne.
  assert (Hp : Path (bucket ++ "/" ++ rawdirpath ++ "/" ++ base ++ ".raw") =
    ["ncei-wcsd-archive"; "data"; "raw"; "Bell_M._Shimada"; "SH1707"; "EK60";
     base ++ ".raw"]).
  { apply listed_path_parts.
    - rewrite no_sep_app, Hs. reflexivity.
    - destruct base; discriminate.
    - destruct base as [|c [|c' base]]; discriminate. }
  unfold stem. rewrite Hp. cbn [name List.last]. split; [reflexivity|].
  cbv zeta. rewrite rfind_dot_raw, length_append.
  assert (0 < String.length base)%nat by (destruct base; [contradiction|simpl; lia]).
  destruct (Z.ltb_spec 0 (Z.of_nat (String.length base))); [|lia].
  destruct (Z.ltb_spec (Z.of_nat (String.length base))
              (Z.of_nat (String.length base + String.length ".raw") - 1));
    [|simpl in *; lia].
  simpl andb. rewrite Nat2Z.id. apply substring_app.
Qed.

(** The last part of a path that ends with a separator and a name is that
    name. *)
Lemma split_sep_last (dir base : string) :
  no_sep base = true ->
  exists x xs, split_sep (dir ++ "/" ++ base) = (x :: xs ++ [base])%list.
Proof.
  intros Hb. induction dir as [|c dir (x & xs & IH)].
  - exists "", []. change ("" ++ "/" ++ base) with (String "/" base).
    rewrite split_sep_cons. simpl. now rewrite split_sep_no_sep.
  - change (String c dir ++ "/" ++ base) with (String c (dir ++ "/" ++ base)).
    rewrite split_sep_cons, IH. destruct (Ascii.eqb c "/").
    + exists "", (x :: xs). reflexivity.
    + exists (String c x), xs. reflexivity.
Qed.

Lemma lstrip_sep_no_sep (s : string) : no_sep s = true -> lstrip_sep s = s.
Proof.
  destruct s as [|c s]; [reflexivity|]. intros H. rewrite lstrip_sep_cons.
  simpl in H. apply andb_true_iff in H as [Hc _].
  apply negb_true_iff in Hc. now rewrite Hc.
Qed.

Lemma lstrip_sep_dir (dir base : string) :
  no_sep base = true ->
  lstrip_sep (dir ++ "/" ++ base) = base \/
  exists dir', lstrip_sep (dir ++ "/" ++ base) = dir' ++ "/" ++ base.
Proof.
  intros Hb. induction dir as [|c dir IH].
  - left. change ("" ++ "/" ++ base) with (String "/" base).
    rewrite lstrip_sep_cons. simpl. now apply lstrip_sep_no_sep.
  - change (String c dir ++ "/" ++ base) with (String c (dir ++ "/" ++ base)).
    rewrite lstrip_sep_cons. destruct (Ascii.eqb c "/"); [exact IH|].
    right. now exists (String c dir).
Qed.

Lemma Path_last (dir base : string) :
  no_sep base = true -> base <> "" -> base <> "." ->
  exists pre, Path (dir ++ "/" ++ base) = (pre ++ [base])%list.
Proof.
  intros Hb Hne Hdot.
  assert (Hk : keep_part base = true).
  { unfold keep_part.
    destruct (String.eqb_spec base ""); [contradiction|].
    destruct (String.eqb_spec base "."); [contradiction|]. reflexivity. }
  assert (Hrel : forall rel,
    rel = base \/ (exists dir', rel = dir' ++ "/" ++ base) ->
    exists pre, List.filter keep_part (split_sep rel) = (pre ++ [base])%list).
  { intros rel [->|[dir' ->]].
    - exists []. rewrite split_sep_no_sep by assumption. simpl. now rewrite Hk.
    - destruct (split_sep_last dir' base Hb) as (x & xs & ->).
      exists (List.filter keep_part (x :: xs)).
      change (x :: xs ++ [base])%list with ((x :: xs) ++ [base])%list.
      rewrite List.filter_app. simpl List.filter at 2. now rewrite Hk. }
  unfold Path. destruct (splitroot (dir ++ "/" ++ base)) as [root rel] eqn:E.
  assert (Hr : rel = base \/ exists dir', rel = dir' ++ "/" ++ base).
  { destruct dir as [|c dir].
    - change ("" ++ "/" ++ base) with (String "/" base) in E.
      rewrite splitroot_cons in E. simpl Ascii.eqb in E. cbv iota in E.
      assert (L : lstrip_sep (String "/" base) = base).
      { rewrite lstrip_sep_cons. simpl. now apply lstrip_sep_no_sep. }
      rewrite L in E. left. destruct (_ =? 2)%nat; now injection E as _ <-.
    - change (String c dir ++ "/" ++ base)
        with (String c (dir ++ "/" ++ base)) in E.
      rewrite splitroot_cons in E.
      change (String c (dir ++ "/" ++ base))
        with (String c dir ++ "/" ++ base) in E.
      destruct (Ascii.eqb c "/").
      + destruct (lstrip_sep_dir (String c dir) base Hb) as [L|[d L]];
          rewrite L in E;
          destruct (_ =? 2)%nat; injection E as _ <-; eauto.
      + injection E as _ <-. right. now exists (String c dir). }
  destruct (Hrel rel Hr) as [pre ->].
  exists ((if String.eqb root "" then [] else [root]) ++ pre)%list.
  now rewrite app_assoc.
Qed.

(** The name of a path is what follows its last separator. *)
Lemma name_of_path (dir base : string) :
  no_sep base = true -> base <> "" -> base <> "." ->
  name (Path (dir ++ "/" ++ base)) = base /\ name (Path base) = base.
Proof.
  intros Hb Hne Hdot. split.
  - destruct (Path_last dir base Hb Hne Hdot) as [pre ->].
    now apply name_snoc, is_root_no_sep.
  - rewrite Path_single by assumption. simpl. now rewrite is_root_no_sep.
Qed.

Lemma rfind_dot_none (s : string) : no_dot s = true -> rfind_dot s = -1.
Proof.
  unfold no_dot. induction s as [|c s IH]; [reflexivity|].
  simpl. intros H. apply negb_true_iff, orb_false_iff in H as [Hc Hs].
  rewrite IH by now rewrite Hs. simpl. now rewrite Hc.
Qed.

Lemma rfind_dot_ext (base ext : string) :
  no_dot ext = true ->
  rfind_dot (base ++ "." ++ ext) = Z.of_nat (String.length base).
Proof.
  intros He. induction base as [|c base IH].
  - change ("" ++ "." ++ ext) with (String "." ext). cbn [rfind_dot].
    rewrite rfind_dot_none by assumption. reflexivity.
  - change (String c base ++ "." ++ ext) with (String c (base ++ "." ++ ext)).
    cbn [rfind_dot]. rewrite IH.
    destruct (Z.leb_spec 0 (Z.of_nat (String.length base))); [|lia].
    cbn [String.length]. lia.
Qed.

(** The stem of a name with an extension is the name without it; a name
    without a dot is its own stem. *)
Lemma stem_of_name (p : list string) (base ext : string) :
  base <> "" -> ext <> "" -> no_dot ext = true ->
  name p = base ++ "." ++ ext -> stem p = base.
Proof.
  intros Hb He Hd Hn. unfold stem. cbv zeta. rewrite Hn.
  rewrite rfind_dot_ext by assumption. rewrite !length_append.
  assert (0 < String.length base)%nat
    by (destruct base; [contradiction|simpl; lia]).
  assert (0 < String.length ext)%nat
    by (destruct ext; [contradiction|simpl; lia]).
  destruct (Z.ltb_spec 0 (Z.of_nat (String.length base))); [|lia].
  destruct (Z.ltb_spec (Z.of_nat (String.length base))
              (Z.of_nat (String.length base +
                         (String.length "." + String.length ext)) - 1));
    [|simpl in *; lia].
  simpl andb. rewrite Nat2Z.id. apply substring_app.
Qed.

Lemma stem_without_dot (p : list string) :
  no_dot (name p) = true -> stem p = name p.
Proof.
  intros H. unfold stem. cbv zeta. now rewrite rfind_dot_none.
Qed.

(** The name under which the outputs of a remote file are stored: the
    name of the file, which is what follows the last separator of its path,
    without its extension. *)
Lemma stem_of_remote_path (s dir base ext : string) :
  s = dir ++ "/" ++ base ++ "." ++ ext \/ s = base ++ "." ++ ext ->
  no_sep base = true -> base <> "" ->
  no_sep ext = true -> no_dot ext = true -> ext <> "" ->
  name (Path s) = base ++ "." ++ ext /\ stem (Path s) = base /\
  out_name (Path s) = "MVBS_" ++ base ++ ".nc".
Proof.
  intros Hs Hb Hne He Hd Hee.
  assert (Hn : no_sep (base ++ "." ++ ext) = true)
    by (rewrite !no_sep_app, Hb, He; reflexivity).
  assert (H1 : base ++ "." ++ ext <> "") by (destruct base; discriminate).
  assert (H2 : base ++ "." ++ ext <> ".").
  { intros E. apply (f_equal String.length) in E.
    rewrite !length_append in E. destruct base; [contradiction|].
    simpl in E. lia. }
  destruct (name_of_path dir _ Hn H1 H2) as [N1 N2].
  assert (N : name (Path s) = base ++ "." ++ ext)
    by (destruct Hs as [->| ->]; assumption).
  assert (S : stem (Path s) = base) by now apply (stem_of_name _ base ext).
  split; [exact N|]. split; [exact S|]. unfold out_name. now rewrite S.
Qed.

(** ** Facts about the file system and the statements *)

Lemma lookup_node_snoc (fs : gmap (list string) node) (p : list string)
    (x : string) :
  lookup_node fs (p ++ [x])%list = fs !! (p ++ [x])%list.
Proof. destruct p; reflexivity. Qed.

(** What [find] finds, when it raises nothing. *)
Lemma find_ok (p : list string) (fs : gmap (list string) node)
    (n : option node) :
  find p fs = Ok n <->
  path_ok p /\ lookup_node fs (parent p) = Some Dir /\ lookup_node fs p = n /\
  (n = None -> (fsencode_length (name p) <= NAME_MAX)%nat).
Proof.
  unfold find, path_ok.
  destruct (has_char "000" (path_str p));
    [split; [discriminate|intros [[? _] _]; discriminate]|].
  destruct (Nat.leb_spec PATH_MAX (fsencode_length (path_str p))) as [L|L];
    [split; [discriminate|intros [[_ ?] _]; lia]|].
  destruct (lookup_node fs (parent p)) as [[|?]|];
    try (split; [discriminate|intros (_ & ? & _); discriminate]).
  destruct (lookup_node fs p) as [m|].
  - split.
    + intros [= <-]. repeat split; auto. discriminate.
    + intros (_ & _ & <- & _). reflexivity.
  - destruct (Nat.ltb_spec NAME_MAX (fsencode_length (name p))) as [N|N].
    + split; [discriminate|]. intros (_ & _ & <- & H).
      specialize (H eq_refl). lia.
    + split.
      * intros [= <-]. repeat split; auto.
      * intros (_ & _ & <- & _). reflexivity.
Qed.

Lemma write_file_ok (p : list string) (b : string)
    (fs fs' : gmap (list string) node) :
  write_file p b fs = Ok fs' <->
  writable fs p /\ fs' = <[p := File b]> fs.
Proof.
  unfold write_file, writable, bind.
  destruct (find p fs) as [n|e] eqn:E.
  - apply find_ok in E as (Hp & Hd & Hn & Hlen). subst n.
    destruct (lookup_node fs p) as [[|?]|] eqn:En.
    + split; [discriminate|]. intros [(_ & _ & H & _) _]. congruence.
    + split.
      * intros [= <-]. repeat split; try apply Hp; auto; discriminate.
      * intros [_ ->]. reflexivity.
    + split.
      * intros [= <-]. repeat split; try apply Hp; auto; discriminate.
      * intros [_ ->]. reflexivity.
  - split; [discriminate|]. intros [(Hp & Hd & Hn & Hlen) _].
    assert (F : find p fs = Ok (lookup_node fs p))
      by (apply find_ok; auto).
    congruence.
Qed.

Lemma create_ok (p : list string) (b : string) (w w' : world) :
  create p b w = (Ok tt, w') <->
  writable (fs w) p /\ w' = mkWorld (<[p := File b]> (fs w)) (stdout w).
Proof.
  unfold create. destruct (write_file p b (fs w)) as [fs'|e] eqn:E.
  - apply write_file_ok in E as [Hw ->]. split.
    + intros [= <-]. auto.
    + intros [_ ->]. reflexivity.
  - split; [discriminate|]. intros [Hw _].
    assert (H : write_file p b (fs w) = Ok (<[p := File b]> (fs w)))
      by now apply write_file_ok.
    congruence.
Qed.

Lemma create_raise (p : list string) (b : string) (w w' : world)
    (e : Exception) :
  create p b w = (Raise e, w') -> w' = w /\ ~ writable (fs w) p.
Proof.
  unfold create. destruct (write_file p b (fs w)) as [fs'|e'] eqn:E;
    [discriminate|].
  intros [= _ <-]. split; [reflexivity|]. intros Hw.
  assert (H : write_file p b (fs w) = Ok (<[p := File b]> (fs w)))
    by now apply write_file_ok.
  congruence.
Qed.

Lemma to_netcdf_ok (ext : External) (r : result string) (left : option string)
    (p : list string) (w w' : world) :
  to_netcdf ext r left p w = (Ok tt, w') <->
  exists b, r = Ok b /\ writable (fs w) p /\
            w' = mkWorld (<[p := File b]> (fs w)) (stdout w).
Proof.
  unfold to_netcdf. destruct r as [b|e].
  - destruct (create p b w) as [[[]|e] w1] eqn:E.
    + apply create_ok in E as [Hw ->]. split.
      * intros [= <-]. now exists b.
      * intros (b' & [= <-] & _ & ->). reflexivity.
    + split; [discriminate|]. intros (b' & [= <-] & Hw & _).
      apply create_raise in E as [_ E]. contradiction.
  - split.
    + destruct left as [b|]; [|discriminate].
      destruct (create p b w) as [[[]|e'] w1]; discriminate.
    + intros (b & H & _). discriminate.
Qed.

(** A store that raises leaves the world as it was, or the file it was
    creating with what it had written. *)
Lemma to_netcdf_raise (ext : External) (r : result string)
    (left : option string) (p : list string) (w w' : world) (e : Exception) :
  to_netcdf ext r left p w = (Raise e, w') ->
  w' = w \/
  exists b, r = Raise e /\ left = Some b /\ writable (fs w) p /\
            w' = mkWorld (<[p := File b]> (fs w)) (stdout w).
Proof.
  unfold to_netcdf. destruct r as [b|e'].
  - destruct (create p b w) as [[[]|e''] w1] eqn:E; [discriminate|].
    apply create_raise in E as [-> _]. intros [= _ <-]. now left.
  - destruct left as [b|]; [|intros [= _ <-]; now left].
    destruct (create p b w) as [[[]|e''] w1] eqn:E.
    + apply create_ok in E as [Hw ->]. intros [= <- <-]. right.
      now exists b.
    + apply create_raise in E as [-> _]. intros [= _ <-]. now left.
Qed.

Lemma outputs_parts (cfg : Config) (s : string) :
  mvbs_fpath cfg s = (base_dpath cfg ++ ["HakeSurvey"; out_name (Path s)])%list /\
  lon_fpath cfg s = (base_dpath cfg ++ ["Lon"; out_name (Path s)])%list /\
  lat_fpath cfg s = (base_dpath cfg ++ ["Lat"; out_name (Path s)])%list.
Proof.
  unfold mvbs_fpath, lon_fpath, lat_fpath, calibrated_dpath, lon_dpath,
    lat_dpath.
  rewrite joinpath_HakeSurvey, joinpath_Lon, joinpath_Lat.
  rewrite !(proj1 (out_name_part s _)), <- !app_assoc. auto.
Qed.

Lemma output_parent (cfg : Config) (s : string) :
  parent (mvbs_fpath cfg s) = calibrated_dpath cfg /\
  parent (lon_fpath cfg s) = lon_dpath cfg /\
  parent (lat_fpath cfg s) = lat_dpath cfg.
Proof.
  unfold mvbs_fpath, lon_fpath, lat_fpath.
  rewrite !(proj1 (out_name_part s _)).
  rewrite !parent_snoc by apply (proj2 (out_name_part s [])). auto.
Qed.

Lemma outputs_NoDup (cfg : Config) (s : string) : List.NoDup (outputs cfg s).
Proof.
  unfold outputs. destruct (outputs_parts cfg s) as (-> & -> & ->).
  repeat constructor; simpl; intros H;
    repeat (destruct H as [H|H]; [apply app_inv_head in H; discriminate|]);
    exact H.
Qed.

Lemma output_dirs_parts (cfg : Config) :
  output_dirs cfg =
  [(base_dpath cfg ++ ["HakeSurvey"])%list; (base_dpath cfg ++ ["Lon"])%list;
   (base_dpath cfg ++ ["Lat"])%list].
Proof. reflexivity. Qed.

Lemma output_not_dir (cfg : Config) (s : string) (o d : list string) :
  In o (outputs cfg s) -> In d (output_dirs cfg) -> d <> o /\ parent o <> o.
Proof.
  destruct (outputs_parts cfg s) as (E1 & E2 & E3).
  destruct (output_parent cfg s) as (P1 & P2 & P3).
  unfold outputs. rewrite output_dirs_parts. intros Ho Hd.
  assert (Hlen : forall d', In d' (output_dirs cfg) ->
                   (List.length d' < List.length o)%nat).
  { rewrite output_dirs_parts. intros d' Hd'. simpl in Ho, Hd'.
    rewrite E1, E2, E3 in Ho.
    destruct Ho as [<-|[<-|[<-|[]]]], Hd' as [<-|[<-|[<-|[]]]];
      rewrite !length_app; simpl; lia. }
  split.
  - intros ->. specialize (Hlen o). rewrite output_dirs_parts in Hlen.
    specialize (Hlen Hd). lia.
  - intros E. assert (Hp : In (parent o) (output_dirs cfg)).
    { unfold output_dirs. simpl in Ho |- *.
      destruct Ho as [<-|[<-|[<-|[]]]]; rewrite ?P1, ?P2, ?P3; auto. }
    specialize (Hlen _ Hp). rewrite E in Hlen. lia.
Qed.

Lemma output_parent_dir (cfg : Config) (s : string) (o : list string) :
  In o (outputs cfg s) -> In (parent o) (output_dirs cfg).
Proof.
  destruct (output_parent cfg s) as (P1 & P2 & P3).
  unfold outputs, output_dirs. simpl.
  intros [<-|[<-|[<-|[]]]]; rewrite ?P1, ?P2, ?P3; auto.
Qed.

Lemma output_lookup (cfg : Config) (s : string)
    (fs : gmap (list string) node) (o : list string) :
  In o (outputs cfg s) ->
  lookup_node fs o = fs !! o /\ lookup_node fs (parent o) = fs !! parent o.
Proof.
  intros Ho. pose proof (output_parent_dir cfg s o Ho) as Hp. split.
  - destruct (outputs_parts cfg s) as (E1 & E2 & E3). unfold outputs in Ho.
    rewrite E1, E2, E3 in Ho. simpl in Ho.
    destruct Ho as [<-|[<-|[<-|[]]]]; destruct (base_dpath cfg); reflexivity.
  - rewrite output_dirs_parts in Hp. simpl in Hp.
    destruct Hp as [<-|[<-|[<-|[]]]]; destruct (base_dpath cfg); reflexivity.
Qed.

Lemma writable_output (cfg : Config) (s : string)
    (fs : gmap (list string) node) (o : list string) :
  In o (outputs cfg s) ->
  writable fs o <->
  path_ok o /\ fs !! parent o = Some Dir /\ fs !! o <> Some Dir /\
  (fs !! o = None -> (fsencode_length (name o) <= NAME_MAX)%nat).
Proof.
  intros Ho. destruct (output_lookup cfg s fs o Ho) as [Eo Ep].
  unfold writable. now rewrite Eo, Ep.
Qed.

(** Storing an output does not change whether another one can be stored,
    and never prevents a later store. *)
Lemma writable_insert_ne (cfg : Config) (s s' : string)
    (fs : gmap (list string) node) (o o' : list string) (b : string) :
  In o (outputs cfg s) -> In o' (outputs cfg s') -> o <> o' ->
  writable (<[o := File b]> fs) o' <-> writable fs o'.
Proof.
  intros Ho Ho' Hne. rewrite !(writable_output cfg s') by assumption.
  pose proof (output_parent_dir cfg s' o' Ho') as Hp.
  destruct (output_not_dir cfg s o (parent o') Ho Hp) as [Hd _].
  rewrite !lookup_insert_ne by congruence. reflexivity.
Qed.

Lemma writable_insert_mono (cfg : Config) (s s' : string)
    (fs : gmap (list string) node) (o o' : list string) (b : string) :
  In o (outputs cfg s) -> In o' (outputs cfg s') ->
  writable fs o' -> writable (<[o := File b]> fs) o'.
Proof.
  intros Ho Ho' Hw. destruct (decide (o = o')) as [->|Hne].
  - apply (writable_output cfg s') in Hw as (Hp' & Hd & _ & _);
      [|assumption].
    apply (writable_output cfg s'); [assumption|].
    pose proof (output_parent_dir cfg s' o' Ho') as Hp.
    destruct (output_not_dir cfg s' o' (parent o') Ho' Hp) as [Hn _].
    rewrite lookup_insert_ne by congruence.
    rewrite lookup_insert_eq.
    split; [exact Hp'|]. split; [exact Hd|]. split; discriminate.
  - now apply (writable_insert_ne cfg s s').
Qed.

(** ** The body of the loop *)

Lemma convert_ok (ext : External) (cfg : Config) (s : string) (w w' : world) :
  convert ext cfg s (Path s) w = (Ok tt, w') <->
  exists b1 b2 b3,
    products ext cfg s b1 b2 b3 /\
    writable (fs w) (mvbs_fpath cfg s) /\
    writable (fs w) (lon_fpath cfg s) /\
    writable (fs w) (lat_fpath cfg s) /\
    w' = mkWorld
           (<[lat_fpath cfg s := File b3]>
              (<[lon_fpath cfg s := File b2]>
                 (<[mvbs_fpath cfg s := File b1]> (fs w))))
           (stdout w ++ [created_message (Path s)])%list.
Proof.
  assert (I1 : In (mvbs_fpath cfg s) (outputs cfg s)) by (simpl; auto).
  assert (I2 : In (lon_fpath cfg s) (outputs cfg s)) by (simpl; auto).
  assert (I3 : In (lat_fpath cfg s) (outputs cfg s)) by (simpl; auto).
  pose proof (outputs_NoDup cfg s) as ND. unfold outputs in ND.
  apply NoDup_cons_iff in ND as [N1 ND]. apply NoDup_cons_iff in ND as [N2 _].
  assert (D12 : mvbs_fpath cfg s <> lon_fpath cfg s)
    by (intros E; apply N1; simpl; auto).
  assert (D13 : mvbs_fpath cfg s <> lat_fpath cfg s)
    by (intros E; apply N1; simpl; auto).
  assert (D23 : lon_fpath cfg s <> lat_fpath cfg s)
    by (intros E; apply N2; simpl; auto).
  clear N1 N2.
  unfold convert, bindM, lift, products.
  fold (mvbs_fpath cfg s) (lon_fpath cfg s) (lat_fpath cfg s).
  split.
  - destruct (open_raw ext _ _) as [ed|] eqn:E1; [|discriminate].
    destruct (compute_Sv ext ed) as [sv|] eqn:E2; [|discriminate].
    destruct (compute_MVBS ext sv _ _) as [mvbs|] eqn:E3; [|discriminate].
    destruct (to_netcdf ext _ _ (mvbs_fpath cfg s) w) as [[[]|] w1] eqn:T1;
      [|discriminate].
    apply to_netcdf_ok in T1 as (b1 & B1 & W1 & ->).
    destruct (platform_longitude ext ed) as [lon|] eqn:E4; [|discriminate].
    destruct (to_netcdf ext _ _ (lon_fpath cfg s) _) as [[[]|] w2] eqn:T2;
      [|discriminate].
    apply to_netcdf_ok in T2 as (b2 & B2 & W2 & ->). simpl in *.
    destruct (platform_latitude ext ed) as [lat|] eqn:E5; [|discriminate].
    destruct (to_netcdf ext _ _ (lat_fpath cfg s) _) as [[[]|] w3] eqn:T3;
      [|discriminate].
    apply to_netcdf_ok in T3 as (b3 & B3 & W3 & ->). simpl in *.
    unfold print. simpl. intros [= <-].
    exists b1, b2, b3.
    apply (writable_insert_ne cfg s s) in W3; [|assumption|assumption|congruence].
    apply (writable_insert_ne cfg s s) in W3; [|assumption|assumption|congruence].
    apply (writable_insert_ne cfg s s) in W2; [|assumption|assumption|congruence].
    split; [now exists ed, sv, mvbs, lon, lat|]. auto.
  - intros (b1 & b2 & b3 & (ed & sv & mvbs & lon & lat & E1 & E2 & E3 & B1
                             & E4 & B2 & E5 & B3) & W1 & W2 & W3 & ->).
    rewrite E1, E2, E3.
    assert (T1 : to_netcdf ext (dataset_bytes ext mvbs) (dataset_left ext mvbs)
                   (mvbs_fpath cfg s) w =
                 (Ok tt, mkWorld (<[mvbs_fpath cfg s := File b1]> (fs w))
                           (stdout w))).
    { apply to_netcdf_ok. now exists b1. }
    rewrite T1, E4.
    set (w1 := mkWorld (<[mvbs_fpath cfg s := File b1]> (fs w)) (stdout w)).
    assert (T2 : to_netcdf ext (dataarray_bytes ext lon) (dataarray_left ext lon)
                   (lon_fpath cfg s) w1 =
                 (Ok tt, mkWorld (<[lon_fpath cfg s := File b2]> (fs w1))
                           (stdout w1))).
    { apply to_netcdf_ok. exists b2. split; [assumption|].
      split; [|reflexivity]. now apply (writable_insert_mono cfg s s). }
    rewrite T2, E5.
    set (w2 := mkWorld (<[lon_fpath cfg s := File b2]> (fs w1)) (stdout w1)).
    assert (T3 : to_netcdf ext (dataarray_bytes ext lat) (dataarray_left ext lat)
                   (lat_fpath cfg s) w2 =
                 (Ok tt, mkWorld (<[lat_fpath cfg s := File b3]> (fs w2))
                           (stdout w2))).
    { apply to_netcdf_ok. exists b3. split; [assumption|].
      split; [|reflexivity].
      do 2 (apply (writable_insert_mono cfg s s); [assumption..|]).
      exact W3. }
    rewrite T3. reflexivity.
Qed.

(** An iteration that raises has stored none, one or two of its outputs,
    and may have left the file of the store that raised; the lines printed
    are as before. *)
Lemma convert_raise (ext : External) (cfg : Config) (s : string)
    (w w' : world) (e : Exception) :
  convert ext cfg s (Path s) w = (Raise e, w') ->
  stdout w' = stdout w /\
  (fs w' = fs w \/
   (exists b1, fs w' = <[mvbs_fpath cfg s := File b1]> (fs w)) \/
   (exists b1 b2,
       fs w' = <[lon_fpath cfg s := File b2]>
                 (<[mvbs_fpath cfg s := File b1]> (fs w))) \/
   (exists b1 b2 b3,
       fs w' = <[lat_fpath cfg s := File b3]>
                 (<[lon_fpath cfg s := File b2]>
                    (<[mvbs_fpath cfg s := File b1]> (fs w))))).
Proof.
  unfold convert, bindM, lift.
  fold (mvbs_fpath cfg s) (lon_fpath cfg s) (lat_fpath cfg s).
  destruct (open_raw ext _ _) as [ed|];
    [|intros [= _ <-]; split; [reflexivity|now left]].
  destruct (compute_Sv ext ed) as [sv|];
    [|intros [= _ <-]; split; [reflexivity|now left]].
  destruct (compute_MVBS ext sv _ _) as [mvbs|];
    [|intros [= _ <-]; split; [reflexivity|now left]].
  destruct (to_netcdf ext _ _ (mvbs_fpath cfg s) w) as [[[]|] w1] eqn:T1.
  2:{ intros [= _ <-].
      apply to_netcdf_raise in T1 as [->|(b & _ & _ & _ & ->)];
        (split; [reflexivity|]); [now left|right; left; now exists b]. }
  apply to_netcdf_ok in T1 as (b1 & B1 & W1 & ->).
  destruct (platform_longitude ext ed) as [lon|].
  2:{ intros [= _ <-]. split; [reflexivity|right; left; now exists b1]. }
  destruct (to_netcdf ext _ _ (lon_fpath cfg s) _) as [[[]|] w2] eqn:T2.
  2:{ intros [= _ <-].
      apply to_netcdf_raise in T2 as [->|(b & _ & _ & _ & ->)];
        (split; [reflexivity|]);
        [right; left; now exists b1|right; right; left; now exists b1, b]. }
  apply to_netcdf_ok in T2 as (b2 & B2 & W2 & ->). simpl.
  destruct (platform_latitude ext ed) as [lat|].
  2:{ intros [= _ <-]. split; [reflexivity|].
      right; right; left; now exists b1, b2. }
  destruct (to_netcdf ext _ _ (lat_fpath cfg s) _) as [[[]|] w3] eqn:T3.
  2:{ intros [= _ <-].
      apply to_netcdf_raise in T3 as [->|(b & _ & _ & _ & ->)];
        (split; [reflexivity|]);
        [right; right; left; now exists b1, b2
        |right; right; right; now exists b1, b2, b]. }
  unfold print. discriminate.
Qed.

Lemma process_ok (ext : External) (cfg : Config) (s : string) (w w' : world) :
  convert ext cfg s (Path s) w = (Ok tt, w') ->
  process ext cfg s w = (Ok tt, w').
Proof. intros H. unfold process, try_except. now rewrite H. Qed.

Lemma process_raise (ext : External) (cfg : Config) (s : string)
    (w w' : world) (e : Exception) :
  convert ext cfg s (Path s) w = (Raise e, w') ->
  process ext cfg s w =
  (Ok tt, mkWorld (fs w') (stdout w' ++ [failed_message (Path s) e])%list).
Proof. intros H. unfold process, try_except. now rewrite H. Qed.

(** An iteration always returns, with one more line printed. *)
Lemma process_total (ext : External) (cfg : Config) (s : string) (w : world) :
  exists w' line,
    process ext cfg s w = (Ok tt, w') /\
    stdout w' = (stdout w ++ [line])%list /\ reported s line.
Proof.
  destruct (convert ext cfg s (Path s) w) as [[[]|e] w'] eqn:E.
  - exists w', (created_message (Path s)).
    split; [now apply process_ok|].
    apply convert_ok in E as (b1 & b2 & b3 & _ & _ & _ & _ & ->).
    split; [reflexivity|now left].
  - exists (mkWorld (fs w')
              (stdout w' ++ [failed_message (Path s) e])%list),
      (failed_message (Path s) e).
    split; [now apply process_raise|].
    apply convert_raise in E as [E _]. simpl. rewrite E.
    split; [reflexivity|right; now exists e].
Qed.


(** The loop always returns, with one line per file, in order. *)
Lemma main_loop_total (ext : External) (cfg : Config) (l : list string)
    (w : world) :
  exists w' lines,
    main_loop ext cfg l w = (Ok tt, w') /\
    stdout w' = (stdout w ++ lines)%list /\ Forall2 reported l lines.
Proof.
  unfold main_loop. revert w. induction l as [|p l IH]; intros w; simpl.
  - exists w, []. rewrite app_nil_r. repeat split. constructor.
  - destruct (process_total ext cfg p w) as (w1 & line & E & Hout & Hrep).
    destruct (IH w1) as (w' & lines & E' & Hout' & Hrep').
    exists w', (line :: lines). unfold bindM. rewrite E, E'.
    repeat split.
    + rewrite Hout', Hout, <- app_assoc. reflexivity.
    + now constructor.
Qed.

(** ** The main loop *)


(** C4.  An iteration that completes has stored the bytes of the binned
    product, of the longitude track and of the latitude track of its file in
    three distinct files, all named [MVBS_<stem>.nc], under [HakeSurvey],
    [Lon] and [Lat]; no other path has changed.  The stem is the name of the
    remote file, which is what follows the last separator of its path,
    without its extension: for [dir/base.ext] it is [base], and a name
    without a dot is its own stem. *)
Theorem success_leaves_three_files (ext : External) (cfg : Config)
    (s : string) (w w' : world) :
  convert ext cfg s (Path s) w = (Ok tt, w') ->
  (exists b1 b2 b3,
    products ext cfg s b1 b2 b3 /\
    outputs cfg s =
      [(base_dpath cfg ++ ["HakeSurvey"; ("MVBS_" ++ stem (Path s) ++ ".nc")%string])%list;
       (base_dpath cfg ++ ["Lon"; ("MVBS_" ++ stem (Path s) ++ ".nc")%string])%list;
       (base_dpath cfg ++ ["Lat"; ("MVBS_" ++ stem (Path s) ++ ".nc")%string])%list] /\
    List.NoDup (outputs cfg s) /\
    fs w' !! mvbs_fpath cfg s = Some (File b1) /\
    fs w' !! lon_fpath cfg s = Some (File b2) /\
    fs w' !! lat_fpath cfg s = Some (File b3) /\
    (forall q, ~ In q (outputs cfg s) -> fs w' !! q = fs w !! q) /\
    stdout w' = (stdout w ++ [created_message (Path s)])%list) /\
  (forall dir base ext',
      s = dir ++ "/" ++ base ++ "." ++ ext' \/ s = base ++ "." ++ ext' ->
      no_sep base = true -> base <> "" ->
      no_sep ext' = true -> no_dot ext' = true -> ext' <> "" ->
      name (Path s) = base ++ "." ++ ext' /\ stem (Path s) = base /\
      outputs cfg s =
        [(base_dpath cfg ++ ["HakeSurvey"; ("MVBS_" ++ base ++ ".nc")%string])%list;
         (base_dpath cfg ++ ["Lon"; ("MVBS_" ++ base ++ ".nc")%string])%list;
         (base_dpath cfg ++ ["Lat"; ("MVBS_" ++ base ++ ".nc")%string])%list]) /\
  (forall dir base,
      s = dir ++ "/" ++ base \/ s = base ->
      no_sep base = true -> base <> "" -> no_dot base = true ->
      name (Path s) = base /\ stem (Path s) = base).
Proof.
  intros H. split; [|split].
  2:{ intros dir base ext' Hs Hb Hne He Hd Hee.
      destruct (stem_of_remote_path s dir base ext' Hs Hb Hne He Hd Hee)
        as (N & S & O).
      split; [exact N|]. split; [exact S|].
      unfold outputs. destruct (outputs_parts cfg s) as (-> & -> & ->).
      now rewrite O. }
  2:{ intros dir base Hs Hb Hne Hd.
      assert (Hdot : base <> ".") by (intros ->; discriminate).
      destruct (name_of_path dir base Hb Hne Hdot) as [N1 N2].
      assert (N : name (Path s) = base) by (destruct Hs as [->| ->]; assumption).
      split; [exact N|]. rewrite stem_without_dot; now rewrite N. }
  apply convert_ok in H as (b1 & b2 & b3 & Hp & _ & _ & _ & ->).
  exists b1, b2, b3. split; [exact Hp|].
  pose proof (outputs_NoDup cfg s) as ND.
  split.
  { unfold outputs. destruct (outputs_parts cfg s) as (-> & -> & ->).
    reflexivity. }
  split; [exact ND|].
  unfold outputs in ND.
  apply NoDup_cons_iff in ND as [N1 ND]. apply NoDup_cons_iff in ND as [N2 _].
  assert (D12 : mvbs_fpath cfg s <> lon_fpath cfg s)
    by (intros E; apply N1; simpl; auto).
  assert (D13 : mvbs_fpath cfg s <> lat_fpath cfg s)
    by (intros E; apply N1; simpl; auto).
  assert (D23 : lon_fpath cfg s <> lat_fpath cfg s)
    by (intros E; apply N2; simpl; auto).
  cbn [fs stdout]. repeat split.
  - do 2 (rewrite lookup_insert_ne by (apply not_eq_sym; assumption)).
    apply lookup_insert_eq.
  - rewrite lookup_insert_ne by (apply not_eq_sym; assumption).
    apply lookup_insert_eq.
  - apply lookup_insert_eq.
  - intros q Hq. unfold outputs in Hq.
    rewrite !lookup_insert_ne;
      [reflexivity|intros E; apply Hq; rewrite <- E; simpl; tauto..].
Qed.



(** C9.  Two distinct remote files of the same stem have the same three
    output paths.  When the first has been processed and the second is a
    file that converts, its iteration completes after the first as it would
    have without it, replaces the three files by its own and prints the very
    line the first printed: the file system is what it would be had the
    first file not been processed, and nothing tells of the collision. *)
Theorem stem_collision_overwrites (ext : External) (cfg : Config)
    (s1 s2 : string) (w w1 w2' : world) :
  s1 <> s2 -> stem (Path s1) = stem (Path s2) ->
  convert ext cfg s1 (Path s1) w = (Ok tt, w1) ->
  convert ext cfg s2 (Path s2) w = (Ok tt, w2') ->
  outputs cfg s1 = outputs cfg s2 /\
  created_message (Path s1) = created_message (Path s2) /\
  exists w2 b1 b2 b3,
    convert ext cfg s2 (Path s2) w1 = (Ok tt, w2) /\
    main_loop ext cfg [s1; s2] w = (Ok tt, w2) /\
    products ext cfg s2 b1 b2 b3 /\
    fs w2 !! mvbs_fpath cfg s1 = Some (File b1) /\
    fs w2 !! lon_fpath cfg s1 = Some (File b2) /\
    fs w2 !! lat_fpath cfg s1 = Some (File b3) /\
    fs w2 = fs w2' /\
    stdout w2 =
      (stdout w ++ [created_message (Path s1); created_message (Path s2)])%list.
Proof.
  intros Hne Hstem H1 H2.
  assert (Eo : out_name (Path s1) = out_name (Path s2))
    by (unfold out_name; now rewrite Hstem).
  assert (Em : mvbs_fpath cfg s1 = mvbs_fpath cfg s2)
    by (unfold mvbs_fpath; now rewrite Eo).
  assert (El : lon_fpath cfg s1 = lon_fpath cfg s2)
    by (unfold lon_fpath; now rewrite Eo).
  assert (Ea : lat_fpath cfg s1 = lat_fpath cfg s2)
    by (unfold lat_fpath; now rewrite Eo).
  split; [unfold outputs; now rewrite Em, El, Ea|].
  split; [unfold created_message; now rewrite Eo|].
  assert (I1 : In (mvbs_fpath cfg s2) (outputs cfg s2)) by (simpl; auto).
  assert (I2 : In (lon_fpath cfg s2) (outputs cfg s2)) by (simpl; auto).
  assert (I3 : In (lat_fpath cfg s2) (outputs cfg s2)) by (simpl; auto).
  pose proof (process_ok _ _ _ _ _ H1) as P1.
  apply convert_ok in H1 as (a1 & a2 & a3 & _ & _ & _ & _ & Hw1).
  apply convert_ok in H2 as (b1 & b2 & b3 & Hp & W1 & W2 & W3 & ->).
  rewrite Em, El, Ea in *.
  assert (H : convert ext cfg s2 (Path s2) w1 =
    (Ok tt,
     mkWorld
       (<[lat_fpath cfg s2 := File b3]>
          (<[lon_fpath cfg s2 := File b2]>
             (<[mvbs_fpath cfg s2 := File b1]> (fs w1))))
       (stdout w1 ++ [created_message (Path s2)])%list)).
  { apply convert_ok. exists b1, b2, b3. split; [exact Hp|].
    rewrite Hw1. cbn [fs].
    split; [|split; [|split; [|reflexivity]]];
      do 3 (apply (writable_insert_mono cfg s2 s2); [assumption..|]);
      assumption. }
  pose proof (outputs_NoDup cfg s2) as ND. unfold outputs in ND.
  apply NoDup_cons_iff in ND as [N1 ND]. apply NoDup_cons_iff in ND as [N2 _].
  assert (D12 : mvbs_fpath cfg s2 <> lon_fpath cfg s2)
    by (intros E; apply N1; simpl; auto).
  assert (D13 : mvbs_fpath cfg s2 <> lat_fpath cfg s2)
    by (intros E; apply N1; simpl; auto).
  assert (D23 : lon_fpath cfg s2 <> lat_fpath cfg s2)
    by (intros E; apply N2; simpl; auto).
  eexists _, b1, b2, b3. split; [exact H|].
  split.
  { unfold main_loop. simpl. unfold bindM.
    rewrite P1, (process_ok _ _ _ _ _ H). reflexivity. }
  split; [exact Hp|]. cbn [fs stdout].
  split.
  { do 2 (rewrite lookup_insert_ne by (apply not_eq_sym; assumption)).
    apply lookup_insert_eq. }
  split.
  { rewrite lookup_insert_ne by (apply not_eq_sym; assumption).
    apply lookup_insert_eq. }
  split; [apply lookup_insert_eq|].
  split.
  - rewrite Hw1. cbn [fs]. apply map_eq. intros q.
    destruct (decide (q = lat_fpath cfg s2)) as [->|Q3];
      [now rewrite !lookup_insert_eq|].
    rewrite !(lookup_insert_ne _ (lat_fpath cfg s2) q) by congruence.
    destruct (decide (q = lon_fpath cfg s2)) as [->|Q2];
      [now rewrite !lookup_insert_eq|].
    rewrite !(lookup_insert_ne _ (lon_fpath cfg s2) q) by congruence.
    destruct (decide (q = mvbs_fpath cfg s2)) as [->|Q1];
      [now rewrite !lookup_insert_eq|].
    rewrite !(lookup_insert_ne _ (mvbs_fpath cfg s2) q) by congruence.
    rewrite !(lookup_insert_ne _ (lat_fpath cfg s2) q) by congruence.
    rewrite !(lookup_insert_ne _ (lon_fpath cfg s2) q) by congruence.
    now rewrite !(lookup_insert_ne _ (mvbs_fpath cfg s2) q) by congruence.
  - rewrite Hw1. cbn [stdout]. now rewrite <- app_assoc.
Qed.

(** ** The output layout *)

Lemma lookup_node_insert (fs : gmap (list string) node) (p q : list string)
    (n : node) :
  p <> [] ->
  lookup_node (<[p := n]> fs) q =
  if decide (p = q) then Some n else lookup_node fs q.
Proof.
  intros Hp. destruct q as [|x q].
  - simpl. destruct (decide (p = [])); [contradiction|reflexivity].
  - simpl. apply lookup_insert.
Qed.

Lemma mkdir_ok (p : list string) (fs fs' : gmap (list string) node) :
  mkdir p true fs = Ok fs' <->
  path_ok p /\ lookup_node fs (parent p) = Some Dir /\
  ((lookup_node fs p = Some Dir /\ fs' = fs) \/
   (lookup_node fs p = None /\
    (fsencode_length (name p) <= NAME_MAX)%nat /\ fs' = <[p := Dir]> fs)).
Proof.
  unfold mkdir, bind, is_dir. destruct (find p fs) as [n|e] eqn:E.
  - apply find_ok in E as (Hp & Hd & Hn & Hlen). subst n.
    destruct (lookup_node fs p) as [[|?]|] eqn:En; simpl; split.
    + intros [= <-]. split; [exact Hp|]. split; [exact Hd|]. left. auto.
    + intros (_ & _ & [[_ ->]|[? _]]); [reflexivity|discriminate].
    + discriminate.
    + intros (_ & _ & [[? _]|[? _]]); discriminate.
    + intros [= <-]. split; [exact Hp|]. split; [exact Hd|]. right. auto.
    + intros (_ & _ & [[? _]|(_ & _ & ->)]); [discriminate|reflexivity].
  - split; [discriminate|].
    intros (Hp & Hd & [[Hn _]|(Hn & Hlen & _)]).
    + assert (F : find p fs = Ok (Some Dir)).
      { apply find_ok. repeat split; try apply Hp; auto. discriminate. }
      congruence.
    + assert (F : find p fs = Ok None)
        by (apply find_ok; repeat split; try apply Hp; auto).
      congruence.
Qed.

(** A successful [mkdir] leaves a directory at [p], keeps every entry and
    adds no other. *)
Lemma mkdir_keeps (p : list string) (fs fs' : gmap (list string) node) :
  mkdir p true fs = Ok fs' ->
  lookup_node fs' p = Some Dir /\
  (forall q n, lookup_node fs q = Some n -> lookup_node fs' q = Some n) /\
  (forall q n, fs !! q = Some n -> fs' !! q = Some n) /\
  (forall q, q <> p -> fs' !! q = fs !! q) /\
  (forall q b, lookup_node fs' q = Some (File b) ->
               lookup_node fs q = Some (File b)).
Proof.
  intros H. apply mkdir_ok in H as (_ & _ & [[Hd ->]|(Hn & _ & ->)]);
    [auto 10|].
  assert (Hp : p <> []) by (intros ->; discriminate).
  split; [|split; [|split; [|split]]].
  - rewrite lookup_node_insert by assumption.
    destruct (decide (p = p)); [reflexivity|contradiction].
  - intros q n Hq. rewrite lookup_node_insert by assumption.
    destruct (decide (p = q)) as [->|]; [congruence|exact Hq].
  - intros q n Hq. destruct (decide (p = q)) as [->|Hne].
    + destruct q; [contradiction|]. simpl in Hn. congruence.
    + now rewrite lookup_insert_ne.
  - intros q Hq. now rewrite lookup_insert_ne.
  - intros q b. rewrite lookup_node_insert by assumption.
    destruct (decide (p = q)); [discriminate|auto].
Qed.

Lemma mkdir_succeeds (p : list string) (fs : gmap (list string) node) :
  path_ok p -> (fsencode_length (name p) <= NAME_MAX)%nat ->
  lookup_node fs (parent p) = Some Dir ->
  (forall b, lookup_node fs p <> Some (File b)) ->
  exists fs', mkdir p true fs = Ok fs'.
Proof.
  intros Hok Hlen Hp Hf. destruct (lookup_node fs p) as [[|b]|] eqn:E.
  - exists fs. apply mkdir_ok. auto.
  - now contradiction (Hf b).
  - exists (<[p := Dir]> fs). apply mkdir_ok. auto 6.
Qed.

Lemma on_fs_mkdir (p : list string) (w w' : world) :
  on_fs (mkdir p true) w = (Ok tt, w') <->
  exists fs', mkdir p true (fs w) = Ok fs' /\ w' = mkWorld fs' (stdout w).
Proof.
  unfold on_fs. destruct (mkdir p true (fs w)) as [fs'|e]; split.
  - intros [= <-]. now exists fs'.
  - intros (fs'' & [= <-] & ->). reflexivity.
  - discriminate.
  - intros (fs'' & ? & _). discriminate.
Qed.

Lemma layout_ok (cfg : Config) (w w' : world) :
  layout cfg w = (Ok tt, w') <->
  exists fs1 fs2 fs3 fs4,
    mkdir (base_dpath cfg) true (fs w) = Ok fs1 /\
    mkdir (calibrated_dpath cfg) true fs1 = Ok fs2 /\
    mkdir (lon_dpath cfg) true fs2 = Ok fs3 /\
    mkdir (lat_dpath cfg) true fs3 = Ok fs4 /\
    w' = mkWorld fs4 (stdout w).
Proof.
  unfold layout, bindM. split.
  - destruct (on_fs _ w) as [[[]|] w1] eqn:E1; [|discriminate].
    apply on_fs_mkdir in E1 as (fs1 & M1 & ->).
    destruct (on_fs _ _) as [[[]|] w2] eqn:E2; [|discriminate].
    apply on_fs_mkdir in E2 as (fs2 & M2 & ->).
    destruct (on_fs _ _) as [[[]|] w3] eqn:E3; [|discriminate].
    apply on_fs_mkdir in E3 as (fs3 & M3 & ->).
    intros E4. apply on_fs_mkdir in E4 as (fs4 & M4 & ->).
    now exists fs1, fs2, fs3, fs4.
  - intros (fs1 & fs2 & fs3 & fs4 & M1 & M2 & M3 & M4 & ->).
    unfold on_fs. rewrite M1. cbn [fs stdout]. rewrite M2. cbn [fs stdout].
    rewrite M3. cbn [fs stdout]. now rewrite M4.
Qed.

Lemma dpath_parent (cfg : Config) :
  parent (calibrated_dpath cfg) = base_dpath cfg /\
  parent (lon_dpath cfg) = base_dpath cfg /\
  parent (lat_dpath cfg) = base_dpath cfg.
Proof.
  unfold calibrated_dpath, lon_dpath, lat_dpath.
  rewrite joinpath_HakeSurvey, joinpath_Lon, joinpath_Lat.
  rewrite !parent_snoc by reflexivity. auto.
Qed.

(** Running the layout cell where the four directories exist changes
    nothing. *)
Lemma layout_existing (cfg : Config) (w : world) :
  Forall path_ok (layout_dirs cfg) ->
  lookup_node (fs w) (parent (base_dpath cfg)) = Some Dir ->
  lookup_node (fs w) (base_dpath cfg) = Some Dir ->
  lookup_node (fs w) (calibrated_dpath cfg) = Some Dir ->
  lookup_node (fs w) (lon_dpath cfg) = Some Dir ->
  lookup_node (fs w) (lat_dpath cfg) = Some Dir ->
  layout cfg w = (Ok tt, w).
Proof.
  intros HP H0 H1 H2 H3 H4. destruct (dpath_parent cfg) as (P1 & P2 & P3).
  unfold layout_dirs, output_dirs in HP.
  apply Forall_cons in HP as [O1 HP]. apply Forall_cons in HP as [O2 HP].
  apply Forall_cons in HP as [O3 HP]. apply Forall_cons in HP as [O4 _].
  apply layout_ok. exists (fs w), (fs w), (fs w), (fs w).
  split; [apply mkdir_ok; auto|].
  split; [apply mkdir_ok; rewrite P1; auto|].
  split; [apply mkdir_ok; rewrite P2; auto|].
  split; [apply mkdir_ok; rewrite P3; auto|].
  now destruct w.
Qed.

Lemma layout_result (cfg : Config) (w w' : world) :
  layout cfg w = (Ok tt, w') ->
  lookup_node (fs w') (parent (base_dpath cfg)) = Some Dir /\
  Forall (fun d => lookup_node (fs w') d = Some Dir) (layout_dirs cfg) /\
  (forall q n, fs w !! q = Some n -> fs w' !! q = Some n) /\
  (forall q, ~ In q (layout_dirs cfg) -> fs w' !! q = fs w !! q) /\
  stdout w' = stdout w /\
  Forall path_ok (layout_dirs cfg).
Proof.
  intros H. apply layout_ok in H
    as (fs1 & fs2 & fs3 & fs4 & M1 & M2 & M3 & M4 & ->).
  pose proof (proj1 (proj2 (proj1 (mkdir_ok _ _ _) M1))) as H0.
  pose proof (proj1 (proj1 (mkdir_ok _ _ _) M1)) as O1.
  pose proof (proj1 (proj1 (mkdir_ok _ _ _) M2)) as O2.
  pose proof (proj1 (proj1 (mkdir_ok _ _ _) M3)) as O3.
  pose proof (proj1 (proj1 (mkdir_ok _ _ _) M4)) as O4.
  destruct (mkdir_keeps _ _ _ M1) as (D1 & K1 & L1 & F1 & _).
  destruct (mkdir_keeps _ _ _ M2) as (D2 & K2 & L2 & F2 & _).
  destruct (mkdir_keeps _ _ _ M3) as (D3 & K3 & L3 & F3 & _).
  destruct (mkdir_keeps _ _ _ M4) as (D4 & K4 & L4 & F4 & _).
  cbn [fs stdout]. split; [auto|].
  split; [|split; [auto 10|split; [|split; [auto|]]]].
  - unfold layout_dirs, output_dirs. repeat constructor; auto 10.
  - intros q Hq. unfold layout_dirs, output_dirs in Hq. simpl in Hq.
    rewrite F4, F3, F2, F1; [reflexivity|intros ->; tauto..].
  - unfold layout_dirs, output_dirs.
    do 4 (constructor; [assumption|]). constructor.
Qed.

Lemma layout_succeeds (cfg : Config) (w : world) :
  Forall (fun d => path_ok d /\ (fsencode_length (name d) <= NAME_MAX)%nat)
    (layout_dirs cfg) ->
  lookup_node (fs w) (parent (base_dpath cfg)) = Some Dir ->
  Forall (fun d => forall b, lookup_node (fs w) d <> Some (File b))
    (layout_dirs cfg) ->
  exists w', layout cfg w = (Ok tt, w').
Proof.
  intros HP H0 HF. unfold layout_dirs, output_dirs in HF, HP.
  apply Forall_cons in HF as [F1 HF]. apply Forall_cons in HF as [F2 HF].
  apply Forall_cons in HF as [F3 HF]. apply Forall_cons in HF as [F4 _].
  apply Forall_cons in HP as [[O1 L1] HP].
  apply Forall_cons in HP as [[O2 L2] HP].
  apply Forall_cons in HP as [[O3 L3] HP].
  apply Forall_cons in HP as [[O4 L4] _].
  destruct (dpath_parent cfg) as (P1 & P2 & P3).
  destruct (mkdir_succeeds _ _ O1 L1 H0 F1) as [fs1 M1].
  destruct (mkdir_keeps _ _ _ M1) as (D1 & K1 & _ & _ & N1).
  destruct (mkdir_succeeds (calibrated_dpath cfg) fs1 O2 L2) as [fs2 M2].
  { now rewrite P1. } { intros b Hb. apply N1 in Hb. now apply (F2 b). }
  destruct (mkdir_keeps _ _ _ M2) as (D2 & K2 & _ & _ & N2).
  destruct (mkdir_succeeds (lon_dpath cfg) fs2 O3 L3) as [fs3 M3].
  { rewrite P2. auto. }
  { intros b Hb. apply N2, N1 in Hb. now apply (F3 b). }
  destruct (mkdir_keeps _ _ _ M3) as (D3 & K3 & _ & _ & N3).
  destruct (mkdir_succeeds (lat_dpath cfg) fs3 O4 L4) as [fs4 M4].
  { rewrite P3. auto. }
  { intros b Hb. apply N3, N2, N1 in Hb. now apply (F4 b). }
  exists (mkWorld fs4 (stdout w)). apply layout_ok.
  now exists fs1, fs2, fs3, fs4.
Qed.

Lemma root_name_not_dot (cfg : Config) :
  root_name cfg <> "" /\ root_name cfg <> ".".
Proof.
  assert (H : (2 <= String.length (root_name cfg))%nat).
  { unfold root_name. rewrite !length_append. simpl. lia. }
  split; intros E; rewrite E in H; simpl in H; lia.
Qed.

Lemma base_dpath_single (cfg : Config) :
  no_sep (root_name cfg) = true -> base_dpath cfg = [root_name cfg].
Proof.
  intros H. destruct (root_name_not_dot cfg) as [H1 H2].
  unfold base_dpath, Path. change (splitroot ("./" ++ root_name cfg))
    with ("", "./" ++ root_name cfg).
  cbn [String.eqb]. cbn [app].
  change ("./" ++ root_name cfg) with (String "." (String "/" (root_name cfg))).
  rewrite !split_sep_cons. cbn [Ascii.eqb Bool.eqb].
  rewrite split_sep_no_sep by assumption.
  cbn [List.filter]. unfold keep_part at 1. cbn.
  unfold keep_part.
  destruct (String.eqb_spec (root_name cfg) ""); [contradiction|].
  destruct (String.eqb_spec (root_name cfg) "."); [contradiction|].
  reflexivity.
Qed.

Lemma split_sep_underscore (a b : string) :
  exists x a' b',
    In x (split_sep (a ++ "_" ++ b)) /\ x = a' ++ "_" ++ b'.
Proof.
  induction a as [|c a IH].
  - change ("" ++ "_" ++ b) with (String "_" b). rewrite split_sep_cons.
    cbn [Ascii.eqb Bool.eqb]. destruct (split_sep b) as [|x xs].
    + exists "_", "", "". split; [now left|reflexivity].
    + exists (String "_" x), "", x. split; [now left|reflexivity].
  - destruct IH as (x & a' & b' & Hin & ->).
    change (String c a ++ "_" ++ b) with (String c (a ++ "_" ++ b)).
    rewrite split_sep_cons. destruct (Ascii.eqb c "/").
    + exists (a' ++ "_" ++ b'), a', b'. split; [now right|reflexivity].
    + destruct (split_sep (a ++ "_" ++ b)) as [|y ys]; [destruct Hin|].
      destruct Hin as [->|Hin].
      * exists (String c (a' ++ "_" ++ b')), (String c a'), b'.
        split; [now left|reflexivity].
      * exists (a' ++ "_" ++ b'), a', b'. split; [now right|reflexivity].
Qed.

Lemma base_dpath_nonempty (cfg : Config) : base_dpath cfg <> [].
Proof.
  unfold base_dpath, Path.
  change (splitroot ("./" ++ root_name cfg)) with ("", "./" ++ root_name cfg).
  cbn [String.eqb app].
  destruct (split_sep_underscore ("./" ++ data_type cfg)
              ("range=" ++ range_meter_bin cfg ++ "_ping=" ++
               ping_time_bin cfg ++ "_start=" ++
               strftime_Ymd_HM (start_datetime cfg) ++ "_end=" ++
               strftime_Ymd_HM (end_datetime cfg)))
    as (x & a' & b' & Hin & ->).
  assert (E : ("./" ++ data_type cfg) ++ "_" ++ "range=" ++
              range_meter_bin cfg ++ "_ping=" ++ ping_time_bin cfg ++
              "_start=" ++ strftime_Ymd_HM (start_datetime cfg) ++
              "_end=" ++ strftime_Ymd_HM (end_datetime cfg)
              = "./" ++ root_name cfg).
  { reflexivity. }
  rewrite E in Hin. intros Hnil.
  assert (Hk : In (a' ++ "_" ++ b')
                 (List.filter keep_part (split_sep ("./" ++ root_name cfg)))).
  { apply filter_In. split; [exact Hin|].
    unfold keep_part.
    destruct (String.eqb_spec (a' ++ "_" ++ b') "") as [E0|_];
      [destruct a'; discriminate|].
    destruct (String.eqb_spec (a' ++ "_" ++ b') ".") as [E1|_];
      [destruct a' as [|c1 [|c2 a']]; discriminate|].
    reflexivity. }
  rewrite Hnil in Hk. destruct Hk.
Qed.

Lemma base_dpath_parent (cfg : Config) :
  no_sep (root_name cfg) = true -> parent (base_dpath cfg) = [].
Proof.
  intros H. rewrite (base_dpath_single cfg H).
  apply (parent_snoc [] (root_name cfg)). now apply is_root_no_sep.
Qed.

Lemma layout_dirs_parts (cfg : Config) :
  layout_dirs cfg =
    [base_dpath cfg; (base_dpath cfg ++ ["HakeSurvey"])%list;
     (base_dpath cfg ++ ["Lon"])%list; (base_dpath cfg ++ ["Lat"])%list].
Proof. reflexivity. Qed.

Lemma layout_dirs_lookup (cfg : Config) (fs : gmap (list string) node)
    (d : list string) :
  In d (layout_dirs cfg) -> lookup_node fs d = fs !! d.
Proof.
  rewrite layout_dirs_parts. pose proof (base_dpath_nonempty cfg) as Hb.
  simpl. intros [<-|[<-|[<-|[<-|[]]]]]; destruct (base_dpath cfg);
    try reflexivity; contradiction.
Qed.

Lemma has_char_app (c : ascii) (a b : string) :
  has_char c (a ++ b) = has_char c a || has_char c b.
Proof.
  induction a as [|x a IH]; [reflexivity|].
  change (String x a ++ b) with (String x (a ++ b)). simpl.
  now rewrite IH, orb_assoc.
Qed.

Lemma fsencode_length_app (a b : string) :
  fsencode_length (a ++ b) = (fsencode_length a + fsencode_length b)%nat.
Proof.
  induction a as [|x a IH]; [reflexivity|].
  change (String x a ++ b) with (String x (a ++ b)). simpl.
  rewrite IH. lia.
Qed.

(** With a root name that is one component and that the file system can
    hold, the four paths of the layout are paths the system takes. *)
Lemma layout_paths_ok (cfg : Config) :
  no_sep (root_name cfg) = true -> name_ok (root_name cfg) ->
  Forall (fun d => path_ok d /\ (fsencode_length (name d) <= NAME_MAX)%nat)
    (layout_dirs cfg).
Proof.
  intros Hs [Hnul Hlen]. rewrite layout_dirs_parts.
  rewrite (base_dpath_single cfg Hs).
  pose proof (is_root_no_sep _ Hs) as Hr.
  assert (S1 : path_str [root_name cfg] = root_name cfg)
    by (simpl; now rewrite Hr).
  assert (S2 : forall x, path_str [root_name cfg; x] = root_name cfg ++ "/" ++ x)
    by (intros x; simpl; now rewrite Hr).
  assert (N1 : name [root_name cfg] = root_name cfg)
    by (simpl; now rewrite Hr).
  assert (Sub : forall x,
    has_char "000" x = false -> (fsencode_length x <= 10)%nat ->
    path_ok [root_name cfg; x] /\
    (fsencode_length (name [root_name cfg; x]) <= NAME_MAX)%nat).
  { intros x Hx Lx. unfold path_ok, PATH_MAX, NAME_MAX in *.
    rewrite S2, !has_char_app, !fsencode_length_app, Hnul, Hx.
    simpl. repeat split; lia. }
  unfold NAME_MAX, PATH_MAX in *.
  constructor.
  { unfold path_ok, PATH_MAX, NAME_MAX. rewrite S1, N1, Hnul.
    repeat split; lia. }
  do 3 (constructor; [apply Sub; [reflexivity|simpl; lia]|]). constructor.
Qed.

Lemma year_cycle : all_from year_ok (Z.to_nat 9999) 1 = true.
Proof. vm_compute. reflexivity. Qed.

Lemma zfill2_cycle : all_from zfill2_ok 100 0 = true.
Proof. vm_compute. reflexivity. Qed.

Lemma str_year (y : Z) : 1 <= y <= 9999 -> decimal (str y) y.
Proof.
  intros Hy.
  assert (H : year_ok y = true).
  { apply (all_from_spec _ _ _ year_cycle). rewrite Z2Nat.id; lia. }
  unfold year_ok in H. unfold decimal.
  destruct (decimal_value (str y)) as [v|]; [|discriminate].
  apply andb_true_iff in H as [Hv Hz]. apply Z.eqb_eq in Hv as ->.
  apply negb_true_iff in Hz. auto.
Qed.

Lemma zfill2_two_digits (n : Z) :
  0 <= n < 100 -> two_digits (zfill (str n) 2) n.
Proof.
  intros Hn.
  assert (H : zfill2_ok n = true).
  { apply (all_from_spec _ _ _ zfill2_cycle). lia. }
  unfold zfill2_ok in H. apply andb_true_iff in H as [Hl Hv].
  unfold two_digits. apply Nat.eqb_eq in Hl.
  destruct (decimal_value (zfill (str n) 2)) as [v|]; [|discriminate].
  apply Z.eqb_eq in Hv as ->. auto.
Qed.

Lemma days_in_month_le_31 (y m : Z) : _days_in_month y m <= 31.
Proof.
  unfold _days_in_month, _DAYS_IN_MONTH.
  destruct (_ && _); [lia|].
  destruct m as [|[[[[|[]|]|[]|]|[[]|[]|]|]|[[[]|[]|]|[[]|[]|]|]|]|]; lia.
Qed.

(** The stamp of a [datetime] in the root name: its year as it is written,
    its month, day, hour and minute on two digits. *)
Lemma strftime_stamp (t : datetime) :
  valid t -> stamp t (strftime_Ymd_HM t).
Proof.
  intros ((Hy & Hm & Hd) & Hh & Hmi & _). unfold MINYEAR, MAXYEAR in Hy.
  pose proof (days_in_month_le_31 (year t) (month t)).
  exists (str (year t)), (zfill (str (month t)) 2), (zfill (str (day t)) 2),
    (zfill (str (hour t)) 2), (zfill (str (minute t)) 2).
  split; [reflexivity|].
  split; [now apply str_year|].
  repeat split; try apply zfill2_two_digits; lia.
Qed.

(** C6.  The root of the layout is one directory named after the five
    values of the configuration: the survey label, the two bin sizes and
    the two datetimes, each written by year, month, day, hour and minute;
    it holds [HakeSurvey], [Lon] and [Lat].  Where the root name is a single
    path component that the file system can hold and no regular file sits
    at one of the four paths, the layout cell returns; whenever it returns
    the four directories exist, every entry that existed is as it was and no
    other entry has appeared, and running the cell again returns and changes
    nothing.  So does a run in a directory where the tree exists. *)
Theorem layout_idempotent (cfg : Config) (w : world) :
  (exists S E,
      root_name cfg =
        data_type cfg ++ "_range=" ++ range_meter_bin cfg ++
        "_ping=" ++ ping_time_bin cfg ++ "_start=" ++ S ++ "_end=" ++ E /\
      (valid (start_datetime cfg) -> stamp (start_datetime cfg) S) /\
      (valid (end_datetime cfg) -> stamp (end_datetime cfg) E)) /\
  (no_sep (root_name cfg) = true ->
   layout_dirs cfg =
     [[root_name cfg]; [root_name cfg; "HakeSurvey"]; [root_name cfg; "Lon"];
      [root_name cfg; "Lat"]]) /\
  (no_sep (root_name cfg) = true -> name_ok (root_name cfg) ->
   Forall (fun d => forall b, fs w !! d <> Some (File b)) (layout_dirs cfg) ->
   exists w', layout cfg w = (Ok tt, w')) /\
  (forall w',
      layout cfg w = (Ok tt, w') ->
      Forall (fun d => fs w' !! d = Some Dir) (layout_dirs cfg) /\
      (forall q n, fs w !! q = Some n -> fs w' !! q = Some n) /\
      (forall q, ~ In q (layout_dirs cfg) -> fs w' !! q = fs w !! q) /\
      stdout w' = stdout w /\
      layout cfg w' = (Ok tt, w')) /\
  (no_sep (root_name cfg) = true -> name_ok (root_name cfg) ->
   Forall (fun d => fs w !! d = Some Dir) (layout_dirs cfg) ->
   layout cfg w = (Ok tt, w)).
Proof.
  split.
  { exists (strftime_Ymd_HM (start_datetime cfg)),
      (strftime_Ymd_HM (end_datetime cfg)).
    split; [reflexivity|]. split; apply strftime_stamp. }
  split.
  { intros Hs. rewrite layout_dirs_parts, (base_dpath_single cfg Hs).
    reflexivity. }
  assert (Hex : forall w0 : world,
    Forall path_ok (layout_dirs cfg) ->
    lookup_node (fs w0) (parent (base_dpath cfg)) = Some Dir ->
    Forall (fun d => lookup_node (fs w0) d = Some Dir) (layout_dirs cfg) ->
    layout cfg w0 = (Ok tt, w0)).
  { intros w0 HP H0 HF. unfold layout_dirs, output_dirs in HF.
    apply Forall_cons in HF as [F1 HF]. apply Forall_cons in HF as [F2 HF].
    apply Forall_cons in HF as [F3 HF]. apply Forall_cons in HF as [F4 _].
    now apply layout_existing. }
  assert (Hlk : forall (P : option node -> Prop) (fs0 : gmap (list string) node),
    Forall (fun d => P (fs0 !! d)) (layout_dirs cfg) <->
    Forall (fun d => P (lookup_node fs0 d)) (layout_dirs cfg)).
  { intros P fs0. rewrite !Forall_forall. split; intros H d Hd;
      specialize (H d Hd); apply list_elem_of_In in Hd;
      now rewrite (layout_dirs_lookup cfg fs0 d Hd) in *. }
  split; [|split].
  - intros Hs Hn HF. apply layout_succeeds.
    + now apply layout_paths_ok.
    + now rewrite (base_dpath_parent cfg Hs).
    + apply (Hlk (fun o => forall b, o <> Some (File b))). exact HF.
  - intros w' H.
    destruct (layout_result _ _ _ H) as (H0 & HF & K & F & O & HP).
    split; [now apply (Hlk (fun o => o = Some Dir))|].
    repeat split; auto.
  - intros Hs Hn HF. apply Hex.
    + eapply Forall_impl; [apply (layout_paths_ok cfg Hs Hn)|].
      intros d [Hd _]. exact Hd.
    + now rewrite (base_dpath_parent cfg Hs).
    + now apply (Hlk (fun o => o = Some Dir)).
Qed.

(** ** The run as a whole *)

Lemma glob_lookup (dir : list string) (pre suf : string)
    (fs : gmap (list string) node) (p : list string) (n : node) :
  glob dir pre suf fs !! p = Some n <->
  fs !! p = Some n /\ parent p = dir /\ glob_match pre suf (name p) = true.
Proof. unfold glob. rewrite map_lookup_filter_Some. reflexivity. Qed.

(** Opening files changes neither the files nor the printed lines, and
    returns only when the pattern has found a file. *)
Lemma open_mfdataset_world (ext : External) (dir : list string)
    (pre suf : string) (w w' : world) (r : result (Dataset ext)) :
  open_mfdataset ext dir pre suf w = (r, w') ->
  w' = w /\
  (forall ds, r = Ok ds ->
     exists paths, find_paths ext dir pre suf (fs w) = Ok paths /\
                   paths <> ∅) /\
  (find_paths ext dir pre suf (fs w) = Ok ∅ ->
   r = Raise (mkException "OSError" "no files to open")).
Proof.
  unfold open_mfdataset.
  destruct (find_paths ext dir pre suf (fs w)) as [paths|e].
  - destruct (decide (paths = ∅)) as [E|E]; intros [= <- <-];
      (split; [reflexivity|]); split; try discriminate.
    + reflexivity.
    + intros ds _. now exists paths.
    + intros [= ->]. contradiction.
  - intros [= <- <-]. split; [reflexivity|]. split; discriminate.
Qed.

Lemma merge_world (ext : External) (cfg : Config) (w w' : world)
    (r : result (Dataset ext)) :
  merge ext cfg w = (r, w') -> w' = w.
Proof.
  unfold merge, bindM.
  destruct (open_mfdataset ext (calibrated_dpath cfg) _ _ w) as [r1 w1] eqn:O1.
  apply open_mfdataset_world in O1 as [-> _].
  destruct r1 as [MVBS_ds|e]; [|now intros [= <- <-]].
  destruct (open_mfdataset ext (lon_dpath cfg) _ _ w) as [r2 w2] eqn:O2.
  apply open_mfdataset_world in O2 as [-> _].
  destruct r2 as [longitude|e]; [|now intros [= <- <-]].
  destruct (open_mfdataset ext (lat_dpath cfg) _ _ w) as [r3 w3] eqn:O3.
  apply open_mfdataset_world in O3 as [-> _].
  destruct r3 as [latitude|e]; [|now intros [= <- <-]].
  unfold lift, ret.
  repeat (match goal with
          | |- context [match ?x with Ok _ => _ | Raise _ => _ end] =>
              destruct x; [|now intros [= <- <-]]
          end).
  now intros [= <- <-].
Qed.

(** A merger that returns has found a file for each of its patterns. *)
Lemma merge_found (ext : External) (cfg : Config) (w w' : world)
    (ds : Dataset ext) :
  merge ext cfg w = (Ok ds, w') ->
  Forall (fun '(d, pre, suf) =>
            exists paths, find_paths ext d pre suf (fs w) = Ok paths /\
                          paths <> ∅)
    (merger_patterns cfg).
Proof.
  unfold merge, bindM.
  destruct (open_mfdataset ext (calibrated_dpath cfg) _ _ w) as [r1 w1] eqn:O1.
  apply open_mfdataset_world in O1 as (-> & G1 & _).
  destruct r1 as [MVBS_ds|e]; [|discriminate].
  destruct (open_mfdataset ext (lon_dpath cfg) _ _ w) as [r2 w2] eqn:O2.
  apply open_mfdataset_world in O2 as (-> & G2 & _).
  destruct r2 as [longitude|e]; [|discriminate].
  destruct (open_mfdataset ext (lat_dpath cfg) _ _ w) as [r3 w3] eqn:O3.
  apply open_mfdataset_world in O3 as (-> & G3 & _).
  destruct r3 as [latitude|e]; [|discriminate].
  intros _. unfold merger_patterns. repeat constructor; eauto.
Qed.

(** A merger one of whose patterns finds no file raises. *)
Lemma merge_needs_files (ext : External) (cfg : Config) (w : world)
    (d : list string) (pre suf : string) :
  In (d, pre, suf) (merger_patterns cfg) ->
  find_paths ext d pre suf (fs w) = Ok ∅ ->
  exists e,
    merge ext cfg w = (Raise e, w) /\
    (d = calibrated_dpath cfg ->
     e = mkException "OSError" "no files to open").
Proof.
  intros Hin He.
  destruct (merge ext cfg w) as [[ds|e] w'] eqn:M.
  - pose proof (merge_found _ _ _ _ _ M) as HF.
    rewrite Forall_forall in HF. apply list_elem_of_In in Hin.
    specialize (HF _ Hin). simpl in HF.
    destruct HF as (paths & E & Hne). rewrite He in E.
    injection E as <-. contradiction.
  - pose proof (merge_world _ _ _ _ _ M) as ->. exists e.
    split; [reflexivity|]. intros ->.
    assert (Epre : pre = "MVBS_" /\ suf = ".nc").
    { unfold merger_patterns in Hin. simpl in Hin.
      destruct (dpath_parent cfg) as (P1 & P2 & P3).
      unfold calibrated_dpath, lon_dpath, lat_dpath in *.
      rewrite joinpath_HakeSurvey, joinpath_Lon, joinpath_Lat in Hin.
      destruct Hin as [[= <- <-]|[[= E _ _]|[[= E _ _]|[]]]]; [auto|..];
        apply app_inv_head in E; discriminate. }
    destruct Epre as [-> ->].
    revert M. unfold merge, bindM.
    destruct (open_mfdataset ext (calibrated_dpath cfg) _ _ w)
      as [r1 w1] eqn:O1.
    apply open_mfdataset_world in O1 as (-> & _ & G1).
    rewrite (G1 He). now intros [= <-].
Qed.

(** C8.  An exception of the listing, of the merger or of the final store
    is the exception of the run: nothing catches it.  When the filter keeps
    no file the loop processes none; the run then raises in the merger as
    soon as one of the three patterns finds no file, with nothing printed
    but the count and no file changed after the layout, and what it raises
    is ['no files to open'] when the pattern of the binned products is the
    one.  A pattern finds no file where its directory, taken as it is
    spelled, holds no entry that matches it. *)
Theorem outer_errors_propagate (ext : External) (cfg : Config) (w w0 : world) :
  layout cfg w = (Ok tt, w0) ->
  (forall e,
      s3_glob ext "ncei-wcsd-archive/data/raw/Bell_M._Shimada/SH1707/EK60/*.raw"
        = Raise e ->
      run ext cfg w = (Raise e, w0)) /\
  (forall files kept w1,
      s3_glob ext "ncei-wcsd-archive/data/raw/Bell_M._Shimada/SH1707/EK60/*.raw"
        = Ok files ->
      date_filter_cells cfg files = Ok kept ->
      main_loop ext cfg kept
        (mkWorld (fs w0) (stdout w0 ++ [found_message kept])%list)
        = (Ok tt, w1) ->
      (forall e w2,
          merge ext cfg w1 = (Raise e, w2) -> run ext cfg w = (Raise e, w2)) /\
      (forall MVBS_ds w2 e w3,
          merge ext cfg w1 = (Ok MVBS_ds, w2) ->
          to_netcdf ext (dataset_bytes ext MVBS_ds) (dataset_left ext MVBS_ds)
            (joinpath (base_dpath cfg) "concatenated_MVBS.nc") w2
            = (Raise e, w3) ->
          run ext cfg w = (Raise e, w3))) /\
  (forall files d pre suf,
      s3_glob ext "ncei-wcsd-archive/data/raw/Bell_M._Shimada/SH1707/EK60/*.raw"
        = Ok files ->
      date_filter_cells cfg files = Ok [] ->
      In (d, pre, suf) (merger_patterns cfg) ->
      find_paths ext d pre suf (fs w0) = Ok ∅ ->
      exists e,
        run ext cfg w =
          (Raise e,
           mkWorld (fs w0)
             (stdout w0 ++ ["There are 0 target raw files available"])%list) /\
        (d = calibrated_dpath cfg ->
         e = mkException "OSError" "no files to open")) /\
  (forall d pre suf,
      taken_literally ext d = true ->
      (forall q n, fs w0 !! q = Some n -> parent q = d ->
                   glob_match pre suf (name q) = false) ->
      find_paths ext d pre suf (fs w0) = Ok ∅).
Proof.
  intros HL.
  change "ncei-wcsd-archive/data/raw/Bell_M._Shimada/SH1707/EK60/*.raw"
    with (bucket ++ "/" ++ rawdirpath ++ "/*.raw").
  split; [|split; [|split]].
  - intros e Hg. unfold run, bindM. rewrite HL. unfold lift. now rewrite Hg.
  - intros files kept w1 Hg Hf Hloop. split.
    + intros e w2 Hm. unfold run, bindM. rewrite HL. unfold lift.
      rewrite Hg, Hf. unfold print. cbn [fs stdout].
      now rewrite Hloop, Hm.
    + intros ds w2 e w3 Hm Hn. unfold run, bindM. rewrite HL. unfold lift.
      rewrite Hg, Hf. unfold print. cbn [fs stdout].
      now rewrite Hloop, Hm.
  - intros files d pre suf Hg Hf Hin Hempty.
    destruct (merge_needs_files ext cfg
                (mkWorld (fs w0)
                   (stdout w0 ++ ["There are 0 target raw files available"])%list)
                d pre suf Hin Hempty) as (e & Hm & He).
    exists e. split; [|exact He].
    unfold run, bindM. rewrite HL. unfold lift.
    rewrite Hg, Hf. unfold print. cbn [fs stdout].
    unfold main_loop. cbn [for_each]. unfold ret.
    change (found_message []) with "There are 0 target raw files available".
    now rewrite Hm.
  - intros d pre suf Hlit Hno. unfold find_paths. rewrite Hlit. f_equal.
    apply map_eq. intros q. rewrite lookup_empty.
    destruct (glob d pre suf (fs w0) !! q) as [n|] eqn:E; [|reflexivity].
    apply glob_lookup in E as (E1 & E2 & E3).
    rewrite (Hno q n E1 E2) in E3. discriminate.
Qed.

(** An empty selection does not always end in an error of the merger: in
    the tree of an earlier run the layout cell changes nothing, the loop
    processes no file, and the merger opens the files of the earlier run;
    the run returns and stores a combined product. *)
Lemma empty_selection_reuses_earlier_outputs :
  s3_glob ext_nothing_listed
    "ncei-wcsd-archive/data/raw/Bell_M._Shimada/SH1707/EK60/*.raw" = Ok [] /\
  date_filter_cells config [] = Ok [] /\
  fst (run ext_nothing_listed config (earlier_world config)) = Ok tt /\
  stdout (snd (run ext_nothing_listed config (earlier_world config))) =
    (stdout (earlier_world config)
       ++ ["There are 0 target raw files available"])%list /\
  fs (snd (run ext_nothing_listed config (earlier_world config)))
    !! joinpath (base_dpath config) "concatenated_MVBS.nc"
    = Some (File "combined").
Proof. repeat split; vm_compute; reflexivity. Qed.

(** The provenance text of the merger: the reading of the clock as [str]
    prints it, then the fixed description. *)
Lemma history_not_empty (ext : External) :
  history ext =
    datetime_str (utcnow ext) ++
    " +00:00. Interpolated from Platform latitude/longitude." /\
  history ext <> "".
Proof.
  split; [reflexivity|]. intros E.
  apply (f_equal String.length) in E. unfold history in E.
  rewrite !length_append in E. simpl in E. lia.
Qed.

(** ** The theorems at work on the sample services *)


Lemma success_leaves_three_files_witness :
  fst (convert ext_ok config file_a (Path file_a) (fresh_world config))
    = Ok tt /\
  stem (Path file_a) = "Summer2017-D20170724-T000000" /\
  exists b1 b2 b3,
    fs (snd (convert ext_ok config file_a (Path file_a) (fresh_world config)))
      !! mvbs_fpath config file_a = Some (File b1) /\
    fs (snd (convert ext_ok config file_a (Path file_a) (fresh_world config)))
      !! lon_fpath config file_a = Some (File b2) /\
    fs (snd (convert ext_ok config file_a (Path file_a) (fresh_world config)))
      !! lat_fpath config file_a = Some (File b3).
Proof.
  assert (F :
    fst (convert ext_ok config file_a (Path file_a) (fresh_world config))
      = Ok tt) by (vm_compute; reflexivity).
  split; [exact F|].
  assert (H :
    convert ext_ok config file_a (Path file_a) (fresh_world config) =
    (Ok tt, snd (convert ext_ok config file_a (Path file_a)
                   (fresh_world config))))
    by (rewrite <- F; apply surjective_pairing).
  destruct (success_leaves_three_files ext_ok config file_a _ _ H)
    as ((b1 & b2 & b3 & _ & _ & _ & L1 & L2 & L3 & _) & S & _).
  assert (Hs :
    file_a = "ncei-wcsd-archive/data/raw/Bell_M._Shimada/SH1707/EK60" ++ "/" ++
             "Summer2017-D20170724-T000000" ++ "." ++ "raw" \/
    file_a = "Summer2017-D20170724-T000000" ++ "." ++ "raw")
    by (left; vm_compute; reflexivity).
  assert (N1 : "Summer2017-D20170724-T000000" <> "") by discriminate.
  assert (N2 : "raw" <> "") by discriminate.
  destruct (S _ _ _ Hs eq_refl N1 eq_refl eq_refl N2) as (_ & St & _).
  split; [exact St|].
  exists b1, b2, b3. split; [exact L1|]. split; [exact L2|exact L3].
Defined.


Lemma stem_collision_overwrites_witness :
  file_a <> file_a' /\
  stem (Path file_a) = stem (Path file_a') /\
  fst (convert ext_ok config file_a (Path file_a) (fresh_world config))
    = Ok tt /\
  fst (convert ext_ok config file_a' (Path file_a') (fresh_world config))
    = Ok tt /\
  outputs config file_a = outputs config file_a'.
Proof.
  assert (H0 : file_a <> file_a') by (vm_compute; discriminate).
  assert (H1 : stem (Path file_a) = stem (Path file_a'))
    by (vm_compute; reflexivity).
  assert (F2 :
    fst (convert ext_ok config file_a (Path file_a) (fresh_world config))
      = Ok tt) by (vm_compute; reflexivity).
  assert (F3 :
    fst (convert ext_ok config file_a' (Path file_a') (fresh_world config))
      = Ok tt) by (vm_compute; reflexivity).
  assert (H2 :
    convert ext_ok config file_a (Path file_a) (fresh_world config) =
    (Ok tt, snd (convert ext_ok config file_a (Path file_a)
                   (fresh_world config))))
    by (rewrite <- F2; apply surjective_pairing).
  assert (H3 :
    convert ext_ok config file_a' (Path file_a') (fresh_world config) =
    (Ok tt, snd (convert ext_ok config file_a' (Path file_a')
                   (fresh_world config))))
    by (rewrite <- F3; apply surjective_pairing).
  split; [exact H0|]. split; [exact H1|]. split; [exact F2|].
  split; [exact F3|].
  exact (proj1 (stem_collision_overwrites ext_ok config file_a file_a'
                  _ _ _ H0 H1 H2 H3)).
Defined.


Lemma layout_idempotent_witness :
  no_sep (root_name config) = true /\ name_ok (root_name config) /\
  valid (start_datetime config) /\
  root_name config =
    "Hake_range=0.2_ping=2s_start=2017-07-24-00-00_end=2017-08-24-23-59" /\
  (exists w', layout config (mkWorld ∅ []) = (Ok tt, w')) /\
  layout config (fresh_world config) = (Ok tt, fresh_world config).
Proof.
  assert (Hs : no_sep (root_name config) = true) by (vm_compute; reflexivity).
  assert (Hn : name_ok (root_name config)).
  { split; [vm_compute; reflexivity|].
    apply Nat.leb_le. vm_compute. reflexivity. }
  assert (V : valid (start_datetime config))
    by (vm_compute; repeat split; discriminate).
  destruct (layout_idempotent config (mkWorld ∅ []))
    as ((S & E & R & St & _) & _ & C & I & _).
  split; [exact Hs|]. split; [exact Hn|]. split; [exact V|].
  split; [reflexivity|].
  assert (X : exists w', layout config (mkWorld ∅ []) = (Ok tt, w')).
  { apply (C Hs Hn). apply Forall_forall. intros d _ b. cbn [fs].
    rewrite lookup_empty. discriminate. }
  split; [exact X|].
  destruct X as [w' H].
  assert (E' : w' = fresh_world config)
    by (unfold fresh_world; now rewrite H).
  rewrite <- E'. exact (proj2 (proj2 (proj2 (proj2 (I _ H))))).
Defined.

Lemma outer_errors_propagate_witness :
  fst (layout config (mkWorld ∅ [])) = Ok tt /\
  In (calibrated_dpath config, "MVBS_", ".nc") (merger_patterns config) /\
  find_paths ext_nothing_listed (calibrated_dpath config) "MVBS_" ".nc"
    (fs (fresh_world config)) = Ok ∅ /\
  run ext_nothing_listed config (mkWorld ∅ []) =
    (Raise (mkException "OSError" "no files to open"),
     mkWorld (fs (fresh_world config))
       (stdout (fresh_world config)
          ++ ["There are 0 target raw files available"])%list).
Proof.
  assert (F : fst (layout config (mkWorld ∅ [])) = Ok tt)
    by (vm_compute; reflexivity).
  split; [exact F|].
  assert (H : layout config (mkWorld ∅ []) = (Ok tt, fresh_world config))
    by (rewrite <- F; apply surjective_pairing).
  assert (I : In (calibrated_dpath config, "MVBS_", ".nc")
                (merger_patterns config)) by now left.
  split; [exact I|].
  destruct (outer_errors_propagate ext_nothing_listed config _ _ H)
    as (_ & _ & E & G).
  assert (P : find_paths ext_nothing_listed (calibrated_dpath config)
                "MVBS_" ".nc" (fs (fresh_world config)) = Ok ∅).
  { apply G; [vm_compute; reflexivity|].
    intros q n Hq Hp.
    destruct (layout_result _ _ _ H) as (_ & _ & _ & Fr & _).
    destruct (decide (q ∈ layout_dirs config)) as [Hin|Hout];
      [apply list_elem_of_In in Hin|rewrite list_elem_of_In in Hout].
    - exfalso. rewrite layout_dirs_parts in Hin. simpl in Hin.
      destruct Hin as [<-|[<-|[<-|[<-|[]]]]]; vm_compute in Hp;
        discriminate Hp.
    - rewrite (Fr q Hout) in Hq. cbn [fs] in Hq.
      rewrite lookup_empty in Hq. discriminate. }
  split; [exact P|].
  destruct (E [] _ _ _ eq_refl eq_refl I P) as (e & R & C).
  rewrite R. now rewrite (C eq_refl).
Defined.

(** ** More on the day enumeration *)

Lemma two_digits_cycle : all_from two_digits_ok 100 0 = true.
Proof. vm_compute. reflexivity. Qed.

Lemma two_digits_spec (n : Z) :
  0 <= n < 100 ->
  exists a b,
    zfill (str n) 2 = String a (String b "") /\ 10 * digit a + digit b = n.
Proof.
  intros Hn.
  pose proof (all_from_spec _ _ _ two_digits_cycle n ltac:(lia)) as H.
  unfold two_digits_ok, two_digits_value in H.
  destruct (zfill (str n) 2) as [|a [|b [|]]]; try discriminate.
  exists a, b. split; [reflexivity|]. now apply Z.eqb_eq.
Qed.

Lemma days_in_month_le (y m : Z) : 1 <= m <= 12 -> _days_in_month y m <= 31.
Proof.
  intros Hm. unfold _days_in_month.
  destruct (_is_leap y); month_cases m; simpl; lia.
Qed.

Lemma token_shape (y m d : Z) :
  1 <= m <= 12 -> 1 <= d <= _days_in_month y m ->
  exists a b a' b',
    token (y, m, d) = String a (String b (String a' (String b' ""))) /\
    10 * digit a + digit b = m /\ 10 * digit a' + digit b' = d.
Proof.
  intros Hm Hd. pose proof (days_in_month_le y m Hm).
  destruct (two_digits_spec m ltac:(lia)) as (a & b & Em & Vm).
  destruct (two_digits_spec d ltac:(lia)) as (a' & b' & Ed & Vd).
  exists a, b, a', b'. unfold token. rewrite Em, Ed. auto.
Qed.

Lemma token_ord2ymd_length (n : Z) :
  String.length (token (_ord2ymd n)) = 4%nat.
Proof.
  destruct (ord2ymd_spec n) as (y & m & d & -> & _ & Hm & Hd).
  destruct (token_shape y m d Hm Hd) as (a & b & a' & b' & -> & _).
  reflexivity.
Qed.

(** X1.  For two valid datetimes the day enumeration never raises: the
    days it adds stay within the calendar.  It yields one token per whole
    period of 24 hours from the start to the end, plus one, none when that
    count is not positive, and each token has four characters. *)
Theorem date_list_never_raises (s e : datetime) :
  valid s -> valid e ->
  exists tokens,
    date_list s e = Ok tokens /\
    Z.of_nat (List.length tokens) = Z.max 0 (days (sub e s) + 1) /\
    Forall (fun t => String.length t = 4%nat) tokens.
Proof.
  intros Hs He. eexists. split; [now apply date_list_total|]. split.
  - rewrite !length_map, length_seqZ. lia.
  - apply Forall_forall. intros t Ht. apply list_elem_of_In in Ht.
    apply in_map_iff in Ht as (D & <- & HD).
    apply in_map_iff in HD as (n & <- & _). apply token_ord2ymd_length.
Qed.

Lemma date_list_never_raises_witness :
  valid (start_datetime config) /\ valid (end_datetime config) /\
  exists tokens,
    date_list (start_datetime config) (end_datetime config) = Ok tokens /\
    Z.of_nat (List.length tokens) =
      Z.max 0 (days (sub (end_datetime config) (start_datetime config)) + 1) /\
    Forall (fun t => String.length t = 4%nat) tokens.
Proof.
  assert (H1 : valid (start_datetime config))
    by (vm_compute; repeat split; discriminate).
  assert (H2 : valid (end_datetime config))
    by (vm_compute; repeat split; discriminate).
  split; [exact H1|]. split; [exact H2|].
  exact (date_list_never_raises _ _ H1 H2).
Defined.

(** X2.  When the end is earlier than the start the enumeration is empty,
    so that the date filter keeps no file of any listing. *)
Theorem reversed_range_keeps_nothing (cfg : Config) (s3rawfiles : list string) :
  valid (start_datetime cfg) -> valid (end_datetime cfg) ->
  datetime_lt (end_datetime cfg) (start_datetime cfg) ->
  date_list (start_datetime cfg) (end_datetime cfg) = Ok [] /\
  date_filter_cells cfg s3rawfiles = Ok [].
Proof.
  intros Hs He Hlt.
  assert (Hd : days (sub (end_datetime cfg) (start_datetime cfg)) + 1 <= 0).
  { rewrite sub_days by assumption.
    destruct Hs as ((_ & Hms & Hds) & _), He as ((_ & Hme & Hde) & _).
    unfold toordinal. destruct Hlt as [L|[E L]].
    - pose proof (ymd2ord_lt _ _ _ _ _ _ Hme Hde Hms Hds L).
      destruct (_ <=? _); lia.
    - unfold date_of in E. injection E as -> -> ->.
      destruct (Z.leb_spec (time_of_day (start_datetime cfg))
                  (time_of_day (end_datetime cfg))); lia. }
  assert (El : date_list (start_datetime cfg) (end_datetime cfg) = Ok []).
  { rewrite date_list_total by assumption.
    now rewrite seqZ_nil by lia. }
  split; [exact El|]. unfold date_filter_cells. rewrite El. simpl.
  unfold date_filter. f_equal. induction s3rawfiles; [reflexivity|assumption].
Qed.

Lemma reversed_range_keeps_nothing_witness :
  valid (start_datetime config_reversed) /\
  valid (end_datetime config_reversed) /\
  datetime_lt (end_datetime config_reversed) (start_datetime config_reversed) /\
  date_filter_cells config_reversed [file_a; file_b] = Ok [].
Proof.
  assert (H1 : valid (start_datetime config_reversed))
    by (vm_compute; repeat split; discriminate).
  assert (H2 : valid (end_datetime config_reversed))
    by (vm_compute; repeat split; discriminate).
  assert (H3 : datetime_lt (end_datetime config_reversed)
                 (start_datetime config_reversed))
    by (left; simpl; lia).
  split; [exact H1|]. split; [exact H2|]. split; [exact H3|].
  exact (proj2 (reversed_range_keeps_nothing config_reversed
                  [file_a; file_b] H1 H2 H3)).
Defined.

Lemma token_inj (y m d y' m' d' : Z) :
  1 <= m <= 12 -> 1 <= d <= _days_in_month y m ->
  1 <= m' <= 12 -> 1 <= d' <= _days_in_month y' m' ->
  token (y, m, d) = token (y', m', d') -> m = m' /\ d = d'.
Proof.
  intros Hm Hd Hm' Hd' E.
  destruct (token_shape y m d Hm Hd) as (a & b & c & e & E1 & <- & <-).
  destruct (token_shape y' m' d' Hm' Hd') as (a' & b' & c' & e' & E2 & <- & <-).
  rewrite E1, E2 in E. injection E as -> -> -> ->. auto.
Qed.

(** X3.  For a range of days within one calendar year the tokens are
    pairwise distinct: as many different tokens as calendar days. *)
Theorem tokens_distinct_within_a_year (s e : datetime) :
  valid s -> valid e -> time_of_day s <= time_of_day e ->
  year s = year e ->
  exists tokens,
    date_list s e = Ok tokens /\ List.NoDup tokens /\
    Z.of_nat (List.length tokens) = Z.max 0 (toordinal e - toordinal s + 1).
Proof.
  intros Hs He Ht Hy. eexists. split; [now apply date_list_days|].
  split; [|rewrite !length_map, length_seqZ; lia].
  apply NoDup_ListNoDup.
  apply (NoDup_fmap_2_strong token);
    [|apply NoDup_ListNoDup, days_between_NoDup].
  intros [[y m] d] [[y' m'] d'] H1 H2 E.
  apply list_elem_of_In, days_between_spec in H1
    as ((_ & Hm & Hd) & L1 & U1); [|assumption..].
  apply list_elem_of_In, days_between_spec in H2
    as ((_ & Hm' & Hd') & L2 & U2); [|assumption..].
  destruct (token_inj _ _ _ _ _ _ Hm Hd Hm' Hd' E) as [-> ->].
  assert (Ey : forall yy mm dd,
    date_le (date_of s) (yy, mm, dd) -> date_le (yy, mm, dd) (date_of e) ->
    yy = year s).
  { intros yy mm dd [A|A] [B|B]; unfold date_of in *; simpl in *;
      try (injection A as ? ? ?); try (injection B as ? ? ?); lia. }
  rewrite (Ey _ _ _ L1 U1), (Ey _ _ _ L2 U2). reflexivity.
Qed.

Lemma tokens_distinct_within_a_year_witness :
  valid (start_datetime config) /\ valid (end_datetime config) /\
  time_of_day (start_datetime config) <= time_of_day (end_datetime config) /\
  year (start_datetime config) = year (end_datetime config) /\
  exists tokens,
    date_list (start_datetime config) (end_datetime config) = Ok tokens /\
    List.NoDup tokens /\
    Z.of_nat (List.length tokens) =
      Z.max 0 (toordinal (end_datetime config)
               - toordinal (start_datetime config) + 1).
Proof.
  assert (H1 : valid (start_datetime config))
    by (vm_compute; repeat split; discriminate).
  assert (H2 : valid (end_datetime config))
    by (vm_compute; repeat split; discriminate).
  assert (H3 : time_of_day (start_datetime config)
               <= time_of_day (end_datetime config))
    by (vm_compute; discriminate).
  assert (H4 : year (start_datetime config) = year (end_datetime config))
    by reflexivity.
  split; [exact H1|]. split; [exact H2|]. split; [exact H3|].
  split; [exact H4|].
  exact (tokens_distinct_within_a_year _ _ H1 H2 H3 H4).
Defined.

Lemma ymd2ord_lt_iff (y m d y' m' d' : Z) :
  1 <= m <= 12 -> 1 <= d <= _days_in_month y m ->
  1 <= m' <= 12 -> 1 <= d' <= _days_in_month y' m' ->
  date_lt (y, m, d) (y', m', d') <-> _ymd2ord y m d < _ymd2ord y' m' d'.
Proof.
  intros Hm Hd Hm' Hd'. split; [now apply ymd2ord_lt|].
  intros Hlt.
  destruct (date_trichotomy (y, m, d) (y', m', d')) as [L|[E|L]].
  - exact L.
  - injection E as -> -> ->. lia.
  - pose proof (ymd2ord_lt _ _ _ _ _ _ Hm' Hd' Hm Hd L). lia.
Qed.

(** X4.  When the time of day of the start is after that of the end, the
    subtraction counts one day less than the dates are apart: the
    enumeration is the tokens of the distinct calendar days from the start
    date up to, and without, the end date. *)
Theorem late_start_stops_before_end_date (s e : datetime) :
  valid s -> valid e -> time_of_day e < time_of_day s ->
  exists days : list (Z * Z * Z),
    List.NoDup days /\
    (forall y m d,
        In (y, m, d) days <->
        valid_date y m d /\ date_le (date_of s) (y, m, d) /\
        date_lt (y, m, d) (date_of e)) /\
    date_list s e = Ok (map token days).
Proof.
  intros Hs He Ht.
  exists (map _ord2ymd (seqZ (toordinal s) (toordinal e - toordinal s))).
  split; [apply days_between_NoDup|]. split.
  - destruct Hs as ((Hys & Hms & Hds) & _), He as ((Hye & Hme & Hde) & _).
    intros y m d. unfold date_of, toordinal. rewrite in_map_iff. split.
    + intros (n & E & Hn). apply list_elem_of_In, elem_of_seqZ in Hn.
      destruct (ord2ymd_spec n) as (y' & m' & d' & E' & R & Hm & Hd).
      rewrite E in E'. injection E' as <- <- <-. subst n.
      assert (L1 : date_le (year s, month s, day s) (y, m, d))
        by (apply ymd2ord_le_iff; [assumption..|lia]).
      assert (L2 : date_lt (y, m, d) (year e, month e, day e))
        by (apply ymd2ord_lt_iff; [assumption..|lia]).
      repeat split; try assumption; try lia.
      * destruct L1 as [L1|L1]; [injection L1; lia|simpl in L1; lia].
      * simpl in L2. lia.
    + intros ((Hy & Hm & Hd) & L1 & L2).
      apply ymd2ord_le_iff in L1; [|assumption..].
      apply ymd2ord_lt_iff in L2; [|assumption..].
      exists (_ymd2ord y m d). split; [now apply ord2ymd_ymd2ord|].
      apply list_elem_of_In, elem_of_seqZ. lia.
  - rewrite date_list_total, sub_days by assumption.
    destruct (Z.leb_spec (time_of_day s) (time_of_day e)); [lia|].
    do 4 f_equal. lia.
Qed.

Lemma late_start_stops_before_end_date_witness :
  valid (mkDatetime 2017 7 24 23 0 0 0) /\
  valid (mkDatetime 2017 7 26 1 0 0 0) /\
  time_of_day (mkDatetime 2017 7 26 1 0 0 0)
    < time_of_day (mkDatetime 2017 7 24 23 0 0 0) /\
  exists days : list (Z * Z * Z),
    date_list (mkDatetime 2017 7 24 23 0 0 0) (mkDatetime 2017 7 26 1 0 0 0)
      = Ok (map token days) /\
    ~ In (2017, 7, 26) days.
Proof.
  assert (H1 : valid (mkDatetime 2017 7 24 23 0 0 0))
    by (vm_compute; repeat split; discriminate).
  assert (H2 : valid (mkDatetime 2017 7 26 1 0 0 0))
    by (vm_compute; repeat split; discriminate).
  assert (H3 : time_of_day (mkDatetime 2017 7 26 1 0 0 0)
               < time_of_day (mkDatetime 2017 7 24 23 0 0 0))
    by (vm_compute; reflexivity).
  split; [exact H1|]. split; [exact H2|]. split; [exact H3|].
  destruct (late_start_stops_before_end_date _ _ H1 H2 H3)
    as (days & _ & Hin & Hl).
  exists days. split; [exact Hl|].
  intros H. apply Hin in H as (_ & _ & L). simpl in L. lia.
Defined.

(** ** More on the date filter *)

Lemma date_filter_app (tokens l1 l2 : list string) :
  date_filter tokens (l1 ++ l2)%list =
  (date_filter tokens l1 ++ date_filter tokens l2)%list.
Proof. unfold date_filter. apply List.filter_app. Qed.

(** X5.  The filter cell can be run again on its own result without
    changing it; it treats a listing piece by piece, keeps nothing of an
    empty listing or for an empty token list, keeps a path as many times as
    it is listed, and keeps more when given more tokens. *)
Theorem date_filter_rerun (tokens tokens' l l1 l2 : list string) (p : string) :
  date_filter tokens (date_filter tokens l) = date_filter tokens l /\
  date_filter tokens (l1 ++ l2)%list =
    (date_filter tokens l1 ++ date_filter tokens l2)%list /\
  date_filter tokens [] = [] /\
  date_filter [] l = [] /\
  (In p (date_filter tokens l) ->
   count_occ string_dec (date_filter tokens l) p = count_occ string_dec l p) /\
  ((forall t, In t tokens -> In t tokens') ->
   forall q, In q (date_filter tokens l) -> In q (date_filter tokens' l)).
Proof.
  split; [|split; [apply date_filter_app|split; [reflexivity|split; [|split]]]].
  - unfold date_filter. induction l as [|x l IH]; [reflexivity|].
    simpl. destruct (any _) eqn:E; [|exact IH].
    simpl. rewrite E. now f_equal.
  - unfold date_filter. induction l; [reflexivity|assumption].
  - unfold date_filter.
    set (f := fun s3path : string =>
                any (map (fun datestr => str_in ("D2017" ++ datestr) s3path)
                       tokens)).
    intros Hp. apply List.filter_In in Hp as [_ Hk].
    induction l as [|x l IH]; [reflexivity|]. simpl.
    destruct (string_dec x p) as [->|Hne].
    + rewrite Hk. simpl. destruct (string_dec p p); [|contradiction].
      now f_equal.
    + destruct (f x); [|exact IH]. simpl.
      destruct (string_dec x p); [contradiction|exact IH].
  - intros Hsub q Hq. apply date_filter_In in Hq as (Hq & t & Ht & Hs).
    apply date_filter_In. split; [exact Hq|]. exists t. auto.
Qed.

(** X14.  For a start and an end whose dates delimit a range of calendar
    days (the time of day of the start not after that of the end, as with
    dates alone), in one year or not, the day enumeration yields the token
    of each of the [N] distinct calendar days from the start date through
    the end date, a token being the month on two digits followed by the day
    on two digits, and the filter keeps, in listing order, exactly the paths
    that contain ['D2017'] followed by one of these tokens as a literal
    substring; for a path of the listed directory that is exactly when the
    file name contains it.  Every other path is dropped. *)
Theorem date_filter_exact (s e : datetime) (s3rawfiles : list string) :
  valid s -> valid e -> time_of_day s <= time_of_day e ->
  exists days : list (Z * Z * Z),
    List.NoDup days /\
    (forall y m d,
        In (y, m, d) days <->
        valid_date y m d /\ date_le (date_of s) (y, m, d) /\
        date_le (y, m, d) (date_of e)) /\
    Z.of_nat (List.length days) = Z.max 0 (toordinal e - toordinal s + 1) /\
    date_list s e = Ok (map token days) /\
    (forall y m d,
        In (y, m, d) days ->
        exists mm dd,
          token (y, m, d) = mm ++ dd /\ two_digits mm m /\ two_digits dd d) /\
    (forall p,
        In p (date_filter (map token days) s3rawfiles) <->
        In p s3rawfiles /\
        exists day, In day days /\ is_substring ("D2017" ++ token day) p) /\
    (forall name,
        In (bucket ++ "/" ++ rawdirpath ++ "/" ++ name)
           (date_filter (map token days) s3rawfiles) <->
        In (bucket ++ "/" ++ rawdirpath ++ "/" ++ name) s3rawfiles /\
        exists day, In day days /\ is_substring ("D2017" ++ token day) name) /\
    sublist (date_filter (map token days) s3rawfiles) s3rawfiles.
Proof.
  intros Hs He Ht.
  exists (map _ord2ymd (seqZ (toordinal s) (toordinal e - toordinal s + 1))).
  split; [apply days_between_NoDup|].
  split; [intros y m d; now apply days_between_spec|].
  split; [rewrite length_map, length_seqZ; lia|].
  split; [now apply date_list_days|].
  split.
  { intros y m d Hin.
    apply (days_between_spec s e y m d Hs He) in Hin as ((_ & Hm & Hd) & _).
    pose proof (days_in_month_le_31 y m).
    exists (zfill (str m) 2), (zfill (str d) 2).
    split; [reflexivity|]. split; apply zfill2_two_digits; lia. }
  assert (Hin : forall p,
    In p (date_filter
            (map token
               (map _ord2ymd
                  (seqZ (toordinal s) (toordinal e - toordinal s + 1))))
            s3rawfiles) <->
    In p s3rawfiles /\
    exists day,
      In day (map _ord2ymd
                (seqZ (toordinal s) (toordinal e - toordinal s + 1))) /\
      str_in ("D2017" ++ token day) p = true).
  { intros p. rewrite date_filter_In. split; intros [Hp H]; (split; [exact Hp|]).
    - destruct H as (t & Hin & Hsub). apply in_map_iff in Hin as (day & <- & Hd).
      exists day. split; [exact Hd|]. now apply str_in_spec.
    - destruct H as (day & Hd & Hsub). exists (token day).
      split; [now apply in_map|]. now apply str_in_spec. }
  split; [|split; [|apply date_filter_sublist]].
  - intros p. rewrite Hin. split; intros [Hp (day & Hd & H)];
      (split; [exact Hp|]); exists day; (split; [exact Hd|]);
      now apply str_in_spec.
  - intros name. rewrite Hin. split; intros [Hp (day & Hd & H)];
      (split; [exact Hp|]); exists day; (split; [exact Hd|]).
    + rewrite listed_path_token in H. now apply str_in_spec.
    + rewrite listed_path_token. now apply str_in_spec.
Qed.

Lemma date_filter_exact_witness :
  exists days : list (Z * Z * Z),
    List.NoDup days /\
    (forall y m d,
        In (y, m, d) days <->
        valid_date y m d /\
        date_le (date_of (start_datetime config)) (y, m, d) /\
        date_le (y, m, d) (date_of (end_datetime config))) /\
    Z.of_nat (List.length days) =
      Z.max 0 (toordinal (end_datetime config)
               - toordinal (start_datetime config) + 1) /\
    date_list (start_datetime config) (end_datetime config) =
      Ok (map token days) /\
    (forall y m d,
        In (y, m, d) days ->
        exists mm dd,
          token (y, m, d) = mm ++ dd /\ two_digits mm m /\ two_digits dd d) /\
    (forall p,
        In p (date_filter (map token days)
                ["a/SH1707-D20170724-T1.raw"; "a/SH1707-D20170825-T1.raw"]) <->
        In p ["a/SH1707-D20170724-T1.raw"; "a/SH1707-D20170825-T1.raw"] /\
        exists day, In day days /\ is_substring ("D2017" ++ token day) p) /\
    (forall name,
        In (bucket ++ "/" ++ rawdirpath ++ "/" ++ name)
           (date_filter (map token days)
              ["a/SH1707-D20170724-T1.raw"; "a/SH1707-D20170825-T1.raw"]) <->
        In (bucket ++ "/" ++ rawdirpath ++ "/" ++ name)
           ["a/SH1707-D20170724-T1.raw"; "a/SH1707-D20170825-T1.raw"] /\
        exists day, In day days /\ is_substring ("D2017" ++ token day) name) /\
    sublist
      (date_filter (map token days)
         ["a/SH1707-D20170724-T1.raw"; "a/SH1707-D20170825-T1.raw"])
      ["a/SH1707-D20170724-T1.raw"; "a/SH1707-D20170825-T1.raw"].
Proof.
  apply (date_filter_exact (start_datetime config) (end_datetime config)
           ["a/SH1707-D20170724-T1.raw"; "a/SH1707-D20170825-T1.raw"]).
  - vm_compute. repeat split; discriminate.
  - vm_compute. repeat split; discriminate.
  - vm_compute. discriminate.
Defined.

Lemma date_filter_rerun_witness :
  (forall t, In t ["0724"] -> In t ["0724"; "0725"]) /\
  forall q, In q (date_filter ["0724"] [file_a; file_b]) ->
            In q (date_filter ["0724"; "0725"] [file_a; file_b]).
Proof.
  assert (H : forall t, In t ["0724"] -> In t ["0724"; "0725"])
    by (intros t [<-|[]]; simpl; auto).
  split; [exact H|].
  exact (proj2 (proj2 (proj2 (proj2 (proj2
           (date_filter_rerun ["0724"] ["0724"; "0725"] [file_a; file_b]
              [] [] file_a))))) H).
Defined.

(** ** The files of the listing *)

Lemma append_inv_tail (a b s : string) : a ++ s = b ++ s -> a = b.
Proof.
  revert b. induction a as [|c a IH]; intros [|c' b] E.
  - reflexivity.
  - apply (f_equal String.length) in E.
    rewrite !length_append in E. simpl in E. lia.
  - apply (f_equal String.length) in E.
    rewrite !length_append in E. simpl in E. lia.
  - change (String c (a ++ s) = String c' (b ++ s)) in E.
    injection E as -> E. f_equal. now apply IH.
Qed.

Lemma append_assoc (a b c : string) : (a ++ b) ++ c = a ++ b ++ c.
Proof.
  induction a as [|x a IH]; [reflexivity|].
  change (String x ((a ++ b) ++ c) = String x (a ++ b ++ c)). now rewrite IH.
Qed.

(** X6.  For a file [<base>.raw] of the listed directory, [base] not empty,
    the outputs are named [MVBS_<base>.nc] and the failure line names
    [<base>.raw]; two such files of different names never share an output
    path.  The file named [.raw] alone is the exception: its stem is the
    whole name, which is also the stem of [.raw.raw]. *)
Theorem listed_files_do_not_collide (cfg : Config) (base base' : string) :
  no_sep base = true -> base <> "" -> no_sep base' = true -> base' <> "" ->
  name (Path (listed base)) = base ++ ".raw" /\
  out_name (Path (listed base)) = "MVBS_" ++ base ++ ".nc" /\
  (forall e,
      failed_message (Path (listed base)) e =
      "Failed to process raw file " ++ base ++ ".raw: " ++ exc_str e) /\
  (base <> base' ->
   forall o, In o (outputs cfg (listed base)) ->
             ~ In o (outputs cfg (listed base'))) /\
  stem (Path (listed "")) = stem (Path (listed ".raw")).
Proof.
  intros Hs Hne Hs' Hne'.
  destruct (listed_file_stem base Hs Hne) as [Hn Hst].
  destruct (listed_file_stem base' Hs' Hne') as [Hn' Hst'].
  fold (listed base) in Hn, Hst. fold (listed base') in Hn', Hst'.
  split; [exact Hn|].
  assert (Ho : out_name (Path (listed base)) = "MVBS_" ++ base ++ ".nc")
    by (unfold out_name; now rewrite Hst).
  assert (Ho' : out_name (Path (listed base')) = "MVBS_" ++ base' ++ ".nc")
    by (unfold out_name; now rewrite Hst').
  split; [exact Ho|].
  split.
  { intros e. unfold failed_message. rewrite Hn.
    now rewrite append_assoc. }
  split; [|reflexivity].
  intros Hd o H1 H2. unfold outputs in H1, H2.
  destruct (outputs_parts cfg (listed base)) as (E1 & E2 & E3).
  destruct (outputs_parts cfg (listed base')) as (E1' & E2' & E3').
  rewrite E1, E2, E3, Ho in H1. rewrite E1', E2', E3', Ho' in H2.
  apply Hd. simpl in H1, H2.
  destruct H1 as [<-|[<-|[<-|[]]]], H2 as [H2|[H2|[H2|[]]]];
    apply app_inv_head in H2; try discriminate H2;
    injection H2 as Hf; symmetry;
    apply (append_inv_tail base' base ".nc"); exact Hf.
Qed.

Lemma listed_files_do_not_collide_witness :
  no_sep "Summer2017-D20170724-T000000" = true /\
  "Summer2017-D20170724-T000000" <> "" /\
  no_sep "Summer2017-D20170725-T000000" = true /\
  "Summer2017-D20170725-T000000" <> "" /\
  out_name (Path (listed "Summer2017-D20170724-T000000")) =
    "MVBS_" ++ "Summer2017-D20170724-T000000" ++ ".nc".
Proof.
  assert (H1 : no_sep "Summer2017-D20170724-T000000" = true) by reflexivity.
  assert (H2 : "Summer2017-D20170724-T000000" <> "") by discriminate.
  assert (H3 : no_sep "Summer2017-D20170725-T000000" = true) by reflexivity.
  assert (H4 : "Summer2017-D20170725-T000000" <> "") by discriminate.
  split; [exact H1|]. split; [exact H2|]. split; [exact H3|].
  split; [exact H4|].
  exact (proj1 (proj2 (listed_files_do_not_collide config _ _ H1 H2 H3 H4))).
Defined.

(** ** More on the output layout *)





(** ** More on the main loop *)

Lemma insert_file_frame (p : list string) (b : string)
    (fs0 : gmap (list string) node) :
  writable fs0 p ->
  (forall q, q <> p -> <[p := File b]> fs0 !! q = fs0 !! q) /\
  (forall q, fs0 !! q = Some Dir -> <[p := File b]> fs0 !! q = Some Dir) /\
  (forall q, is_Some (fs0 !! q) -> is_Some (<[p := File b]> fs0 !! q)).
Proof.
  intros (_ & _ & Hw & _).
  split; [intros q Hq; now rewrite lookup_insert_ne|].
  split; intros q Hq; (destruct (decide (p = q)) as [->|Hne];
    [|now rewrite lookup_insert_ne]).
  - destruct q; [now contradiction Hw|]. simpl in Hw. contradiction.
  - rewrite lookup_insert_eq. eauto.
Qed.

Lemma to_netcdf_frame (ext : External) (r : result string)
    (left : option string) (p : list string) (w w' : world)
    (x : result unit) :
  to_netcdf ext r left p w = (x, w') ->
  stdout w' = stdout w /\
  (forall q, q <> p -> fs w' !! q = fs w !! q) /\
  (forall q, fs w !! q = Some Dir -> fs w' !! q = Some Dir) /\
  (forall q, is_Some (fs w !! q) -> is_Some (fs w' !! q)).
Proof.
  destruct x as [[]|e]; intros H.
  - apply to_netcdf_ok in H as (b & _ & Hw & ->). cbn [fs stdout].
    split; [reflexivity|]. now apply insert_file_frame.
  - apply to_netcdf_raise in H as [->|(b & _ & _ & Hw & ->)]; [auto|].
    cbn [fs stdout]. split; [reflexivity|]. now apply insert_file_frame.
Qed.

Lemma convert_frame (ext : External) (cfg : Config) (s : string)
    (w w' : world) (r : result unit) :
  convert ext cfg s (Path s) w = (r, w') ->
  (forall q, ~ In q (outputs cfg s) -> fs w' !! q = fs w !! q) /\
  (forall q, fs w !! q = Some Dir -> fs w' !! q = Some Dir) /\
  (forall q, is_Some (fs w !! q) -> is_Some (fs w' !! q)).
Proof.
  unfold convert, bindM, lift.
  fold (mvbs_fpath cfg s) (lon_fpath cfg s) (lat_fpath cfg s).
  assert (N : forall q, ~ In q (outputs cfg s) ->
            q <> mvbs_fpath cfg s /\ q <> lon_fpath cfg s /\
            q <> lat_fpath cfg s).
  { intros q Hq. unfold outputs in Hq. simpl in Hq.
    repeat split; intros ->; tauto. }
  destruct (open_raw ext _ _) as [ed|]; [|intros [= _ <-]; auto].
  destruct (compute_Sv ext ed) as [sv|]; [|intros [= _ <-]; auto].
  destruct (compute_MVBS ext sv _ _) as [mvbs|]; [|intros [= _ <-]; auto].
  destruct (to_netcdf ext _ _ (mvbs_fpath cfg s) w) as [x1 w1] eqn:T1.
  destruct (to_netcdf_frame _ _ _ _ _ _ _ T1) as (_ & F1 & D1 & S1).
  assert (R1 : (forall q, ~ In q (outputs cfg s) -> fs w1 !! q = fs w !! q) /\
               (forall q, fs w !! q = Some Dir -> fs w1 !! q = Some Dir) /\
               (forall q, is_Some (fs w !! q) -> is_Some (fs w1 !! q))).
  { split; [|auto]. intros q Hq. apply F1. now apply N. }
  destruct x1 as [[]|]; [|intros [= _ <-]; exact R1].
  destruct (platform_longitude ext ed) as [lon|]; [|intros [= _ <-]; exact R1].
  destruct (to_netcdf ext _ _ (lon_fpath cfg s) w1) as [x2 w2] eqn:T2.
  destruct (to_netcdf_frame _ _ _ _ _ _ _ T2) as (_ & F2 & D2 & S2).
  destruct R1 as (R1 & R1' & R1'').
  assert (R2 : (forall q, ~ In q (outputs cfg s) -> fs w2 !! q = fs w !! q) /\
               (forall q, fs w !! q = Some Dir -> fs w2 !! q = Some Dir) /\
               (forall q, is_Some (fs w !! q) -> is_Some (fs w2 !! q))).
  { split; [|auto]. intros q Hq. rewrite F2 by now apply N. auto. }
  destruct x2 as [[]|]; [|intros [= _ <-]; exact R2].
  destruct (platform_latitude ext ed) as [lat|]; [|intros [= _ <-]; exact R2].
  destruct (to_netcdf ext _ _ (lat_fpath cfg s) w2) as [x3 w3] eqn:T3.
  destruct (to_netcdf_frame _ _ _ _ _ _ _ T3) as (_ & F3 & D3 & S3).
  destruct R2 as (R2 & R2' & R2'').
  assert (R3 : (forall q, ~ In q (outputs cfg s) -> fs w3 !! q = fs w !! q) /\
               (forall q, fs w !! q = Some Dir -> fs w3 !! q = Some Dir) /\
               (forall q, is_Some (fs w !! q) -> is_Some (fs w3 !! q))).
  { split; [|auto]. intros q Hq. rewrite F3 by now apply N. auto. }
  destruct x3 as [[]|]; [|intros [= _ <-]; exact R3].
  unfold print. intros [= _ <-]. exact R3.
Qed.

Lemma process_fs (ext : External) (cfg : Config) (s : string) (w : world) :
  fs (snd (process ext cfg s w)) = fs (snd (convert ext cfg s (Path s) w)).
Proof.
  unfold process, try_except.
  destruct (convert ext cfg s (Path s) w) as [[[]|e] w']; reflexivity.
Qed.

Lemma main_loop_changes (ext : External) (cfg : Config) (files : list string)
    (w : world) :
  exists w' lines,
    main_loop ext cfg files w = (Ok tt, w') /\
    stdout w' = (stdout w ++ lines)%list /\ Forall2 reported files lines /\
    (forall q, (forall s, In s files -> ~ In q (outputs cfg s)) ->
               fs w' !! q = fs w !! q) /\
    (forall q, fs w !! q = Some Dir -> fs w' !! q = Some Dir) /\
    (forall q, is_Some (fs w !! q) -> is_Some (fs w' !! q)).
Proof.
  unfold main_loop. revert w. induction files as [|s l IH]; intros w.
  - exists w, []. simpl. rewrite app_nil_r. repeat split; auto; constructor.
  - destruct (process_total ext cfg s w) as (w1 & line & E & Hout & Hrep).
    destruct (IH w1) as (w' & lines & E' & Hout' & Hrep' & F & D & S).
    pose proof (process_fs ext cfg s w) as Hfs. rewrite E in Hfs.
    cbn [snd] in Hfs.
    destruct (convert ext cfg s (Path s) w) as [r wc] eqn:Ec.
    destruct (convert_frame _ _ _ _ _ _ Ec) as (Fc & Dc & Sc).
    cbn [snd] in Hfs.
    exists w', (line :: lines). cbn [for_each]. unfold bindM. rewrite E, E'.
    split; [reflexivity|].
    split; [rewrite Hout', Hout, <- app_assoc; reflexivity|].
    split; [now constructor|].
    split; [|split].
    + intros q Hq. rewrite F by (intros s' Hs'; apply Hq; now right).
      rewrite Hfs. apply Fc. apply Hq. now left.
    + intros q Hq. apply D. rewrite Hfs. auto.
    + intros q Hq. apply S. rewrite Hfs. auto.
Qed.

(** X8.  A loop that has run to its end has printed one line per file,
    in order, has left every path that is not an output path of a listed
    file as it was, has kept every directory a directory and has removed no
    entry. *)
Theorem main_loop_only_writes_outputs (ext : External) (cfg : Config)
    (files : list string) (w w' : world) :
  main_loop ext cfg files w = (Ok tt, w') ->
  exists lines,
    stdout w' = (stdout w ++ lines)%list /\
    List.length lines = List.length files /\
    Forall2 reported files lines /\
    (forall q, (forall s, In s files -> ~ In q (outputs cfg s)) ->
               fs w' !! q = fs w !! q) /\
    (forall q, fs w !! q = Some Dir -> fs w' !! q = Some Dir) /\
    (forall q, is_Some (fs w !! q) -> is_Some (fs w' !! q)).
Proof.
  intros H.
  destruct (main_loop_changes ext cfg files w)
    as (w2 & lines & E & Hout & Hrep & F & D & S).
  rewrite H in E. injection E as <-.
  exists lines. repeat split; auto.
  symmetry. now apply Forall2_length in Hrep.
Qed.

Lemma main_loop_only_writes_outputs_witness :
  fst (main_loop ext_b_fails config [file_a; file_b] (fresh_world config))
    = Ok tt /\
  exists lines,
    stdout (snd (main_loop ext_b_fails config [file_a; file_b]
                   (fresh_world config))) =
      (stdout (fresh_world config) ++ lines)%list /\
    List.length lines = 2%nat.
Proof.
  assert (F :
    fst (main_loop ext_b_fails config [file_a; file_b] (fresh_world config))
      = Ok tt) by (vm_compute; reflexivity).
  split; [exact F|].
  assert (H :
    main_loop ext_b_fails config [file_a; file_b] (fresh_world config) =
    (Ok tt, snd (main_loop ext_b_fails config [file_a; file_b]
                   (fresh_world config))))
    by (rewrite <- F; apply surjective_pairing).
  destruct (main_loop_only_writes_outputs ext_b_fails config
              [file_a; file_b] _ _ H) as (lines & O & L & _).
  exists lines. split; [exact O|exact L].
Defined.

Lemma convert_without_layout (ext : External) (cfg : Config) (s : string)
    (w w' : world) (r : result unit) :
  fs w !! calibrated_dpath cfg <> Some Dir ->
  convert ext cfg s (Path s) w = (r, w') ->
  (exists e, r = Raise e) /\ w' = w.
Proof.
  intros Hd. unfold convert, bindM, lift.
  fold (mvbs_fpath cfg s) (lon_fpath cfg s) (lat_fpath cfg s).
  destruct (open_raw ext _ _) as [ed|]; [|intros [= <- <-]; eauto].
  destruct (compute_Sv ext ed) as [sv|]; [|intros [= <- <-]; eauto].
  destruct (compute_MVBS ext sv _ _) as [mvbs|]; [|intros [= <- <-]; eauto].
  assert (Hnw : ~ writable (fs w) (mvbs_fpath cfg s)).
  { intros Hw.
    assert (I : In (mvbs_fpath cfg s) (outputs cfg s)) by (simpl; auto).
    apply (proj1 (writable_output cfg s _ _ I)) in Hw as (_ & Hp & _).
    rewrite (proj1 (output_parent cfg s)) in Hp. contradiction. }
  destruct (to_netcdf ext _ _ (mvbs_fpath cfg s) w) as [[[]|e] w1] eqn:T1.
  - exfalso. apply to_netcdf_ok in T1 as (b & _ & Hw & _). contradiction.
  - apply to_netcdf_raise in T1 as [->|(b & _ & _ & Hw & _)];
      [|contradiction].
    intros [= <- <-]. eauto.
Qed.

(** X9.  Where the directory of the binned products is missing (the layout
    cell not run, or the directory removed), the first store of every
    iteration raises: the loop still returns, prints a failure line for each
    file and leaves the file system exactly as it was. *)
Theorem nothing_stored_without_layout (ext : External) (cfg : Config)
    (files : list string) (w : world) :
  fs w !! calibrated_dpath cfg <> Some Dir ->
  exists w' lines,
    main_loop ext cfg files w = (Ok tt, w') /\
    fs w' = fs w /\
    stdout w' = (stdout w ++ lines)%list /\
    Forall2 reported_failure files lines.
Proof.
  unfold main_loop. revert w. induction files as [|s l IH]; intros w Hd.
  - exists w, []. simpl. rewrite app_nil_r. repeat split; auto; constructor.
  - destruct (convert ext cfg s (Path s) w) as [r wc] eqn:Ec.
    destruct (convert_without_layout _ _ _ _ _ _ Hd Ec) as [[e ->] ->].
    pose proof (process_raise _ _ _ _ _ _ Ec) as Ep.
    destruct (IH (mkWorld (fs w) (stdout w ++ [failed_message (Path s) e])%list))
      as (w' & lines & E' & Hfs & Hout & Hrep); [exact Hd|].
    exists w', (failed_message (Path s) e :: lines).
    cbn [for_each]. unfold bindM. rewrite Ep, E'.
    split; [reflexivity|]. split; [exact Hfs|].
    split; [rewrite Hout; cbn [stdout]; now rewrite <- app_assoc|].
    constructor; [now exists e|exact Hrep].
Qed.

Lemma nothing_stored_without_layout_witness :
  (∅ : gmap (list string) node) !! calibrated_dpath config <> Some Dir /\
  exists w' lines,
    main_loop ext_ok config [file_a; file_b] (mkWorld ∅ []) = (Ok tt, w') /\
    fs w' = ∅ /\
    Forall2 reported_failure [file_a; file_b] lines.
Proof.
  assert (H : (∅ : gmap (list string) node) !! calibrated_dpath config
              <> Some Dir) by (rewrite lookup_empty; discriminate).
  split; [exact H|].
  destruct (nothing_stored_without_layout ext_ok config [file_a; file_b]
              (mkWorld ∅ []) H) as (w' & lines & E & Hfs & _ & R).
  exists w', lines. split; [exact E|]. split; [exact Hfs|exact R].
Defined.

(** ** More on the merger and the run *)

Lemma substring_all (s : string) : String.substring 0 (String.length s) s = s.
Proof. induction s as [|c s IH]; simpl; [reflexivity|now rewrite IH]. Qed.

Lemma substring_tail (a b : string) :
  String.substring (String.length a) (String.length b) (a ++ b) = b.
Proof.
  induction a as [|c a IH]; [apply substring_all|].
  change (String c a ++ b) with (String c (a ++ b)). simpl. exact IH.
Qed.

Lemma endswith_append (a suf : string) : endswith suf (a ++ suf) = true.
Proof.
  unfold endswith. rewrite length_append.
  replace (String.length a + String.length suf - String.length suf)%nat
    with (String.length a) by lia.
  rewrite substring_tail, String.eqb_refl.
  destruct (Nat.leb_spec (String.length suf)
              (String.length a + String.length suf)); [reflexivity|lia].
Qed.

(** The name of an output file matches both patterns of the merger. *)
Lemma out_name_matches (x : string) :
  glob_match "MVBS_" ".nc" ("MVBS_" ++ x ++ ".nc") = true /\
  glob_match "" ".nc" ("MVBS_" ++ x ++ ".nc") = true.
Proof.
  assert (E : endswith ".nc" ("MVBS_" ++ x ++ ".nc") = true).
  { rewrite <- append_assoc. apply endswith_append. }
  assert (L : (String.length "MVBS_" + String.length ".nc"
               <=? String.length ("MVBS_" ++ x ++ ".nc"))%nat = true).
  { rewrite !length_append. apply Nat.leb_le. simpl. lia. }
  assert (L0 : (String.length "" + String.length ".nc"
                <=? String.length ("MVBS_" ++ x ++ ".nc"))%nat = true).
  { rewrite !length_append. apply Nat.leb_le. simpl. lia. }
  assert (P : String.prefix "MVBS_" ("MVBS_" ++ x ++ ".nc") = true)
    by (apply prefix_spec; now exists (x ++ ".nc")).
  assert (P0 : String.prefix "" ("MVBS_" ++ x ++ ".nc") = true)
    by (apply prefix_spec; now exists ("MVBS_" ++ x ++ ".nc")).
  unfold glob_match. rewrite E, L, L0, P, P0. split; reflexivity.
Qed.

Lemma combined_fpath_parts (cfg : Config) :
  combined_fpath cfg = (base_dpath cfg ++ ["concatenated_MVBS.nc"])%list.
Proof. reflexivity. Qed.

Lemma converted_files_lookup (ext : External) (cfg : Config)
    (s : string) (w w' : world) :
  convert ext cfg s (Path s) w = (Ok tt, w') ->
  exists b1 b2 b3,
    products ext cfg s b1 b2 b3 /\
    fs w' !! mvbs_fpath cfg s = Some (File b1) /\
    fs w' !! lon_fpath cfg s = Some (File b2) /\
    fs w' !! lat_fpath cfg s = Some (File b3).
Proof.
  intros H. apply convert_ok in H as (b1 & b2 & b3 & Hp & _ & _ & _ & ->).
  exists b1, b2, b3. split; [exact Hp|].
  pose proof (outputs_NoDup cfg s) as ND. unfold outputs in ND.
  apply NoDup_cons_iff in ND as [N1 ND]. apply NoDup_cons_iff in ND as [N2 _].
  assert (D12 : lon_fpath cfg s <> mvbs_fpath cfg s)
    by (intros E; apply N1; simpl; auto).
  assert (D13 : lat_fpath cfg s <> mvbs_fpath cfg s)
    by (intros E; apply N1; simpl; auto).
  assert (D23 : lat_fpath cfg s <> lon_fpath cfg s)
    by (intros E; apply N2; simpl; auto).
  cbn [fs]. repeat split.
  - do 2 (rewrite lookup_insert_ne by assumption). apply lookup_insert_eq.
  - rewrite lookup_insert_ne by assumption. apply lookup_insert_eq.
  - apply lookup_insert_eq.
Qed.

Lemma find_paths_literal (ext : External) (d : list string) (pre suf : string)
    (fs0 : gmap (list string) node) :
  taken_literally ext d = true ->
  find_paths ext d pre suf fs0 = Ok (glob d pre suf fs0).
Proof. intros H. unfold find_paths. now rewrite H. Qed.

Lemma glob_empty (d : list string) (pre suf : string)
    (fs0 : gmap (list string) node) :
  (forall q n, fs0 !! q = Some n -> parent q = d ->
               glob_match pre suf (name q) = false) ->
  glob d pre suf fs0 = ∅.
Proof.
  intros Hno. apply map_eq. intros q. rewrite lookup_empty.
  destruct (glob d pre suf fs0 !! q) as [n|] eqn:E; [|reflexivity].
  apply glob_lookup in E as (E1 & E2 & E3).
  rewrite (Hno q n E1 E2) in E3. discriminate.
Qed.

(** X10.  Where the three directories are taken as they are spelled, what
    a completed iteration stores is what the merger opens: the three files
    of the iteration are among the files its three patterns find.  The
    combined output lies beside the three directories and is found by none
    of the patterns, whatever the file system holds. *)
Theorem stored_outputs_are_opened (ext : External) (cfg : Config)
    (s : string) (w w' : world) :
  Forall (fun d => taken_literally ext d = true) (output_dirs cfg) ->
  convert ext cfg s (Path s) w = (Ok tt, w') ->
  (exists b1 b2 b3 p1 p2 p3,
      products ext cfg s b1 b2 b3 /\
      find_paths ext (calibrated_dpath cfg) "MVBS_" ".nc" (fs w') = Ok p1 /\
      p1 !! mvbs_fpath cfg s = Some (File b1) /\
      find_paths ext (lon_dpath cfg) "" ".nc" (fs w') = Ok p2 /\
      p2 !! lon_fpath cfg s = Some (File b2) /\
      find_paths ext (lat_dpath cfg) "" ".nc" (fs w') = Ok p3 /\
      p3 !! lat_fpath cfg s = Some (File b3)) /\
  (forall (fs0 : gmap (list string) node) d pre suf paths,
      In d (output_dirs cfg) ->
      find_paths ext d pre suf fs0 = Ok paths ->
      paths !! combined_fpath cfg = None).
Proof.
  intros HL H.
  pose proof HL as HL'. unfold output_dirs in HL'.
  apply Forall_cons in HL' as [T1 HL']. apply Forall_cons in HL' as [T2 HL'].
  apply Forall_cons in HL' as [T3 _].
  split.
  - destruct (converted_files_lookup ext cfg s w w' H)
      as (b1 & b2 & b3 & Hp & L1 & L2 & L3).
    exists b1, b2, b3. do 3 eexists. split; [exact Hp|].
    rewrite !find_paths_literal by assumption.
    destruct (output_parent cfg s) as (P1 & P2 & P3).
    destruct (out_name_matches (stem (Path s))) as [M1 M2].
    fold (out_name (Path s)) in M1, M2.
    assert (N : forall d, name (joinpath d (out_name (Path s)))
                          = out_name (Path s)).
    { intros d. rewrite (proj1 (out_name_part s d)).
      apply name_snoc, (proj2 (out_name_part s d)). }
    repeat split; apply glob_lookup; unfold mvbs_fpath, lon_fpath, lat_fpath in *;
      rewrite ?N; auto.
  - intros fs0 d pre suf paths Hd.
    assert (Hlit : taken_literally ext d = true).
    { rewrite Forall_forall in HL. apply HL. now apply list_elem_of_In. }
    rewrite find_paths_literal by assumption. intros [= <-].
    destruct (glob d pre suf fs0 !! combined_fpath cfg) as [n|] eqn:E;
      [|reflexivity].
    apply glob_lookup in E as (_ & Hp & _). exfalso.
    rewrite combined_fpath_parts, parent_snoc in Hp by reflexivity.
    rewrite output_dirs_parts in Hd. subst d. simpl in Hd.
    destruct Hd as [Hd|[Hd|[Hd|[]]]];
      apply (f_equal (@List.length string)) in Hd;
      rewrite length_app in Hd; simpl in Hd; lia.
Qed.

Lemma stored_outputs_are_opened_witness :
  Forall (fun d => taken_literally ext_ok d = true) (output_dirs config) /\
  fst (convert ext_ok config file_a (Path file_a) (fresh_world config))
    = Ok tt /\
  exists p1 b1,
    find_paths ext_ok (calibrated_dpath config) "MVBS_" ".nc"
      (fs (snd (convert ext_ok config file_a (Path file_a)
                  (fresh_world config)))) = Ok p1 /\
    p1 !! mvbs_fpath config file_a = Some (File b1).
Proof.
  assert (L : Forall (fun d => taken_literally ext_ok d = true)
                (output_dirs config))
    by (repeat constructor; vm_compute; reflexivity).
  assert (F :
    fst (convert ext_ok config file_a (Path file_a) (fresh_world config))
      = Ok tt) by (vm_compute; reflexivity).
  split; [exact L|]. split; [exact F|].
  assert (H :
    convert ext_ok config file_a (Path file_a) (fresh_world config) =
    (Ok tt, snd (convert ext_ok config file_a (Path file_a)
                   (fresh_world config))))
    by (rewrite <- F; apply surjective_pairing).
  destruct (stored_outputs_are_opened ext_ok config file_a _ _ L H)
    as [(b1 & b2 & b3 & p1 & p2 & p3 & _ & G1 & E1 & _) _].
  exists p1, b1. split; [exact G1|exact E1].
Defined.

(** X11.  Where the three directories are taken as they are spelled, the
    merger returns only when each of them holds an entry that matches its
    pattern, and raises as soon as one of them holds none; whether it
    returns or raises, the files and the printed lines are as before, so
    that an exception of the merger leaves the outputs of the loop in
    place. *)
Theorem merge_only_reads (ext : External) (cfg : Config) (w w' : world)
    (r : result (Dataset ext)) :
  Forall (fun d => taken_literally ext d = true) (output_dirs cfg) ->
  merge ext cfg w = (r, w') ->
  w' = w /\
  (forall ds, r = Ok ds ->
     Forall (fun '(d, pre, suf) =>
               exists q n, fs w !! q = Some n /\ parent q = d /\
                           glob_match pre suf (name q) = true)
       (merger_patterns cfg)) /\
  (forall d pre suf,
     In (d, pre, suf) (merger_patterns cfg) ->
     (forall q n, fs w !! q = Some n -> parent q = d ->
                  glob_match pre suf (name q) = false) ->
     exists e, r = Raise e).
Proof.
  intros HL H. pose proof (merge_world _ _ _ _ _ H) as ->.
  pose proof HL as HL'. unfold output_dirs in HL'.
  apply Forall_cons in HL' as [T1 HL']. apply Forall_cons in HL' as [T2 HL'].
  apply Forall_cons in HL' as [T3 _].
  assert (Hlit : forall d pre suf,
    In (d, pre, suf) (merger_patterns cfg) -> taken_literally ext d = true).
  { intros d pre suf Hin. unfold merger_patterns in Hin. simpl in Hin.
    destruct Hin as [[= <- _ _]|[[= <- _ _]|[[= <- _ _]|[]]]]; assumption. }
  split; [reflexivity|]. split.
  - intros ds ->. pose proof (merge_found _ _ _ _ _ H) as HF.
    rewrite Forall_forall in HF |- *. intros [[d pre] suf] Hin.
    specialize (HF _ Hin). simpl in HF. destruct HF as (paths & E & Hne).
    apply list_elem_of_In in Hin.
    rewrite find_paths_literal in E by now apply (Hlit d pre suf).
    injection E as <-.
    apply map_choose in Hne as (q & n & Hq).
    apply glob_lookup in Hq. now exists q, n.
  - intros d pre suf Hin Hno.
    destruct (merge_needs_files ext cfg w d pre suf Hin) as (e & E & _).
    { rewrite find_paths_literal by now apply (Hlit d pre suf).
      f_equal. now apply glob_empty. }
    exists e. congruence.
Qed.

Lemma merge_only_reads_witness :
  Forall (fun d => taken_literally ext_ok d = true) (output_dirs config) /\
  merge ext_ok config (fresh_world config) =
    (fst (merge ext_ok config (fresh_world config)),
     snd (merge ext_ok config (fresh_world config))) /\
  snd (merge ext_ok config (fresh_world config)) = fresh_world config /\
  exists e, fst (merge ext_ok config (fresh_world config)) = Raise e.
Proof.
  assert (L : Forall (fun d => taken_literally ext_ok d = true)
                (output_dirs config))
    by (repeat constructor; vm_compute; reflexivity).
  assert (H : merge ext_ok config (fresh_world config) =
              (fst (merge ext_ok config (fresh_world config)),
               snd (merge ext_ok config (fresh_world config))))
    by apply surjective_pairing.
  split; [exact L|]. split; [exact H|].
  destruct (merge_only_reads ext_ok config _ _ _ L H) as (E & _ & R).
  split; [exact E|].
  apply (R (calibrated_dpath config) "MVBS_" ".nc"); [now left|].
  intros q n Hq Hp.
  assert (HLy : layout config (mkWorld ∅ []) = (Ok tt, fresh_world config)).
  { assert (F : fst (layout config (mkWorld ∅ [])) = Ok tt)
      by (vm_compute; reflexivity).
    rewrite <- F. apply surjective_pairing. }
  destruct (layout_result _ _ _ HLy) as (_ & _ & _ & Fr & _).
  destruct (decide (q ∈ layout_dirs config)) as [Hin|Hout];
    [apply list_elem_of_In in Hin|rewrite list_elem_of_In in Hout].
  - exfalso. rewrite layout_dirs_parts in Hin. simpl in Hin.
    destruct Hin as [<-|[<-|[<-|[<-|[]]]]]; vm_compute in Hp;
      discriminate Hp.
  - rewrite (Fr q Hout) in Hq. cbn [fs] in Hq.
    rewrite lookup_empty in Hq. discriminate.
Defined.

(** X12.  A run that returns has gone through every cell: the layout
    exists, the listing was obtained and filtered, the count and one line
    per kept file were printed in this order, the merger returned a dataset
    without changing anything, and the bytes of that dataset are stored as
    [concatenated_MVBS.nc] in the root of the layout, replacing what was
    there. *)
Theorem run_postcondition (ext : External) (cfg : Config) (w w' : world) :
  run ext cfg w = (Ok tt, w') ->
  exists w0 files kept w1 lines MVBS_ds b,
    layout cfg w = (Ok tt, w0) /\
    s3_glob ext "ncei-wcsd-archive/data/raw/Bell_M._Shimada/SH1707/EK60/*.raw"
      = Ok files /\
    date_filter_cells cfg files = Ok kept /\
    main_loop ext cfg kept
      (mkWorld (fs w0) (stdout w0 ++ [found_message kept])%list)
      = (Ok tt, w1) /\
    merge ext cfg w1 = (Ok MVBS_ds, w1) /\
    dataset_bytes ext MVBS_ds = Ok b /\
    fs w' = <[combined_fpath cfg := File b]> (fs w1) /\
    stdout w' = (stdout w ++ found_message kept :: lines)%list /\
    Forall2 reported kept lines.
Proof.
  unfold run, bindM.
  destruct (layout cfg w) as [[[]|] w0] eqn:EL; [|discriminate].
  unfold lift at 1.
  change (bucket ++ "/" ++ rawdirpath ++ "/*.raw")
    with "ncei-wcsd-archive/data/raw/Bell_M._Shimada/SH1707/EK60/*.raw".
  destruct (s3_glob ext _) as [files|] eqn:EG; [|discriminate].
  unfold lift at 1.
  destruct (date_filter_cells cfg files) as [kept|] eqn:EF; [|discriminate].
  unfold print at 1. cbn [fs stdout].
  destruct (main_loop_total ext cfg kept
              (mkWorld (fs w0) (stdout w0 ++ [found_message kept])%list))
    as (w1 & lines & EM & Hout & Hrep).
  rewrite EM.
  destruct (merge ext cfg w1) as [[MVBS_ds|] w2] eqn:EMg; [|discriminate].
  pose proof (merge_world _ _ _ _ _ EMg) as ->.
  intros H. apply to_netcdf_ok in H as (b & Hb & _ & ->).
  exists w0, files, kept, w1, lines, MVBS_ds, b.
  destruct (layout_result _ _ _ EL) as (_ & _ & _ & _ & O0 & _).
  repeat split; auto.
  cbn [stdout] in *. rewrite Hout, O0, <- app_assoc. reflexivity.
Qed.

Lemma run_postcondition_witness :
  fst (run ext_ok config (mkWorld ∅ [])) = Ok tt /\
  exists w1 b,
    fs (snd (run ext_ok config (mkWorld ∅ []))) =
    <[combined_fpath config := File b]> (fs w1).
Proof.
  assert (F : fst (run ext_ok config (mkWorld ∅ [])) = Ok tt)
    by (vm_compute; reflexivity).
  split; [exact F|].
  assert (H : run ext_ok config (mkWorld ∅ []) =
              (Ok tt, snd (run ext_ok config (mkWorld ∅ []))))
    by (rewrite <- F; apply surjective_pairing).
  destruct (run_postcondition ext_ok config _ _ H)
    as (w0 & files & kept & w1 & lines & ds & b & _ & _ & _ & _ & _ & _ & E & _).
  exists w1, b. exact E.
Defined.

(** X13.  Whatever the remote path, the name of its outputs is one path
    component, different from [.] and [..]: each of the three outputs lies
    directly in its own directory of the layout. *)
Theorem outputs_stay_in_their_directories (cfg : Config) (s : string) :
  no_sep (out_name (Path s)) = true /\
  out_name (Path s) <> "." /\ out_name (Path s) <> ".." /\
  Forall2
    (fun o d =>
       o = (d ++ [out_name (Path s)])%list /\ parent o = d /\
       name o = out_name (Path s))
    (outputs cfg s) (output_dirs cfg).
Proof.
  assert (Hlen : (8 <= String.length (out_name (Path s)))%nat).
  { unfold out_name. rewrite !length_append. simpl. lia. }
  split; [unfold out_name; rewrite !no_sep_app, stem_no_sep; reflexivity|].
  split; [intros E; rewrite E in Hlen; simpl in Hlen; lia|].
  split; [intros E; rewrite E in Hlen; simpl in Hlen; lia|].
  destruct (output_parent cfg s) as (P1 & P2 & P3).
  assert (N : forall d, joinpath d (out_name (Path s))
                        = (d ++ [out_name (Path s)])%list /\
                        name (joinpath d (out_name (Path s)))
                        = out_name (Path s)).
  { intros d. rewrite (proj1 (out_name_part s d)). split; [reflexivity|].
    apply name_snoc, (proj2 (out_name_part s d)). }
  unfold outputs, output_dirs, mvbs_fpath, lon_fpath, lat_fpath in *.
  repeat constructor; try apply N; assumption.
Qed.
